(** * cpupower-gui-qml: the privileged helper, the operation scheduler and
      the per-CPU settings controller

    A shallow embedding of
    - [HelperService] (helperservice.cpp): polkit authorization with its
      cache, the ordered writes of the scaling bounds, the single-field
      writes and the sysfs list parsers;
    - [DbusHelper] (dbushelper.cpp): the queue of asynchronous calls and
      its batch mode;
    - [CpuSettings] (cpusettings.cpp): original and pending values of one
      CPU and [applyChanges];
    - [SysfsReader] (sysfsreader.cpp): the unprivileged reader of the
      same files;
    - [CpuListModel] (cpulistmodel.cpp): the list of controllers;
    - [Application] (application.cpp): what is pending in the interface,
      and the batches it hands to the scheduler;
    - [ProfileManager] (profilemanager.cpp): profiles and their files.

    Conventions.  A C++ [int] is a [Z] in the 32-bit range; the one place
    where the source increments an [int] without a bound writes the
    wrap-around out.  A [QString] is a [string] (code units below 256).
    [QMap<QString, bool>] is a [gmap string bool]; sysfs is a finite map
    from paths to files.  Logging ([qDebug], [qWarning], [qInfo]) has no
    effect on any value and is left out. *)

From Stdlib Require Import ZArith String Ascii List Bool Lia.
From Stdlib Require Import DecimalString DecimalZ DecimalPos.
From stdpp Require Import gmap strings list.

Local Open Scope string_scope.
Local Open Scope list_scope.
Local Open Scope Z_scope.

(** ** Qt value types used by the code *)

Module QString.

(** [QChar::isSpace]: U+0009..U+000D, U+0020, and in the Latin-1 range
    U+0085 and U+00A0. *)
Definition isSpace (c : ascii) : bool :=
  let n := N_of_ascii c in
  ((9 <=? n)%N && (n <=? 13)%N) || (n =? 32)%N || (n =? 133)%N || (n =? 160)%N.

(** The class [\s] of [QRegularExpression] without the Unicode-properties
    option: the six ASCII white-space characters. *)
Definition isRegexSpace (c : ascii) : bool :=
  let n := N_of_ascii c in
  ((9 <=? n)%N && (n <=? 13)%N) || (n =? 32)%N.

Definition isEmpty (s : string) : bool :=
  match s with EmptyString => true | String _ _ => false end.

Fixpoint trimLeft (s : string) : string :=
  match s with
  | EmptyString => EmptyString
  | String c r => if isSpace c then trimLeft r else s
  end.

Fixpoint trimRight (s : string) : string :=
  match s with
  | EmptyString => EmptyString
  | String c r =>
      let r' := trimRight r in
      if isSpace c && isEmpty r' then EmptyString else String c r'
  end.

(** [QString::trimmed()]: white space removed from both ends. *)
Definition trimmed (s : string) : string := trimRight (trimLeft s).

(** [QString::contains(QChar)]. *)
Fixpoint contains (ch : ascii) (s : string) : bool :=
  match s with
  | EmptyString => false
  | String c r => Ascii.eqb c ch || contains ch r
  end.

(** Splitting at every character that satisfies [sep], empty pieces
    kept: a string without separator is one piece, the empty string
    included. *)
Fixpoint splitAt (sep : ascii -> bool) (s : string) : list string :=
  match s with
  | EmptyString => [EmptyString]
  | String c r =>
      if sep c then EmptyString :: splitAt sep r
      else match splitAt sep r with
           | piece :: pieces => String c piece :: pieces
           | [] => [String c EmptyString]
           end
  end.

Inductive SplitBehavior := KeepEmptyParts | SkipEmptyParts.

(** [QString::split(QChar, Qt::SplitBehavior)]. *)
Definition split (sep : ascii) (behavior : SplitBehavior) (s : string) : list string :=
  let pieces := splitAt (Ascii.eqb sep) s in
  match behavior with
  | KeepEmptyParts => pieces
  | SkipEmptyParts => List.filter (fun p => negb (isEmpty p)) pieces
  end.

(** [QString::split(QRegularExpression("\\s+"), Qt::SkipEmptyParts)]:
    with empty pieces dropped, splitting at runs of white space and at
    every white-space character give the same pieces. *)
Definition splitWhitespace (s : string) : list string :=
  List.filter (fun p => negb (isEmpty p)) (splitAt isRegexSpace s).

Definition INT_MAX : Z := 2147483647.
Definition INT_MIN : Z := -2147483648.

Definition inIntRange (z : Z) : bool := (INT_MIN <=? z) && (z <=? INT_MAX).

(** Two's-complement wrap-around of a 32-bit [int]. *)
Definition wrapInt (z : Z) : Z := (z + 2147483648) mod 4294967296 - 2147483648.

(** A decimal literal as [QString::toInt] reads it in the C locale: an
    optional sign, then at least one digit, nothing else. *)
Definition parseDecimal (s : string) : option Z :=
  match s with
  | String "+" r => option_map (fun d => Z.of_int (Decimal.Pos d)) (NilZero.uint_of_string r)
  | _ => option_map Z.of_int (NilZero.int_of_string s)
  end.

(** [QString::toInt()]: surrounding white space is ignored; the result
    is 0 when the text is not a decimal literal or does not fit an
    [int]. *)
Definition toInt (s : string) : Z :=
  match parseDecimal (trimmed s) with
  | Some z => if inIntRange z then z else 0
  | None => 0
  end.

(** [QString::number(int)]. *)
Definition number (z : Z) : string := NilZero.string_of_int (Z.to_int z).

(** Text without white space and without a plus sign, as [number] prints it. *)
Fixpoint plain (s : string) : bool :=
  match s with
  | EmptyString => true
  | String c r => negb (isSpace c) && negb (Ascii.eqb c "+") && plain r
  end.

End QString.

Import QString.

(** ** The privileged helper: helperservice.cpp, helperservice.h *)

Module HelperService.

(** A sysfs file: its text, and whether [QFile::open(WriteOnly)] succeeds
    on it.  A path outside the map does not exist; sysfs creates no file
    on open, so opening such a path fails for reading and for writing. *)
Record SysfsFile := { content : string; writable : bool }.

(** The first reply argument of [CheckAuthorization], as the code reads
    it through [QDBusArgument]: the structure [(bba{ss})], or a value
    from which nothing can be extracted, which leaves both booleans at
    their initial [false]. *)
Inductive ReplyArg :=
| AuthorizationResult (is_authorized is_challenge : bool) (details : list (string * string))
| Unreadable.

Inductive DBusReply :=
| ErrorMessage (errorMessage : string)
| ReplyMessage (arguments : list ReplyArg).

(** [calledFromDBus()] and [message().service()]. *)
Inductive Caller :=
| LocalCall
| DBusCall (service : string).

Record State := {
  sysfs : gmap string SysfsFile;
  m_authorizedSenders : gmap string bool;
  m_idleTimeoutSecs : Z;
  (** interval in ms of the running single-shot timer *)
  m_idleTimer : option Z;
  (** [CheckAuthorization] calls issued so far: subject and action *)
  polkitCalls : list (string * string);
  (** [writeSysfsFile] calls so far: path and value *)
  writes : list (string * string)
}.

Definition with_sysfs (fs : gmap string SysfsFile) (st : State) : State :=
  {| sysfs := fs; m_authorizedSenders := m_authorizedSenders st;
     m_idleTimeoutSecs := m_idleTimeoutSecs st; m_idleTimer := m_idleTimer st;
     polkitCalls := polkitCalls st; writes := writes st |}.
Definition with_authorizedSenders (c : gmap string bool) (st : State) : State :=
  {| sysfs := sysfs st; m_authorizedSenders := c;
     m_idleTimeoutSecs := m_idleTimeoutSecs st; m_idleTimer := m_idleTimer st;
     polkitCalls := polkitCalls st; writes := writes st |}.
Definition with_idleTimer (t : option Z) (st : State) : State :=
  {| sysfs := sysfs st; m_authorizedSenders := m_authorizedSenders st;
     m_idleTimeoutSecs := m_idleTimeoutSecs st; m_idleTimer := t;
     polkitCalls := polkitCalls st; writes := writes st |}.
Definition with_polkitCalls (l : list (string * string)) (st : State) : State :=
  {| sysfs := sysfs st; m_authorizedSenders := m_authorizedSenders st;
     m_idleTimeoutSecs := m_idleTimeoutSecs st; m_idleTimer := m_idleTimer st;
     polkitCalls := l; writes := writes st |}.
Definition with_writes (l : list (string * string)) (st : State) : State :=
  {| sysfs := sysfs st; m_authorizedSenders := m_authorizedSenders st;
     m_idleTimeoutSecs := m_idleTimeoutSecs st; m_idleTimer := m_idleTimer st;
     polkitCalls := polkitCalls st; writes := l |}.

(** A member function: it reads and changes the service's state, and has
    no result when a loop in it does not finish. *)
Definition M (A : Type) : Type := State -> option (A * State).

Definition ret {A} (a : A) : M A := fun st => Some (a, st).
Definition bind {A B} (c : M A) (k : A -> M B) : M B :=
  fun st => match c st with
            | Some (a, st') => k a st'
            | None => None
            end.
Definition total {A} (f : State -> A * State) : M A := fun st => Some (f st).
Definition partial {A} (o : option A) : M A :=
  fun st => match o with Some a => Some (a, st) | None => None end.

Notation "'let!' x ':=' c 'in' k" := (bind c (fun x => k))
  (at level 10, x name, c at level 100, k at level 200, only parsing).

Definition SYS_CPU_PATH := "/sys/devices/system/cpu".
Definition CPUFREQ_DIR := "cpufreq".
Definition SCALING_MIN_FREQ := "scaling_min_freq".
Definition SCALING_MAX_FREQ := "scaling_max_freq".
Definition CPUINFO_MIN_FREQ := "cpuinfo_min_freq".
Definition CPUINFO_MAX_FREQ := "cpuinfo_max_freq".
Definition SCALING_GOVERNOR := "scaling_governor".
Definition SCALING_AVAILABLE_GOV := "scaling_available_governors".
Definition ENERGY_PERF_AVAIL := "energy_performance_available_preferences".
Definition ENERGY_PERF_PREF := "energy_performance_preference".
Definition ONLINE_FILE := "online".

Definition APPLY_RUNTIME := "io.github.cpupower_gui.qt.apply_runtime".

(** [QStringLiteral("%1/%2").arg(dir, name)]. *)
Definition inDir (dir name : string) : string := dir +:+ "/" +:+ name.

Definition cpuPath (cpu : Z) : string := SYS_CPU_PATH +:+ "/cpu" +:+ number cpu.
Definition cpufreqPath (cpu : Z) : string :=
  SYS_CPU_PATH +:+ "/cpu" +:+ number cpu +:+ "/" +:+ CPUFREQ_DIR.
(** [QStringLiteral("%1/cpu%2/%3").arg(SYS_CPU_PATH).arg(cpu).arg(ONLINE_FILE)]. *)
Definition cpuOnlinePath (cpu : Z) : string :=
  SYS_CPU_PATH +:+ "/cpu" +:+ number cpu +:+ "/" +:+ ONLINE_FILE.

(** *** Files *)

Definition fileExists (fs : gmap string SysfsFile) (path : string) : bool :=
  match fs !! path with Some _ => true | None => false end.

Definition fileText (fs : gmap string SysfsFile) (path : string) : string :=
  match fs !! path with Some f => content f | None => EmptyString end.

(** The effect of one [writeSysfsFile] on sysfs: whether the file could
    be opened, and the files afterwards. *)
Definition fileWrite (fs : gmap string SysfsFile) (path value : string)
  : bool * gmap string SysfsFile :=
  match fs !! path with
  | Some f =>
      if writable f then (true, <[path := {| content := value; writable := true |}]> fs)
      else (false, fs)
  | None => (false, fs)
  end.

Definition readSysfsFile (path : string) : M string :=
  fun st => Some (fileText (sysfs st) path, st).

Definition writeSysfsFile (path value : string) : M bool :=
  fun st =>
    let (ok, fs) := fileWrite (sysfs st) path value in
    Some (ok, with_writes (writes st ++ [(path, value)]) (with_sysfs fs st)).

Definition exists_ (path : string) : M bool :=
  fun st => Some (fileExists (sysfs st) path, st).

(** *** Parsers *)

(** [for (int i = start; i <= end; ++i) result.append(i);] with at most
    [fuel] iterations; [++i] wraps.  [None]: the loop has not finished. *)
Fixpoint rangeLoop (fuel : nat) (i end_ : Z) (result : list Z) : option (list Z) :=
  if i <=? end_ then
    match fuel with
    | O => None
    | S fuel' => rangeLoop fuel' (wrapInt (i + 1)) end_ (result ++ [i])
    end
  else Some result.

(** The body of the loop over the parts. *)
Definition parsePart (fuel : nat) (part : string) (result : list Z) : option (list Z) :=
  if contains "-" part then
    let range := split "-" KeepEmptyParts part in
    match range with
    | [first; second] =>
        let start := toInt first in
        let end_ := toInt second in
        rangeLoop fuel start end_ result
    | _ => Some result
    end
  else Some (result ++ [toInt part]).

Fixpoint parseParts (fuel : nat) (parts : list string) (result : list Z) : option (list Z) :=
  match parts with
  | [] => Some result
  | part :: rest =>
      match parsePart fuel part result with
      | Some result' => parseParts fuel rest result'
      | None => None
      end
  end.

Definition parseCpuList (fuel : nat) (content : string) : option (list Z) :=
  let trimmed := trimmed content in
  if isEmpty trimmed then Some []
  else parseParts fuel (split "," SkipEmptyParts trimmed) [].

Definition parseList (content : string) : list string :=
  let trimmed := trimmed content in
  if isEmpty trimmed then [] else splitWhitespace trimmed.

(** [QList<int>::contains], [QStringList::contains]. *)
Definition containsInt (l : list Z) (x : Z) : bool := existsb (Z.eqb x) l.
Definition containsString (l : list string) (x : string) : bool := existsb (String.eqb x) l.

Section Service.

(** The policy authority: its reply to the [n]-th [CheckAuthorization]
    call of this process, for a subject and an action. *)
Variable polkit : nat -> string -> string -> DBusReply.

(** Bound on the iterations of each range loop of [parseCpuList]. *)
Variable fuel : nat.

Definition resetIdleTimer : M unit :=
  fun st =>
    if 0 <? m_idleTimeoutSecs st
    then Some (tt, with_idleTimer (Some (wrapInt (m_idleTimeoutSecs st * 1000))) st)
    else Some (tt, st).

(** **** Authorization *)

Definition checkPolkitAuthorization (sender actionId : string) : State -> bool * State :=
  fun st =>
    let cacheKey := sender +:+ actionId in
    match m_authorizedSenders st !! cacheKey with
    | Some cached => (cached, st)
    | None =>
        let reply := polkit (length (polkitCalls st)) sender actionId in
        let st := with_polkitCalls (polkitCalls st ++ [(sender, actionId)]) st in
        match reply with
        | ErrorMessage _ => (false, st)
        | ReplyMessage [] => (false, st)
        | ReplyMessage (resultArg :: _) =>
            let '(isAuthorized, isChallenge) :=
              match resultArg with
              | AuthorizationResult a c _ => (a, c)
              | Unreadable => (false, false)
              end in
            let st :=
              if isAuthorized && negb isChallenge
              then with_authorizedSenders (<[cacheKey := true]> (m_authorizedSenders st)) st
              else st in
            (isAuthorized, st)
        end
    end.

Definition isAuthorized (caller : Caller) (actionId : string) : State -> bool * State :=
  fun st =>
    match caller with
    | LocalCall => (true, st)
    | DBusCall sender => checkPolkitAuthorization sender actionId st
    end.

Definition isauthorized (caller : Caller) : M Z :=
  let! _ := resetIdleTimer in
  let! ok := total (isAuthorized caller APPLY_RUNTIME) in
  ret (if ok then 1 else 0).

(** **** Queries *)

Definition get_cpus_online : M (list Z) :=
  let! _ := resetIdleTimer in
  let! content := readSysfsFile (inDir SYS_CPU_PATH "online") in
  partial (parseCpuList fuel content).

Definition get_cpus_offline : M (list Z) :=
  let! _ := resetIdleTimer in
  let! content := readSysfsFile (inDir SYS_CPU_PATH "offline") in
  partial (parseCpuList fuel content).

Definition get_cpus_present : M (list Z) :=
  let! _ := resetIdleTimer in
  let! content := readSysfsFile (inDir SYS_CPU_PATH "present") in
  partial (parseCpuList fuel content).

Definition isOnline (cpu : Z) : M bool :=
  let! online := get_cpus_online in
  ret (containsInt online cpu).

Definition isPresent (cpu : Z) : M bool :=
  let! present := get_cpus_present in
  ret (containsInt present cpu).

(** [!isPresent(cpu) || !isOnline(cpu)], left to right. *)
Definition notPresentOrNotOnline (cpu : Z) : M bool :=
  let! present := isPresent cpu in
  if negb present then ret true
  else let! online := isOnline cpu in ret (negb online).

Definition get_cpu_energy_preferences (cpu : Z) : M (list string) :=
  let! _ := resetIdleTimer in
  let! unavailable := notPresentOrNotOnline cpu in
  if unavailable then ret []
  else
    let! content := readSysfsFile (inDir (cpufreqPath cpu) ENERGY_PERF_AVAIL) in
    ret (parseList content).

Definition get_cpu_frequencies (cpu : Z) : M (list Z) :=
  let! _ := resetIdleTimer in
  let! unavailable := notPresentOrNotOnline cpu in
  if unavailable then ret [0; 0]
  else
    let! minStr := readSysfsFile (inDir (cpufreqPath cpu) SCALING_MIN_FREQ) in
    let! maxStr := readSysfsFile (inDir (cpufreqPath cpu) SCALING_MAX_FREQ) in
    ret [toInt (trimmed minStr); toInt (trimmed maxStr)].

Definition cpu_allowed_offline (cpu : Z) : M Z :=
  let! _ := resetIdleTimer in
  let! present := exists_ (cpuOnlinePath cpu) in
  ret (if present then 1 else 0).

(** **** Mutations *)

Definition update_cpu_settings (caller : Caller) (cpu freq_min freq_max : Z) : M Z :=
  let! _ := resetIdleTimer in
  let! authorized := total (isAuthorized caller APPLY_RUNTIME) in
  if negb authorized then ret (-1)
  else
    let! unavailable := notPresentOrNotOnline cpu in
    if unavailable then ret (-1)
    else
      let basePath := cpufreqPath cpu in
      (* Read current values to determine write order *)
      let! curMinStr := readSysfsFile (inDir basePath SCALING_MIN_FREQ) in
      let! curMaxStr := readSysfsFile (inDir basePath SCALING_MAX_FREQ) in
      let curMin := toInt (trimmed curMinStr) in
      let curMax := toInt (trimmed curMaxStr) in
      let! success :=
        if freq_max <? curMin then
          (* New max is lower than current min - must lower min first *)
          let! okMin := writeSysfsFile (inDir basePath SCALING_MIN_FREQ) (number freq_min) in
          let! okMax := writeSysfsFile (inDir basePath SCALING_MAX_FREQ) (number freq_max) in
          ret (okMin && okMax)
        else if freq_min >? curMax then
          (* New min is higher than current max - must raise max first *)
          let! okMax := writeSysfsFile (inDir basePath SCALING_MAX_FREQ) (number freq_max) in
          let! okMin := writeSysfsFile (inDir basePath SCALING_MIN_FREQ) (number freq_min) in
          ret (okMax && okMin)
        else
          (* No conflict - write in standard order (min first, then max) *)
          let! okMin := writeSysfsFile (inDir basePath SCALING_MIN_FREQ) (number freq_min) in
          let! okMax := writeSysfsFile (inDir basePath SCALING_MAX_FREQ) (number freq_max) in
          ret (okMin && okMax) in
      (* Verify the result: read back, logged only *)
      let! newMinStr := readSysfsFile (inDir basePath SCALING_MIN_FREQ) in
      let! newMaxStr := readSysfsFile (inDir basePath SCALING_MAX_FREQ) in
      ret (if success then 0 else -13).

Definition update_cpu_governor (caller : Caller) (cpu : Z) (governor : string) : M Z :=
  let! _ := resetIdleTimer in
  let! authorized := total (isAuthorized caller APPLY_RUNTIME) in
  if negb authorized then ret (-1)
  else
    let! unavailable := notPresentOrNotOnline cpu in
    if unavailable then ret (-1)
    else
      let path := inDir (cpufreqPath cpu) SCALING_GOVERNOR in
      let! ok := writeSysfsFile path governor in
      if negb ok then ret (-13) else ret 0.

Definition update_cpu_energy_prefs (caller : Caller) (cpu : Z) (pref : string) : M Z :=
  let! _ := resetIdleTimer in
  let! authorized := total (isAuthorized caller APPLY_RUNTIME) in
  if negb authorized then ret (-1)
  else
    let! unavailable := notPresentOrNotOnline cpu in
    if unavailable then ret (-1)
    else
      (* Check if pref is available *)
      let! available := get_cpu_energy_preferences cpu in
      if negb (containsString available pref) then ret 0
      else
        let path := inDir (cpufreqPath cpu) ENERGY_PERF_PREF in
        let! present := exists_ path in
        if negb present then ret 0
        else
          let! ok := writeSysfsFile path pref in
          if negb ok then ret (-13) else ret 0.

Definition set_cpu_online (caller : Caller) (cpu : Z) : M Z :=
  let! _ := resetIdleTimer in
  let! authorized := total (isAuthorized caller APPLY_RUNTIME) in
  if negb authorized then ret (-1)
  else
    let path := cpuOnlinePath cpu in
    let! present := exists_ path in
    if negb present then ret (-1)
    else
      let! ok := writeSysfsFile path "1" in
      if negb ok then ret (-13) else ret 0.

Definition set_cpu_offline (caller : Caller) (cpu : Z) : M Z :=
  let! _ := resetIdleTimer in
  let! authorized := total (isAuthorized caller APPLY_RUNTIME) in
  if negb authorized then ret (-1)
  else
    let path := cpuOnlinePath cpu in
    let! present := exists_ path in
    if negb present then ret (-1)
    else
      let! ok := writeSysfsFile path "0" in
      if negb ok then ret (-13) else ret 0.

End Service.

(** *** Notions used in the statements *)

(** [isPresent] and [isOnline] as functions of sysfs: whether [cpu] is in
    the list parsed from [file] of the CPU directory. *)
Definition cpuListed (fuel : nat) (fs : gmap string SysfsFile) (file : string) (cpu : Z)
  : option bool :=
  option_map (fun l => containsInt l cpu)
    (parseCpuList fuel (fileText fs (inDir SYS_CPU_PATH file))).

Definition minPath (cpu : Z) : string := inDir (cpufreqPath cpu) SCALING_MIN_FREQ.
Definition maxPath (cpu : Z) : string := inDir (cpufreqPath cpu) SCALING_MAX_FREQ.

(** The scaling bounds of [cpu] as the service reads them. *)
Definition scalingMin (fs : gmap string SysfsFile) (cpu : Z) : Z :=
  toInt (trimmed (fileText fs (minPath cpu))).
Definition scalingMax (fs : gmap string SysfsFile) (cpu : Z) : Z :=
  toInt (trimmed (fileText fs (maxPath cpu))).

Definition boundsOrdered (fs : gmap string SysfsFile) (cpu : Z) : Prop :=
  scalingMin fs cpu <= scalingMax fs cpu.

(** sysfs after a sequence of writes, each a path and a value. *)
Definition afterWrites (fs : gmap string SysfsFile) (ws : list (string * string))
  : gmap string SysfsFile :=
  fold_left (fun fs w => snd (fileWrite fs (fst w) (snd w))) ws fs.

Definition writeSucceeds (fs : gmap string SysfsFile) (w : string * string) : bool :=
  fst (fileWrite fs (fst w) (snd w)).

(** The state after [resetIdleTimer]. *)
Definition timerReset (st : State) : State :=
  if 0 <? m_idleTimeoutSecs st
  then with_idleTimer (Some (wrapInt (m_idleTimeoutSecs st * 1000))) st
  else st.

(** The preferences a CPU supports: the list in its
    [energy_performance_available_preferences]. *)
Definition supportedPrefs (fs : gmap string SysfsFile) (cpu : Z) : list string :=
  parseList (fileText fs (inDir (cpufreqPath cpu) ENERGY_PERF_AVAIL)).

(** A call that returned -1 and left every file and the list of writes
    as they were in [st]. *)
Definition refusedWithoutWrite (st : State) (r : option (Z * State)) : Prop :=
  exists st', r = Some (-1, st') /\ writes st' = writes st /\ sysfs st' = sysfs st.

(** A sequence of authorization checks, each for a subject and an action. *)
Definition checks (polkit : nat -> string -> string -> DBusReply)
    (requests : list (string * string)) (st : State) : State :=
  fold_left (fun st r => snd (checkPolkitAuthorization polkit (fst r) (snd r) st)) requests st.

(** The replies that carry no decision: a D-Bus error, a reply without
    arguments, a first argument that cannot be read as [(bba{ss})]. *)
Definition carriesNoDecision (reply : DBusReply) : bool :=
  match reply with
  | ErrorMessage _ => true
  | ReplyMessage [] => true
  | ReplyMessage (Unreadable :: _) => true
  | ReplyMessage (AuthorizationResult _ _ _ :: _) => false
  end.

(** A part whose range loop ends: not a two-piece range, or one whose
    upper end is below [INT_MAX]. *)
Definition rangeEnds (part : string) : Prop :=
  match split "-" KeepEmptyParts part with
  | [_; second] => toInt second < INT_MAX
  | _ => True
  end.

(** Iterations that suffice for any range of [int]s. *)
Definition enoughFuel (fuel : nat) : Prop := 4294967296 <= Z.of_nat fuel.

(** The bounds stay ordered after each of the two writes of
    [update_cpu_settings], whatever the outcome of the first write. *)
Definition boundsOrderedAfterEveryWrite
    (polkit : nat -> string -> string -> DBusReply) (fuel : nat)
    (caller : Caller) (st : State) (cpu new_min new_max : Z) : Prop :=
  exists code st' first second,
    update_cpu_settings polkit fuel caller cpu new_min new_max st = Some (code, st') /\
    writes st' = writes st ++ [first; second] /\
    boundsOrdered (afterWrites (sysfs st) [first]) cpu /\
    boundsOrdered (afterWrites (sysfs st) [first; second]) cpu.

(** *** A machine to run the service on *)

Definition sysfsOf (files : list (string * (string * bool))) : gmap string SysfsFile :=
  list_to_map
    (List.map (fun e => (fst e, {| content := fst (snd e); writable := snd (snd e) |})) files).

(** The service as constructed, on the given files. *)
Definition serviceOn (fs : gmap string SysfsFile) : State :=
  {| sysfs := fs; m_authorizedSenders := ∅; m_idleTimeoutSecs := 60; m_idleTimer := None;
     polkitCalls := []; writes := [] |}.

(** Four CPUs; CPU 0 has bounds 2000000..3000000 kHz and no [online]
    file.  [minWritable] says whether its lower bound can be opened for
    writing. *)
Definition fourCpus (minWritable : bool) : State :=
  serviceOn (sysfsOf
    [("/sys/devices/system/cpu/present", ("0-3", false));
     ("/sys/devices/system/cpu/online", ("0-3", false));
     ("/sys/devices/system/cpu/offline", ("", false));
     ("/sys/devices/system/cpu/cpu0/cpufreq/scaling_min_freq", ("2000000", minWritable));
     ("/sys/devices/system/cpu/cpu0/cpufreq/scaling_max_freq", ("3000000", true));
     ("/sys/devices/system/cpu/cpu0/cpufreq/scaling_governor", ("powersave", true));
     ("/sys/devices/system/cpu/cpu0/cpufreq/scaling_available_governors",
      ("performance powersave", false));
     ("/sys/devices/system/cpu/cpu0/cpufreq/energy_performance_available_preferences",
      ("default performance balance_performance balance_power power", false));
     ("/sys/devices/system/cpu/cpu0/cpufreq/energy_performance_preference",
      ("balance_performance", true));
     ("/sys/devices/system/cpu/cpu2/cpufreq/scaling_min_freq", ("800000", true));
     ("/sys/devices/system/cpu/cpu2/cpufreq/scaling_max_freq", ("2000000", true));
     ("/sys/devices/system/cpu/cpu2/online", ("1", true))]).

(** An authority that cannot be reached. *)
Definition noAuthority : nat -> string -> string -> DBusReply :=
  fun _ _ _ => ErrorMessage "org.freedesktop.DBus.Error.ServiceUnknown".

(** An authority that grants the first request and denies the later ones. *)
Definition grantedOnce : nat -> string -> string -> DBusReply :=
  fun n _ _ =>
    match n with
    | O => ReplyMessage [AuthorizationResult true false []]
    | _ => ReplyMessage [AuthorizationResult false false []]
    end.

(** An authority that denies the first request and grants the later ones. *)
Definition deniedOnce : nat -> string -> string -> DBusReply :=
  fun n _ _ =>
    match n with
    | O => ReplyMessage [AuthorizationResult false false []]
    | _ => ReplyMessage [AuthorizationResult true false []]
    end.

End HelperService.

(** ** The older revision of helperservice.cpp kept in the repository

    It differs from the current one in the two functions below (and in
    having no idle timer): every decision is cached, and the lower bound
    is always written first, the function returning at the first write
    that fails. *)

Module Superseded.

Import HelperService.

Section Service.

Variable polkit : nat -> string -> string -> DBusReply.
Variable fuel : nat.

Definition checkPolkitAuthorization (sender actionId : string) : State -> bool * State :=
  fun st =>
    let cacheKey := sender +:+ actionId in
    match m_authorizedSenders st !! cacheKey with
    | Some cached => (cached, st)
    | None =>
        let reply := polkit (length (polkitCalls st)) sender actionId in
        let st := with_polkitCalls (polkitCalls st ++ [(sender, actionId)]) st in
        match reply with
        | ErrorMessage _ => (false, st)
        | ReplyMessage [] => (false, st)
        | ReplyMessage (resultArg :: _) =>
            let isAuthorized :=
              match resultArg with
              | AuthorizationResult a _ _ => a
              | Unreadable => false
              end in
            (* Cache result *)
            (isAuthorized,
             with_authorizedSenders (<[cacheKey := isAuthorized]> (m_authorizedSenders st)) st)
        end
    end.

Definition isAuthorized (caller : Caller) (actionId : string) : State -> bool * State :=
  fun st =>
    match caller with
    | LocalCall => (true, st)
    | DBusCall sender => checkPolkitAuthorization sender actionId st
    end.

Definition get_cpus_online : M (list Z) :=
  let! content := readSysfsFile (inDir SYS_CPU_PATH "online") in
  partial (parseCpuList fuel content).

Definition get_cpus_present : M (list Z) :=
  let! content := readSysfsFile (inDir SYS_CPU_PATH "present") in
  partial (parseCpuList fuel content).

Definition notPresentOrNotOnline (cpu : Z) : M bool :=
  let! present := get_cpus_present in
  if negb (containsInt present cpu) then ret true
  else let! online := get_cpus_online in ret (negb (containsInt online cpu)).

Definition update_cpu_settings (caller : Caller) (cpu freq_min freq_max : Z) : M Z :=
  let! authorized := total (isAuthorized caller APPLY_RUNTIME) in
  if negb authorized then ret (-1)
  else
    let! unavailable := notPresentOrNotOnline cpu in
    if unavailable then ret (-1)
    else
      let basePath := cpufreqPath cpu in
      (* Write min frequency first (to avoid min > max temporarily) *)
      let! okMin := writeSysfsFile (inDir basePath SCALING_MIN_FREQ) (number freq_min) in
      if negb okMin then ret (-13)
      else
        let! okMax := writeSysfsFile (inDir basePath SCALING_MAX_FREQ) (number freq_max) in
        if negb okMax then ret (-13) else ret 0.

End Service.

End Superseded.

(** ** The client-side scheduler: dbushelper.cpp, dbushelper.h *)

Module DbusHelper.

Inductive QVariant :=
| VInt (i : Z)
| VString (s : string).

Record QueuedOperation := {
  method : string;
  args : list QVariant;
  description : string
}.

Inductive Signal :=
| operationInProgressChanged
| operationFailed (error : string)
| operationSucceeded
| batchCompleted (allSucceeded : bool) (errors : list string).

(** What a finished [QDBusPendingReply<int>] holds. *)
Inductive PendingReply :=
| ReplyError (message : string)
| ReplyValue (value : Z).

Record State := {
  m_connected : bool;
  m_operationInProgress : bool;
  m_batchMode : bool;
  m_operationQueue : list QueuedOperation;
  m_batchErrors : list string;
  m_batchHadErrors : bool;
  (** the watchers of the calls in flight, each with its
      [operationDescription] property *)
  watchers : list string;
  (** operations taken off the queue so far, in order *)
  started : list QueuedOperation;
  (** asynchronous calls sent to the bus so far, in order *)
  calls : list QueuedOperation;
  (** signals emitted so far, in order *)
  emitted : list Signal
}.

Definition with_operationInProgress (b : bool) (d : State) : State :=
  {| m_connected := m_connected d; m_operationInProgress := b; m_batchMode := m_batchMode d;
     m_operationQueue := m_operationQueue d; m_batchErrors := m_batchErrors d;
     m_batchHadErrors := m_batchHadErrors d; watchers := watchers d;
     started := started d; calls := calls d; emitted := emitted d |}.
Definition with_batchMode (b : bool) (d : State) : State :=
  {| m_connected := m_connected d; m_operationInProgress := m_operationInProgress d;
     m_batchMode := b;
     m_operationQueue := m_operationQueue d; m_batchErrors := m_batchErrors d;
     m_batchHadErrors := m_batchHadErrors d; watchers := watchers d;
     started := started d; calls := calls d; emitted := emitted d |}.
Definition with_operationQueue (q : list QueuedOperation) (d : State) : State :=
  {| m_connected := m_connected d; m_operationInProgress := m_operationInProgress d;
     m_batchMode := m_batchMode d;
     m_operationQueue := q; m_batchErrors := m_batchErrors d;
     m_batchHadErrors := m_batchHadErrors d; watchers := watchers d;
     started := started d; calls := calls d; emitted := emitted d |}.
Definition with_batchErrors (e : list string) (d : State) : State :=
  {| m_connected := m_connected d; m_operationInProgress := m_operationInProgress d;
     m_batchMode := m_batchMode d;
     m_operationQueue := m_operationQueue d; m_batchErrors := e;
     m_batchHadErrors := m_batchHadErrors d; watchers := watchers d;
     started := started d; calls := calls d; emitted := emitted d |}.
Definition with_batchHadErrors (b : bool) (d : State) : State :=
  {| m_connected := m_connected d; m_operationInProgress := m_operationInProgress d;
     m_batchMode := m_batchMode d;
     m_operationQueue := m_operationQueue d; m_batchErrors := m_batchErrors d;
     m_batchHadErrors := b; watchers := watchers d;
     started := started d; calls := calls d; emitted := emitted d |}.
Definition with_watchers (w : list string) (d : State) : State :=
  {| m_connected := m_connected d; m_operationInProgress := m_operationInProgress d;
     m_batchMode := m_batchMode d;
     m_operationQueue := m_operationQueue d; m_batchErrors := m_batchErrors d;
     m_batchHadErrors := m_batchHadErrors d; watchers := w;
     started := started d; calls := calls d; emitted := emitted d |}.
Definition with_started (l : list QueuedOperation) (d : State) : State :=
  {| m_connected := m_connected d; m_operationInProgress := m_operationInProgress d;
     m_batchMode := m_batchMode d;
     m_operationQueue := m_operationQueue d; m_batchErrors := m_batchErrors d;
     m_batchHadErrors := m_batchHadErrors d; watchers := watchers d;
     started := l; calls := calls d; emitted := emitted d |}.
Definition with_calls (l : list QueuedOperation) (d : State) : State :=
  {| m_connected := m_connected d; m_operationInProgress := m_operationInProgress d;
     m_batchMode := m_batchMode d;
     m_operationQueue := m_operationQueue d; m_batchErrors := m_batchErrors d;
     m_batchHadErrors := m_batchHadErrors d; watchers := watchers d;
     started := started d; calls := l; emitted := emitted d |}.

(** [Q_EMIT]. *)
Definition emit (sig : Signal) (d : State) : State :=
  {| m_connected := m_connected d; m_operationInProgress := m_operationInProgress d;
     m_batchMode := m_batchMode d;
     m_operationQueue := m_operationQueue d; m_batchErrors := m_batchErrors d;
     m_batchHadErrors := m_batchHadErrors d; watchers := watchers d;
     started := started d; calls := calls d; emitted := emitted d ++ [sig] |}.

(** The object once its constructor has run [connectToService]. *)
Definition constructed (connected : bool) : State :=
  {| m_connected := connected; m_operationInProgress := false; m_batchMode := false;
     m_operationQueue := []; m_batchErrors := []; m_batchHadErrors := false;
     watchers := []; started := []; calls := []; emitted := [] |}.

Definition setOperationInProgress (inProgress : bool) (d : State) : State :=
  if negb (Bool.eqb (m_operationInProgress d) inProgress)
  then emit operationInProgressChanged (with_operationInProgress inProgress d)
  else d.

Definition isEmptyList {A} (l : list A) : bool :=
  match l with [] => true | _ :: _ => false end.

Definition NOT_CONNECTED := "Not connected to D-Bus service".

(** [processNextOperation] calls itself after an operation that could
    not be sent, with the queue one shorter: the recursion is on the
    queue. *)
Fixpoint processQueue (queue : list QueuedOperation) (d : State) : State :=
  match queue with
  | [] =>
      let d := setOperationInProgress false d in
      (* If we were in batch mode, emit completion signal *)
      if m_batchMode d then
        let d := with_batchMode false d in
        let d := emit (batchCompleted (negb (m_batchHadErrors d)) (m_batchErrors d)) d in
        let d := with_batchErrors [] d in
        with_batchHadErrors false d
      else d
  | op :: rest =>
      let d := setOperationInProgress true d in
      let d := with_started (started d ++ [op]) (with_operationQueue rest d) in
      if negb (m_connected d) then
        let error := NOT_CONNECTED in
        let d := with_batchHadErrors true d in
        let d := with_batchErrors (m_batchErrors d ++ [description op +:+ ": " +:+ error]) d in
        let d := emit (operationFailed error) d in
        (* Continue with next operation *)
        processQueue rest d
      else
        let d := with_calls (calls d ++ [op]) d in
        with_watchers (watchers d ++ [description op]) d
  end.

Definition processNextOperation (d : State) : State :=
  processQueue (m_operationQueue d) d.

Definition queueOperation (op : QueuedOperation) (d : State) : State :=
  let d := with_operationQueue (m_operationQueue d ++ [op]) d in
  (* If not currently processing and not in batch mode, start processing *)
  if negb (m_operationInProgress d) && negb (m_batchMode d)
  then processNextOperation d
  else d.

(** The slot run when the call of the watcher with description
    [description] has finished with [reply]. *)
Definition onAsyncCallFinished (description : string) (reply : PendingReply) (d : State) : State :=
  let d :=
    match reply with
    | ReplyError error =>
        let d := with_batchHadErrors true d in
        let d := with_batchErrors (m_batchErrors d ++ [description +:+ ": " +:+ error]) d in
        emit (operationFailed error) d
    | ReplyValue result =>
        if result =? 0 then emit operationSucceeded d
        else
          let error := "Operation failed with code " +:+ number result in
          let d := with_batchHadErrors true d in
          let d := with_batchErrors (m_batchErrors d ++ [description +:+ ": " +:+ error]) d in
          emit (operationFailed error) d
    end in
  (* Process next operation in queue *)
  processNextOperation d.

Definition beginBatch (d : State) : State :=
  with_batchHadErrors false (with_batchErrors [] (with_batchMode true d)).

Definition endBatch (d : State) : State :=
  (* If nothing was queued, emit completion immediately *)
  if isEmptyList (m_operationQueue d) && negb (m_operationInProgress d) then
    emit (batchCompleted true []) (with_batchMode false d)
  else if negb (m_operationInProgress d) then processNextOperation d
  else d.

Definition updateCpuSettingsAsync (cpu fmin fmax : Z) : State -> State :=
  queueOperation {| method := "update_cpu_settings";
                    args := [VInt cpu; VInt fmin; VInt fmax];
                    description := "Set CPU " +:+ number cpu +:+ " frequency " +:+
                                   number fmin +:+ "-" +:+ number fmax +:+ " kHz" |}.

Definition updateCpuGovernorAsync (cpu : Z) (governor : string) : State -> State :=
  queueOperation {| method := "update_cpu_governor";
                    args := [VInt cpu; VString governor];
                    description := "Set CPU " +:+ number cpu +:+ " governor to " +:+ governor |}.

Definition updateCpuEnergyPrefsAsync (cpu : Z) (pref : string) : State -> State :=
  queueOperation {| method := "update_cpu_energy_prefs";
                    args := [VInt cpu; VString pref];
                    description := "Set CPU " +:+ number cpu +:+ " energy preference to " +:+ pref |}.

Definition setCpuOnlineAsync (cpu : Z) : State -> State :=
  queueOperation {| method := "set_cpu_online"; args := [VInt cpu];
                    description := "Set CPU " +:+ number cpu +:+ " online" |}.

Definition setCpuOfflineAsync (cpu : Z) : State -> State :=
  queueOperation {| method := "set_cpu_offline"; args := [VInt cpu];
                    description := "Set CPU " +:+ number cpu +:+ " offline" |}.

(** What reaches the scheduler: calls of its interface, and the
    [finished] signal of a watcher in flight (the [w]-th one). *)
Inductive Event :=
| Queue (op : QueuedOperation)
| BeginBatch
| EndBatch
| Finished (w : nat) (reply : PendingReply).

Definition handle (d : State) (ev : Event) : State :=
  match ev with
  | Queue op => queueOperation op d
  | BeginBatch => beginBatch d
  | EndBatch => endBatch d
  | Finished w reply =>
      match watchers d !! w with
      | Some description =>
          onAsyncCallFinished description reply (with_watchers (delete w (watchers d)) d)
      | None => d
      end
  end.

Definition run (d : State) (evs : list Event) : State := fold_left handle evs d.

(** *** Notions used in the statements *)

(** The operations a sequence of events enqueues, in order. *)
Definition enqueued (evs : list Event) : list QueuedOperation :=
  flat_map (fun ev => match ev with Queue op => [op] | _ => [] end) evs.

(** What the scheduler keeps true: at most one call is in flight, the
    object is marked busy while one is, what was taken off the queue
    followed by what is still in it is [pre], and the calls sent are the
    operations taken, when connected. *)
Definition serial (pre : list QueuedOperation) (d : State) : Prop :=
  (length (watchers d) <= 1)%nat /\
  (watchers d <> [] -> m_operationInProgress d = true) /\
  started d ++ m_operationQueue d = pre /\
  calls d = (if m_connected d then started d else []).

(** [beginBatch()], the operations enqueued one after the other, [endBatch()]. *)
Definition batch (ops : list QueuedOperation) (d : State) : State :=
  endBatch (fold_left (fun d op => queueOperation op d) ops (beginBatch d)).

(** The calls finish one after the other, each with its reply. *)
Definition finishAll (replies : list PendingReply) (d : State) : State :=
  fold_left (fun d reply => handle d (Finished 0 reply)) replies d.

(** A transport error or a result code other than 0. *)
Definition failed (reply : PendingReply) : bool :=
  match reply with
  | ReplyError _ => true
  | ReplyValue value => negb (value =? 0)
  end.

Definition failures (replies : list PendingReply) : nat :=
  length (List.filter failed replies).

(** The [batchCompleted] signals among the emitted ones, with their arguments. *)
Definition completions (sigs : list Signal) : list (bool * list string) :=
  flat_map (fun s => match s with batchCompleted ok errors => [(ok, errors)] | _ => [] end) sigs.

(** Nothing queued, nothing in flight. *)
Definition idle (d : State) : Prop :=
  m_operationQueue d = [] /\ m_operationInProgress d = false /\ watchers d = [].

(** A connected scheduler in the middle of a batch: one call in flight,
    [queue] still to send. *)
Definition draining (queue : list QueuedOperation) (d : State) : Prop :=
  m_connected d = true /\ m_batchMode d = true /\ m_operationInProgress d = true /\
  (exists w, watchers d = [w]) /\ m_operationQueue d = queue.

(** A scheduler that is neither busy nor in batch mode has an empty queue. *)
Definition settled (d : State) : Prop :=
  m_operationInProgress d = false -> m_batchMode d = false -> m_operationQueue d = [].

(** Two operations as [Application::applyChanges] enqueues them. *)
Definition setBounds : QueuedOperation :=
  {| method := "update_cpu_settings";
     args := [VInt 0; VInt 1000000; VInt 2000000];
     description := "Set CPU 0 frequency 1000000-2000000 kHz" |}.
Definition setGovernor : QueuedOperation :=
  {| method := "update_cpu_governor";
     args := [VInt 0; VString "performance"];
     description := "Set CPU 0 governor to performance" |}.


End DbusHelper.

(** ** The per-CPU controller: cpusettings.cpp, cpusettings.h *)

Module CpuSettings.

(** The two collaborators of a [CpuSettings], over a state [S] of the
    machine: what [SysfsReader] reads from it, and what the synchronous
    calls of [DbusHelper] return and do to it. *)
Class Machine (S : Type) := {
  freqLimits : S -> Z -> Z * Z;
  scalingFreqs : S -> Z -> Z * Z;
  availableFrequencies : S -> Z -> list Z;
  currentGovernor : S -> Z -> string;
  availableGovernors : S -> Z -> list string;
  availableEnergyPrefs : S -> Z -> list string;
  currentEnergyPref : S -> Z -> string;
  isEnergyPrefAvailable : S -> Z -> bool;
  isOnline : S -> Z -> bool;
  cpuAllowedOffline : S -> Z -> bool;
  updateCpuSettings : Z -> Z -> Z -> S -> Z * S;
  updateCpuGovernor : Z -> string -> S -> Z * S;
  updateCpuEnergyPrefs : Z -> string -> S -> Z * S;
  setCpuOnline : Z -> S -> Z * S;
  setCpuOffline : Z -> S -> Z * S
}.

Inductive Signal :=
| freqMinChanged
| freqMaxChanged
| currentFreqChanged
| governorChanged
| energyPrefChanged
| onlineChanged
| changedStateChanged.

Record State := {
  m_cpu : Z;
  (* Hardware limits (constant after init) *)
  m_freqMinHw : Z;
  m_freqMaxHw : Z;
  m_governors : list string;
  m_energyPrefs : list string;
  m_freqSteps : list Z;
  m_energyPrefAvailable : bool;
  m_canGoOffline : bool;
  (* Original system values *)
  m_origFreqMin : Z;
  m_origFreqMax : Z;
  m_origGovernor : string;
  m_origEnergyPref : string;
  m_origOnline : bool;
  (* New (pending) values *)
  m_newFreqMin : Z;
  m_newFreqMax : Z;
  m_newGovernor : string;
  m_newEnergyPref : string;
  m_newOnline : bool;
  (** signals emitted so far, in order *)
  emitted : list Signal
}.

Definition emit (sigs : list Signal) (c : State) : State :=
  {| m_cpu := m_cpu c; m_freqMinHw := m_freqMinHw c; m_freqMaxHw := m_freqMaxHw c;
     m_governors := m_governors c; m_energyPrefs := m_energyPrefs c;
     m_freqSteps := m_freqSteps c; m_energyPrefAvailable := m_energyPrefAvailable c;
     m_canGoOffline := m_canGoOffline c;
     m_origFreqMin := m_origFreqMin c; m_origFreqMax := m_origFreqMax c;
     m_origGovernor := m_origGovernor c; m_origEnergyPref := m_origEnergyPref c;
     m_origOnline := m_origOnline c;
     m_newFreqMin := m_newFreqMin c; m_newFreqMax := m_newFreqMax c;
     m_newGovernor := m_newGovernor c; m_newEnergyPref := m_newEnergyPref c;
     m_newOnline := m_newOnline c;
     emitted := emitted c ++ sigs |}.

Definition emitChangedSignals : State -> State :=
  emit [freqMinChanged; freqMaxChanged; currentFreqChanged; governorChanged;
        energyPrefChanged; onlineChanged; changedStateChanged].

Definition resetToSystem (c : State) : State :=
  emitChangedSignals
    {| m_cpu := m_cpu c; m_freqMinHw := m_freqMinHw c; m_freqMaxHw := m_freqMaxHw c;
       m_governors := m_governors c; m_energyPrefs := m_energyPrefs c;
       m_freqSteps := m_freqSteps c; m_energyPrefAvailable := m_energyPrefAvailable c;
       m_canGoOffline := m_canGoOffline c;
       m_origFreqMin := m_origFreqMin c; m_origFreqMax := m_origFreqMax c;
       m_origGovernor := m_origGovernor c; m_origEnergyPref := m_origEnergyPref c;
       m_origOnline := m_origOnline c;
       m_newFreqMin := m_origFreqMin c; m_newFreqMax := m_origFreqMax c;
       m_newGovernor := m_origGovernor c; m_newEnergyPref := m_origEnergyPref c;
       m_newOnline := m_origOnline c;
       emitted := emitted c |}.

(** The setters of the pending values.  [setFreqMin] and [setFreqMax]
    take MHz as a [double]; [freqKHz] is their [static_cast<int>(freq * 1000)]. *)
Definition setFreqMin (freqKHz : Z) (c : State) : State :=
  if negb (m_newFreqMin c =? freqKHz) then
    emit [freqMinChanged; changedStateChanged]
      {| m_cpu := m_cpu c; m_freqMinHw := m_freqMinHw c; m_freqMaxHw := m_freqMaxHw c;
         m_governors := m_governors c; m_energyPrefs := m_energyPrefs c;
         m_freqSteps := m_freqSteps c; m_energyPrefAvailable := m_energyPrefAvailable c;
         m_canGoOffline := m_canGoOffline c;
         m_origFreqMin := m_origFreqMin c; m_origFreqMax := m_origFreqMax c;
         m_origGovernor := m_origGovernor c; m_origEnergyPref := m_origEnergyPref c;
         m_origOnline := m_origOnline c;
         m_newFreqMin := freqKHz; m_newFreqMax := m_newFreqMax c;
         m_newGovernor := m_newGovernor c; m_newEnergyPref := m_newEnergyPref c;
         m_newOnline := m_newOnline c;
         emitted := emitted c |}
  else c.

Definition setFreqMax (freqKHz : Z) (c : State) : State :=
  if negb (m_newFreqMax c =? freqKHz) then
    emit [freqMaxChanged; changedStateChanged]
      {| m_cpu := m_cpu c; m_freqMinHw := m_freqMinHw c; m_freqMaxHw := m_freqMaxHw c;
         m_governors := m_governors c; m_energyPrefs := m_energyPrefs c;
         m_freqSteps := m_freqSteps c; m_energyPrefAvailable := m_energyPrefAvailable c;
         m_canGoOffline := m_canGoOffline c;
         m_origFreqMin := m_origFreqMin c; m_origFreqMax := m_origFreqMax c;
         m_origGovernor := m_origGovernor c; m_origEnergyPref := m_origEnergyPref c;
         m_origOnline := m_origOnline c;
         m_newFreqMin := m_newFreqMin c; m_newFreqMax := freqKHz;
         m_newGovernor := m_newGovernor c; m_newEnergyPref := m_newEnergyPref c;
         m_newOnline := m_newOnline c;
         emitted := emitted c |}
  else c.

Definition setGovernor (gov : string) (c : State) : State :=
  if negb (String.eqb (m_newGovernor c) gov) && existsb (String.eqb gov) (m_governors c) then
    emit [governorChanged; changedStateChanged]
      {| m_cpu := m_cpu c; m_freqMinHw := m_freqMinHw c; m_freqMaxHw := m_freqMaxHw c;
         m_governors := m_governors c; m_energyPrefs := m_energyPrefs c;
         m_freqSteps := m_freqSteps c; m_energyPrefAvailable := m_energyPrefAvailable c;
         m_canGoOffline := m_canGoOffline c;
         m_origFreqMin := m_origFreqMin c; m_origFreqMax := m_origFreqMax c;
         m_origGovernor := m_origGovernor c; m_origEnergyPref := m_origEnergyPref c;
         m_origOnline := m_origOnline c;
         m_newFreqMin := m_newFreqMin c; m_newFreqMax := m_newFreqMax c;
         m_newGovernor := gov; m_newEnergyPref := m_newEnergyPref c;
         m_newOnline := m_newOnline c;
         emitted := emitted c |}
  else c.

Definition setEnergyPref (pref : string) (c : State) : State :=
  if negb (String.eqb (m_newEnergyPref c) pref) && existsb (String.eqb pref) (m_energyPrefs c) then
    emit [energyPrefChanged; changedStateChanged]
      {| m_cpu := m_cpu c; m_freqMinHw := m_freqMinHw c; m_freqMaxHw := m_freqMaxHw c;
         m_governors := m_governors c; m_energyPrefs := m_energyPrefs c;
         m_freqSteps := m_freqSteps c; m_energyPrefAvailable := m_energyPrefAvailable c;
         m_canGoOffline := m_canGoOffline c;
         m_origFreqMin := m_origFreqMin c; m_origFreqMax := m_origFreqMax c;
         m_origGovernor := m_origGovernor c; m_origEnergyPref := m_origEnergyPref c;
         m_origOnline := m_origOnline c;
         m_newFreqMin := m_newFreqMin c; m_newFreqMax := m_newFreqMax c;
         m_newGovernor := m_newGovernor c; m_newEnergyPref := pref;
         m_newOnline := m_newOnline c;
         emitted := emitted c |}
  else c.

Definition setOnline (on : bool) (c : State) : State :=
  if negb (Bool.eqb (m_newOnline c) on) then
    emit [onlineChanged; changedStateChanged]
      {| m_cpu := m_cpu c; m_freqMinHw := m_freqMinHw c; m_freqMaxHw := m_freqMaxHw c;
         m_governors := m_governors c; m_energyPrefs := m_energyPrefs c;
         m_freqSteps := m_freqSteps c; m_energyPrefAvailable := m_energyPrefAvailable c;
         m_canGoOffline := m_canGoOffline c;
         m_origFreqMin := m_origFreqMin c; m_origFreqMax := m_origFreqMax c;
         m_origGovernor := m_origGovernor c; m_origEnergyPref := m_origEnergyPref c;
         m_origOnline := m_origOnline c;
         m_newFreqMin := m_newFreqMin c; m_newFreqMax := m_newFreqMax c;
         m_newGovernor := m_newGovernor c; m_newEnergyPref := m_newEnergyPref c;
         m_newOnline := on;
         emitted := emitted c |}
  else c.

(* Change tracking *)
Definition isFreqChanged (c : State) : bool :=
  negb (m_newFreqMin c =? m_origFreqMin c) || negb (m_newFreqMax c =? m_origFreqMax c).
Definition isGovernorChanged (c : State) : bool :=
  negb (String.eqb (m_newGovernor c) (m_origGovernor c)).
Definition isEnergyPrefChanged (c : State) : bool :=
  negb (String.eqb (m_newEnergyPref c) (m_origEnergyPref c)).
Definition isOnlineChanged (c : State) : bool :=
  negb (Bool.eqb (m_newOnline c) (m_origOnline c)).
Definition isChanged (c : State) : bool :=
  isFreqChanged c || isGovernorChanged c || isEnergyPrefChanged c || isOnlineChanged c.

Section Controller.

Context {S : Type} `{Machine S}.

Definition updateFromSystem (sys : S) (c : State) : State :=
  let scalingFreqs := scalingFreqs sys (m_cpu c) in
  let origFreqMin := fst scalingFreqs in
  let origFreqMax := snd scalingFreqs in
  let origGovernor := currentGovernor sys (m_cpu c) in
  let origEnergyPref := currentEnergyPref sys (m_cpu c) in
  let origOnline := isOnline sys (m_cpu c) in
  emitChangedSignals
    {| m_cpu := m_cpu c; m_freqMinHw := m_freqMinHw c; m_freqMaxHw := m_freqMaxHw c;
       (* Update available governors (may change when CPU goes online/offline) *)
       m_governors := availableGovernors sys (m_cpu c);
       m_energyPrefs := m_energyPrefs c;
       m_freqSteps := m_freqSteps c; m_energyPrefAvailable := m_energyPrefAvailable c;
       m_canGoOffline := m_canGoOffline c;
       m_origFreqMin := origFreqMin; m_origFreqMax := origFreqMax;
       m_origGovernor := origGovernor; m_origEnergyPref := origEnergyPref;
       m_origOnline := origOnline;
       (* Also update new values *)
       m_newFreqMin := origFreqMin; m_newFreqMax := origFreqMax;
       m_newGovernor := origGovernor; m_newEnergyPref := origEnergyPref;
       m_newOnline := origOnline;
       emitted := emitted c |}.

(** The constructor: [loadFromSystem]. *)
Definition loadFromSystem (cpu : Z) (sys : S) : State :=
  let limits := freqLimits sys cpu in
  updateFromSystem sys
    {| m_cpu := cpu; m_freqMinHw := fst limits; m_freqMaxHw := snd limits;
       m_governors := availableGovernors sys cpu;
       m_energyPrefs := availableEnergyPrefs sys cpu;
       m_freqSteps := availableFrequencies sys cpu;
       m_energyPrefAvailable := isEnergyPrefAvailable sys cpu;
       m_canGoOffline := cpuAllowedOffline sys cpu;
       m_origFreqMin := 0; m_origFreqMax := 0;
       m_origGovernor := EmptyString; m_origEnergyPref := EmptyString;
       m_origOnline := true;
       m_newFreqMin := 0; m_newFreqMax := 0;
       m_newGovernor := EmptyString; m_newEnergyPref := EmptyString;
       m_newOnline := true;
       emitted := [] |}.

(** The phases of [applyChanges]; each one either returns from the
    function ([inl], with the return value) or goes on ([inr]). *)
Definition applyOnline (c : State) (sys : S) : (Z + unit) * S :=
  (* Handle online/offline first *)
  if isOnlineChanged c then
    let '(ret, sys) :=
      if m_newOnline c then setCpuOnline (m_cpu c) sys
      else if m_canGoOffline c then setCpuOffline (m_cpu c) sys
      else (0, sys) in
    if negb (ret =? 0) then (inl ret, sys) else (inr tt, sys)
  else (inr tt, sys).

Definition applyFreq (c : State) (sys : S) : (Z + unit) * S :=
  if isFreqChanged c then
    let '(ret, sys) := updateCpuSettings (m_cpu c) (m_newFreqMin c) (m_newFreqMax c) sys in
    if negb (ret =? 0) then (inl (-13), sys) (* Setting frequencies failed *)
    else (inr tt, sys)
  else (inr tt, sys).

Definition applyGovernor (c : State) (sys : S) : (Z + unit) * S :=
  if isGovernorChanged c then
    let '(ret, sys) := updateCpuGovernor (m_cpu c) (m_newGovernor c) sys in
    if negb (ret =? 0) then (inl (-11), sys) (* Setting governor failed *)
    else (inr tt, sys)
  else (inr tt, sys).

Definition applyEnergyPref (c : State) (sys : S) : (Z + unit) * S :=
  if isEnergyPrefChanged c && m_energyPrefAvailable c then
    let '(ret, sys) := updateCpuEnergyPrefs (m_cpu c) (m_newEnergyPref c) sys in
    if negb (ret =? 0) then (inl (-12), sys) (* Setting energy preferences failed *)
    else (inr tt, sys)
  else (inr tt, sys).

Definition applyChanges (c : State) (sys : S) : Z * State * S :=
  match applyOnline c sys with
  | (inl ret, sys) => (ret, c, sys)
  | (inr _, sys) =>
      (* Only apply other settings if CPU is online *)
      if m_newOnline c then
        match applyFreq c sys with
        | (inl ret, sys) => (ret, c, sys)
        | (inr _, sys) =>
            match applyGovernor c sys with
            | (inl ret, sys) => (ret, c, sys)
            | (inr _, sys) =>
                match applyEnergyPref c sys with
                | (inl ret, sys) => (ret, c, sys)
                | (inr _, sys) =>
                    (* Refresh from system *)
                    (0, updateFromSystem sys c, sys)
                end
            end
        end
      else (0, updateFromSystem sys c, sys)
  end.

End Controller.

(** *** A machine to run the controller on *)

(** One CPU whose scaling bounds can be set and whose governor cannot:
    [update_cpu_governor] answers -13. *)
Record OneCpu := {
  scalingMinFreq : Z;
  scalingMaxFreq : Z;
  scalingGovernor : string
}.

#[export] Instance governorReadOnly : Machine OneCpu := {|
  freqLimits _ _ := (400000, 3000000);
  scalingFreqs s _ := (scalingMinFreq s, scalingMaxFreq s);
  availableFrequencies _ _ := [];
  currentGovernor s _ := scalingGovernor s;
  availableGovernors _ _ := ["performance"; "powersave"];
  availableEnergyPrefs _ _ := [];
  currentEnergyPref _ _ := EmptyString;
  isEnergyPrefAvailable _ _ := false;
  isOnline _ _ := true;
  cpuAllowedOffline _ _ := false;
  updateCpuSettings _ fmin fmax s :=
    (0, {| scalingMinFreq := fmin; scalingMaxFreq := fmax;
           scalingGovernor := scalingGovernor s |});
  updateCpuGovernor _ _ s := (-13, s);
  updateCpuEnergyPrefs _ _ s := (0, s);
  setCpuOnline _ s := (0, s);
  setCpuOffline _ s := (-1, s)
|}.

Definition powersaving : OneCpu :=
  {| scalingMinFreq := 800000; scalingMaxFreq := 2000000; scalingGovernor := "powersave" |}.

(** The controller of CPU 0 on that machine, with a lower bound of
    1000000 kHz and the governor "performance" pending. *)
Definition pendingEdits : State :=
  setGovernor "performance" (setFreqMin 1000000 (loadFromSystem 0 powersaving)).

End CpuSettings.

(** ** The other slots of the helper: helperservice.cpp *)

Module HelperQueries.

Import HelperService.

Definition with_idleTimeoutSecs (secs : Z) (st : State) : State :=
  {| sysfs := sysfs st; m_authorizedSenders := m_authorizedSenders st;
     m_idleTimeoutSecs := secs; m_idleTimer := m_idleTimer st;
     polkitCalls := polkitCalls st; writes := writes st |}.

(** [setIdleTimeout]: a positive timeout restarts the timer, any other
    stops it. *)
Definition setIdleTimeout (seconds : Z) : M unit :=
  fun st =>
    let st := with_idleTimeoutSecs seconds st in
    if 0 <? m_idleTimeoutSecs st then resetIdleTimer st
    else Some (tt, with_idleTimer None st).

Section Queries.

Variable fuel : nat.

Definition get_cpus_available : M (list Z) :=
  let! _ := resetIdleTimer in
  (* Available CPUs = Present CPUs that can be brought online *)
  get_cpus_present fuel.

Definition get_cpu_governors (cpu : Z) : M (list string) :=
  let! _ := resetIdleTimer in
  let! unavailable := notPresentOrNotOnline fuel cpu in
  if unavailable then ret []
  else
    let! content := readSysfsFile (inDir (cpufreqPath cpu) SCALING_AVAILABLE_GOV) in
    ret (parseList content).

Definition get_cpu_governor (cpu : Z) : M string :=
  let! _ := resetIdleTimer in
  let! unavailable := notPresentOrNotOnline fuel cpu in
  if unavailable then ret EmptyString
  else
    let! content := readSysfsFile (inDir (cpufreqPath cpu) SCALING_GOVERNOR) in
    ret (trimmed content).

Definition get_cpu_energy_preference (cpu : Z) : M string :=
  let! _ := resetIdleTimer in
  let! unavailable := notPresentOrNotOnline fuel cpu in
  if unavailable then ret EmptyString
  else
    let! content := readSysfsFile (inDir (cpufreqPath cpu) ENERGY_PERF_PREF) in
    ret (trimmed content).

Definition get_cpu_limits (cpu : Z) : M (list Z) :=
  let! _ := resetIdleTimer in
  let! unavailable := notPresentOrNotOnline fuel cpu in
  if unavailable then ret [0; 0]
  else
    let! minStr := readSysfsFile (inDir (cpufreqPath cpu) CPUINFO_MIN_FREQ) in
    let! maxStr := readSysfsFile (inDir (cpufreqPath cpu) CPUINFO_MAX_FREQ) in
    ret [toInt (trimmed minStr); toInt (trimmed maxStr)].

End Queries.

(** *** Notions used in the statements *)

(** Whether [QFile::open(WriteOnly)] succeeds on [path]. *)
Definition canWrite (fs : gmap string SysfsFile) (path : string) : bool :=
  match fs !! path with Some f => writable f | None => false end.

(** A CPU that is not present, or present and not online. *)
Definition unavailable (fuel : nat) (fs : gmap string SysfsFile) (cpu : Z) : Prop :=
  cpuListed fuel fs "present" cpu = Some false \/
  (cpuListed fuel fs "present" cpu = Some true /\ cpuListed fuel fs "online" cpu = Some false).

(** The interval a slot leaves the idle timer with, from the state it
    was called in. *)
Definition timerAfterSlot (st : State) : option Z :=
  if 0 <? m_idleTimeoutSecs st then Some (wrapInt (m_idleTimeoutSecs st * 1000))
  else m_idleTimer st.

(** The timer of [st] is as a slot called in [st0] leaves it. *)
Definition armed (st0 st : State) : Prop :=
  m_idleTimeoutSecs st = m_idleTimeoutSecs st0 /\ m_idleTimer st = timerAfterSlot st0.

(** A member function that leaves the timer so when it finds it so. *)
Definition staysArmed {A} (c : M A) : Prop :=
  forall st0 st r st', armed st0 st -> c st = Some (r, st') -> armed st0 st'.

(** A member function all of whose runs leave the timer as a slot does. *)
Definition restartsTimer {A} (c : M A) : Prop :=
  forall st r st', c st = Some (r, st') -> armed st st'.

(** The authority granted the [n]-th call, made for [sender] and [actionId]. *)
Definition grantedAt (polkit : nat -> string -> string -> DBusReply)
    (st : State) (n : nat) (sender actionId : string) : Prop :=
  polkitCalls st !! n = Some (sender, actionId) /\
  exists details rest,
    polkit n sender actionId = ReplyMessage (AuthorizationResult true false details :: rest).

(** Every cached decision is [true] and stands for a call the authority
    granted, made for a subject and an action that give the key. *)
Definition cacheHoldsGrants (polkit : nat -> string -> string -> DBusReply) (st : State) : Prop :=
  forall key cached,
    m_authorizedSenders st !! key = Some cached ->
    cached = true /\
    exists n sender actionId, key = sender +:+ actionId /\ grantedAt polkit st n sender actionId.

(** The service on [fourCpus] after the authority granted [":1.42"]. *)
Definition afterGrant : State :=
  snd (checkPolkitAuthorization grantedOnce ":1.42" APPLY_RUNTIME (fourCpus true)).

End HelperQueries.

(** ** The unprivileged reader of the application: sysfsreader.cpp

    It reads the same files as the helper, on its own: the functions take
    the files, and the bound on the iterations of each range loop. *)

Module SysfsReader.

Import HelperService.

Definition SYS_CPU_PATH := "/sys/devices/system/cpu".
Definition CPUFREQ_PATH := "cpufreq".
Definition SCALING_CUR_FREQ := "scaling_cur_freq".
Definition SCALING_MIN_FREQ := "scaling_min_freq".
Definition SCALING_MAX_FREQ := "scaling_max_freq".
Definition CPUINFO_MIN_FREQ := "cpuinfo_min_freq".
Definition CPUINFO_MAX_FREQ := "cpuinfo_max_freq".
Definition SCALING_AVAILABLE_FREQ := "scaling_available_frequencies".
Definition SCALING_GOVERNOR := "scaling_governor".
Definition SCALING_AVAILABLE_GOV := "scaling_available_governors".
Definition ENERGY_PERF_AVAIL := "energy_performance_available_preferences".
Definition ENERGY_PERF_PREF := "energy_performance_preference".
Definition ONLINE_FILE := "online".
Definition PRESENT_FILE := "present".

Definition readFile (fs : gmap string SysfsFile) (path : string) : string :=
  trimmed (fileText fs path).

Definition parseList (content : string) : list string :=
  if isEmpty content then [] else splitWhitespace content.

(** The loop over the parts has the body of the helper's, [parsePart];
    the parts are those of [content.split(',')], empty ones included. *)
Definition parseCpuList (fuel : nat) (content : string) : option (list Z) :=
  if isEmpty content then Some []
  else parseParts fuel (split "," KeepEmptyParts content) [].

(** [QStringLiteral("%1/cpu%2/%3").arg(SYS_CPU_PATH).arg(cpu).arg(CPUFREQ_PATH)]. *)
Definition cpuPath (cpu : Z) : string :=
  SYS_CPU_PATH +:+ "/cpu" +:+ number cpu +:+ "/" +:+ CPUFREQ_PATH.

Section Reader.

Variable fuel : nat.
Variable fs : gmap string SysfsFile.

Definition onlineCpus : option (list Z) :=
  parseCpuList fuel (readFile fs (inDir SYS_CPU_PATH ONLINE_FILE)).

Definition presentCpus : option (list Z) :=
  parseCpuList fuel (readFile fs (inDir SYS_CPU_PATH PRESENT_FILE)).

Definition isOnline (cpu : Z) : option bool :=
  match onlineCpus with
  | Some online =>
      match presentCpus with
      | Some present => Some (containsInt present cpu && containsInt online cpu)
      | None => None
      end
  | None => None
  end.

Definition currentFreq (cpu : Z) : option Z :=
  match isOnline cpu with
  | Some online =>
      if negb online then Some 0
      else
        let content := readFile fs (inDir (cpuPath cpu) SCALING_CUR_FREQ) in
        if isEmpty content then Some 0 else Some (toInt content)
  | None => None
  end.

Definition freqLimits (cpu : Z) : option (Z * Z) :=
  match isOnline cpu with
  | Some online =>
      if negb online then Some (0, 0)
      else
        let basePath := cpuPath cpu in
        let minFreq := toInt (readFile fs (inDir basePath CPUINFO_MIN_FREQ)) in
        let maxFreq := toInt (readFile fs (inDir basePath CPUINFO_MAX_FREQ)) in
        Some (minFreq, maxFreq)
  | None => None
  end.

Definition scalingFreqs (cpu : Z) : option (Z * Z) :=
  match isOnline cpu with
  | Some online =>
      if negb online then Some (0, 0)
      else
        let basePath := cpuPath cpu in
        let minFreq := toInt (readFile fs (inDir basePath SCALING_MIN_FREQ)) in
        let maxFreq := toInt (readFile fs (inDir basePath SCALING_MAX_FREQ)) in
        Some (minFreq, maxFreq)
  | None => None
  end.

Definition availableFrequencies (cpu : Z) : option (list Z) :=
  match isOnline cpu with
  | Some online =>
      if negb online then Some []
      else
        let freqs := parseList (readFile fs (inDir (cpuPath cpu) SCALING_AVAILABLE_FREQ)) in
        Some (List.map toInt freqs)
  | None => None
  end.

Definition currentGovernor (cpu : Z) : option string :=
  match isOnline cpu with
  | Some online =>
      if negb online then Some "OFFLINE"
      else
        let governor := readFile fs (inDir (cpuPath cpu) SCALING_GOVERNOR) in
        if isEmpty governor then Some "ERROR" else Some governor
  | None => None
  end.

Definition availableGovernors (cpu : Z) : list string :=
  parseList (readFile fs (inDir (cpuPath cpu) SCALING_AVAILABLE_GOV)).

Definition availableEnergyPrefs (cpu : Z) : list string :=
  parseList (readFile fs (inDir (cpuPath cpu) ENERGY_PERF_AVAIL)).

Definition currentEnergyPref (cpu : Z) : string :=
  readFile fs (inDir (cpuPath cpu) ENERGY_PERF_PREF).

Definition isEnergyPrefAvailable (cpu : Z) : bool :=
  fileExists fs (inDir (cpuPath cpu) ENERGY_PERF_AVAIL).

(** The body of the loop of [availableCpus]. *)
Definition hasCpufreq (cpu : Z) : bool :=
  let basePath := cpuPath cpu in
  fileExists fs (inDir basePath CPUINFO_MIN_FREQ)
  && fileExists fs (inDir basePath CPUINFO_MAX_FREQ)
  && fileExists fs (inDir basePath SCALING_AVAILABLE_GOV).

Definition availableCpus : option (list Z) :=
  match presentCpus with
  | Some present => Some (List.filter hasCpufreq present)
  | None => None
  end.

Definition minFrequency (cpu : Z) : option Z := option_map fst (scalingFreqs cpu).
Definition maxFrequency (cpu : Z) : option Z := option_map snd (scalingFreqs cpu).
Definition minFrequencyHardware (cpu : Z) : option Z := option_map fst (freqLimits cpu).
Definition maxFrequencyHardware (cpu : Z) : option Z := option_map snd (freqLimits cpu).

End Reader.

(** *** Notions used in the statements *)

(** No part of a comma-separated text is empty. *)
Definition noEmptyPart (text : string) : bool :=
  forallb (fun part => negb (isEmpty part)) (split "," KeepEmptyParts text).

End SysfsReader.

(** ** The controller by index, and its life: cpusettings.cpp *)

Module CpuSettingsEdits.

Import CpuSettings.

(** [QStringList::indexOf]: the first position of [x], or -1. *)
Fixpoint indexOf (l : list string) (x : string) : Z :=
  match l with
  | [] => -1
  | y :: rest =>
      if String.eqb y x then 0
      else let i := indexOf rest x in if i <? 0 then -1 else i + 1
  end.

Definition governorIndex (c : State) : Z := indexOf (m_governors c) (m_newGovernor c).

Definition setGovernorIndex (index : Z) (c : State) : State :=
  if (index >=? 0) && (index <? Z.of_nat (length (m_governors c))) then
    match m_governors c !! Z.to_nat index with
    | Some gov => setGovernor gov c
    | None => c
    end
  else c.

Definition energyPrefIndex (c : State) : Z := indexOf (m_energyPrefs c) (m_newEnergyPref c).

Definition setEnergyPrefIndex (index : Z) (c : State) : State :=
  if (index >=? 0) && (index <? Z.of_nat (length (m_energyPrefs c))) then
    match m_energyPrefs c !! Z.to_nat index with
    | Some pref => setEnergyPref pref c
    | None => c
    end
  else c.

(** *** Notions used in the statements *)

(** The setters and [resetToSystem], as the interface calls them. *)
Inductive Edit :=
| SetFreqMin (freqKHz : Z)
| SetFreqMax (freqKHz : Z)
| SetGovernor (gov : string)
| SetGovernorIndex (index : Z)
| SetEnergyPref (pref : string)
| SetEnergyPrefIndex (index : Z)
| SetOnline (on : bool)
| ResetToSystem.

Definition edit (e : Edit) : State -> State :=
  match e with
  | SetFreqMin freqKHz => setFreqMin freqKHz
  | SetFreqMax freqKHz => setFreqMax freqKHz
  | SetGovernor gov => setGovernor gov
  | SetGovernorIndex index => setGovernorIndex index
  | SetEnergyPref pref => setEnergyPref pref
  | SetEnergyPrefIndex index => setEnergyPrefIndex index
  | SetOnline on => setOnline on
  | ResetToSystem => resetToSystem
  end.

(** The states of a controller: constructed on some machine, then
    edited, refreshed and applied, on a machine in any state. *)
Inductive reachable {S : Type} `{Machine S} : State -> Prop :=
| reachable_load cpu sys : reachable (loadFromSystem cpu sys)
| reachable_edit e c : reachable c -> reachable (edit e c)
| reachable_update sys c : reachable c -> reachable (updateFromSystem sys c)
| reachable_apply sys c : reachable c -> reachable (snd (fst (applyChanges c sys))).

(** What every controller keeps true: the pending governor is the
    original one or one of the list, and so is the pending preference. *)
Definition offered (c : State) : Prop :=
  (m_newGovernor c = m_origGovernor c \/ In (m_newGovernor c) (m_governors c)) /\
  (m_newEnergyPref c = m_origEnergyPref c \/ In (m_newEnergyPref c) (m_energyPrefs c)).

End CpuSettingsEdits.

(** ** The list of controllers: cpulistmodel.cpp *)

Module CpuListModel.

Import CpuSettings.

Inductive Signal :=
| countChanged
| currentIndexChanged
| currentCpuChanged
| applyToAllChanged.

Record State := {
  m_cpuSettings : list CpuSettings.State;
  m_currentIndex : Z;
  m_applyToAll : bool;
  (** signals of the model emitted so far, in order *)
  emitted : list Signal
}.

Definition with_cpuSettings (l : list CpuSettings.State) (m : State) : State :=
  {| m_cpuSettings := l; m_currentIndex := m_currentIndex m;
     m_applyToAll := m_applyToAll m; emitted := emitted m |}.

Definition emit (sigs : list Signal) (m : State) : State :=
  {| m_cpuSettings := m_cpuSettings m; m_currentIndex := m_currentIndex m;
     m_applyToAll := m_applyToAll m; emitted := emitted m ++ sigs |}.

Definition count (m : State) : Z := Z.of_nat (length (m_cpuSettings m)).

Definition setCurrentIndex (index : Z) (m : State) : State :=
  if (index >=? 0) && (index <? count m) && negb (index =? m_currentIndex m) then
    emit [currentIndexChanged; currentCpuChanged]
      {| m_cpuSettings := m_cpuSettings m; m_currentIndex := index;
         m_applyToAll := m_applyToAll m; emitted := emitted m |}
  else m.

(** [nullptr] is [None]. *)
Definition currentCpu (m : State) : option CpuSettings.State :=
  if (m_currentIndex m >=? 0) && (m_currentIndex m <? count m)
  then m_cpuSettings m !! Z.to_nat (m_currentIndex m)
  else None.

Definition setApplyToAll (apply : bool) (m : State) : State :=
  if negb (Bool.eqb (m_applyToAll m) apply) then
    emit [applyToAllChanged]
      {| m_cpuSettings := m_cpuSettings m; m_currentIndex := m_currentIndex m;
         m_applyToAll := apply; emitted := emitted m |}
  else m.

Definition hasChanges (m : State) : bool := existsb isChanged (m_cpuSettings m).

Definition cpuAt (index : Z) (m : State) : option CpuSettings.State :=
  if (index >=? 0) && (index <? count m)
  then m_cpuSettings m !! Z.to_nat index
  else None.

Definition resetAll (m : State) : State :=
  with_cpuSettings (List.map resetToSystem (m_cpuSettings m)) m.

Section Model.

Context {S : Type} `{Machine S}.

(** The model as constructed, before [loadCpus]. *)
Definition initial : State :=
  {| m_cpuSettings := []; m_currentIndex := 0; m_applyToAll := false; emitted := [] |}.

(** [loadCpus], with the CPUs [m_sysfs->availableCpus()] returned. *)
Definition loadCpus (cpus : list Z) (sys : S) (m : State) : State :=
  let m := with_cpuSettings (List.map (fun cpu => loadFromSystem cpu sys) cpus) m in
  let m := emit [countChanged] m in
  if negb (DbusHelper.isEmptyList (m_cpuSettings m)) && (m_currentIndex m >=? count m)
  then setCurrentIndex 0 m
  else m.

Definition refresh (sys : S) (m : State) : State :=
  if (m_currentIndex m >=? 0) && (m_currentIndex m <? count m) then
    with_cpuSettings
      (alter (updateFromSystem sys) (Z.to_nat (m_currentIndex m)) (m_cpuSettings m)) m
  else m.

Definition refreshAll (sys : S) (m : State) : State :=
  with_cpuSettings (List.map (updateFromSystem sys) (m_cpuSettings m)) m.

(** The loop of [applyAll] over the controllers that follow [done]. *)
Fixpoint applyEach (cpus : list CpuSettings.State) (result : Z) (sys : S)
  : Z * list CpuSettings.State * S :=
  match cpus with
  | [] => (result, [], sys)
  | cpu :: rest =>
      if isChanged cpu then
        let '(ret, cpu', sys) := applyChanges cpu sys in
        (* Continue trying to apply other CPUs *)
        let result := if negb (ret =? 0) then ret else result in
        let '(result, rest', sys) := applyEach rest result sys in
        (result, cpu' :: rest', sys)
      else
        let '(result, rest', sys) := applyEach rest result sys in
        (result, cpu :: rest', sys)
  end.

Definition applyAll (m : State) (sys : S) : Z * State * S :=
  let '(result, cpus, sys) := applyEach (m_cpuSettings m) 0 sys in
  (result, with_cpuSettings cpus m, sys).

End Model.

(** *** Notions used in the statements *)

(** What the interface does to the model between two loads. *)
Inductive Step {S : Type} :=
| LoadCpus (cpus : list Z) (sys : S)
| SetCurrentIndex (index : Z)
| SetApplyToAll (apply : bool)
| Refresh (sys : S)
| RefreshAll (sys : S)
| ResetAll.
Arguments Step : clear implicits.

Definition step {S : Type} `{Machine S} (m : State) (s : Step S) : State :=
  match s with
  | LoadCpus cpus sys => loadCpus cpus sys m
  | SetCurrentIndex index => setCurrentIndex index m
  | SetApplyToAll apply => setApplyToAll apply m
  | Refresh sys => refresh sys m
  | RefreshAll sys => refreshAll sys m
  | ResetAll => resetAll m
  end.

(** The index of the current CPU is kept in range. *)
Definition indexInRange (m : State) : Prop :=
  0 <= m_currentIndex m /\ (m_cpuSettings m <> [] -> m_currentIndex m < count m).

(** A controller of CPU 1 with a lower bound pending, and a model of two
    controllers on the machine whose governor cannot be set: the first
    has a governor pending, and fails. *)
Definition boundEdit : CpuSettings.State :=
  setFreqMin 1200000 (loadFromSystem 1 powersaving).

Definition twoEdits : State :=
  {| m_cpuSettings := [pendingEdits; boundEdit]; m_currentIndex := 0;
     m_applyToAll := false; emitted := [] |}.

End CpuListModel.

(** ** The scheduler: what its signals account for *)

Module DbusHelperSignals.

Import DbusHelper.

(** The signals that report the outcome of one operation. *)
Definition isOutcome (sig : Signal) : bool :=
  match sig with
  | operationSucceeded | operationFailed _ => true
  | operationInProgressChanged | batchCompleted _ _ => false
  end.

Definition outcomes (sigs : list Signal) : list Signal := List.filter isOutcome sigs.

(** An event other than [beginBatch()] and [endBatch()]. *)
Definition outsideBatch (ev : Event) : bool :=
  match ev with
  | Queue _ | Finished _ _ => true
  | BeginBatch | EndBatch => false
  end.

(** Every operation taken off the queue has its outcome signal or its
    call in flight. *)
Definition accounted (d : State) : Prop :=
  (length (outcomes (emitted d)) + length (watchers d))%nat = length (started d).

End DbusHelperSignals.

(** ** Profiles: profilemanager.h *)

Module Profile.

Record CpuProfileEntry := {
  cpu : Z;
  freqMin : Z;   (* in kHz *)
  freqMax : Z;   (* in kHz *)
  governor : string;
  online : bool;
  energyPref : string
}.

(** [QMap<int, CpuProfileEntry>]: the entries in the order of the
    iterator, which is that of the keys. *)
Definition Settings := list (Z * CpuProfileEntry).

(** [settings[key] = entry]. *)
Fixpoint insert (key : Z) (entry : CpuProfileEntry) (settings : Settings) : Settings :=
  match settings with
  | [] => [(key, entry)]
  | (key', entry') :: rest =>
      if key <? key' then (key, entry) :: settings
      else if key =? key' then (key, entry) :: rest
      else (key', entry') :: insert key entry rest
  end.

Record Profile := {
  name : string;
  filePath : string;
  isSystem : bool;      (* From /etc/cpupower_gui.d/ *)
  isBuiltin : bool;     (* Generated default profile *)
  settings : Settings   (* cpu -> settings *)
}.

Definition isValid (p : Profile) : bool := negb (isEmpty (name p)).
Definition isCustom (p : Profile) : bool := negb (isBuiltin p) && negb (isSystem p).
Definition canDelete (p : Profile) : bool := isCustom p.

End Profile.

(** ** The application: application.cpp

    The object with its scheduler.  The models and the tray icon that
    some of its functions refresh are other objects, and no part of
    this state. *)

Module Application.

Import HelperService DbusHelper Profile.

Inductive Signal :=
| currentCpuChanged
| allCpusSelectedChanged
| currentCpuStateChanged
| unsavedChangesChanged
| statusMessageChanged
| errorOccurred (message : string)
| applySuccess
| applyFailed (reason : string).

Record State := {
  m_currentCpu : Z;
  m_allCpusSelected : bool;
  m_hasUnsavedChanges : bool;
  m_statusMessage : string;
  (* Pending changes (to be applied on applyChanges()) *)
  m_pendingMinFreq : Z;
  m_pendingMaxFreq : Z;
  m_pendingGovernor : string;
  m_pendingEnergyPref : string;
  m_pendingOnline : bool;
  (* Flags indicating which changes are pending *)
  m_hasPendingMinFreq : bool;
  m_hasPendingMaxFreq : bool;
  m_hasPendingGovernor : bool;
  m_hasPendingEnergyPref : bool;
  m_hasPendingOnline : bool;
  (** signals emitted so far, in order *)
  emitted : list Signal
}.

Definition emit (sig : Signal) (a : State) : State :=
  {| m_currentCpu := m_currentCpu a; m_allCpusSelected := m_allCpusSelected a;
     m_hasUnsavedChanges := m_hasUnsavedChanges a; m_statusMessage := m_statusMessage a;
     m_pendingMinFreq := m_pendingMinFreq a; m_pendingMaxFreq := m_pendingMaxFreq a;
     m_pendingGovernor := m_pendingGovernor a; m_pendingEnergyPref := m_pendingEnergyPref a;
     m_pendingOnline := m_pendingOnline a;
     m_hasPendingMinFreq := m_hasPendingMinFreq a; m_hasPendingMaxFreq := m_hasPendingMaxFreq a;
     m_hasPendingGovernor := m_hasPendingGovernor a;
     m_hasPendingEnergyPref := m_hasPendingEnergyPref a;
     m_hasPendingOnline := m_hasPendingOnline a;
     emitted := emitted a ++ [sig] |}.

(** The object as its declaration initializes it. *)
Definition declared : State :=
  {| m_currentCpu := 0; m_allCpusSelected := false;
     m_hasUnsavedChanges := false; m_statusMessage := EmptyString;
     m_pendingMinFreq := 0; m_pendingMaxFreq := 0;
     m_pendingGovernor := EmptyString; m_pendingEnergyPref := EmptyString;
     m_pendingOnline := true;
     m_hasPendingMinFreq := false; m_hasPendingMaxFreq := false;
     m_hasPendingGovernor := false; m_hasPendingEnergyPref := false;
     m_hasPendingOnline := false;
     emitted := [] |}.

Definition setStatusMessage (msg : string) (a : State) : State :=
  if String.eqb (m_statusMessage a) msg then a
  else
    emit statusMessageChanged
      {| m_currentCpu := m_currentCpu a; m_allCpusSelected := m_allCpusSelected a;
         m_hasUnsavedChanges := m_hasUnsavedChanges a; m_statusMessage := msg;
         m_pendingMinFreq := m_pendingMinFreq a; m_pendingMaxFreq := m_pendingMaxFreq a;
         m_pendingGovernor := m_pendingGovernor a;
         m_pendingEnergyPref := m_pendingEnergyPref a;
         m_pendingOnline := m_pendingOnline a;
         m_hasPendingMinFreq := m_hasPendingMinFreq a;
         m_hasPendingMaxFreq := m_hasPendingMaxFreq a;
         m_hasPendingGovernor := m_hasPendingGovernor a;
         m_hasPendingEnergyPref := m_hasPendingEnergyPref a;
         m_hasPendingOnline := m_hasPendingOnline a;
         emitted := emitted a |}.

Definition setUnsavedChanges (changed : bool) (a : State) : State :=
  if Bool.eqb (m_hasUnsavedChanges a) changed then a
  else
    emit unsavedChangesChanged
      {| m_currentCpu := m_currentCpu a; m_allCpusSelected := m_allCpusSelected a;
         m_hasUnsavedChanges := changed; m_statusMessage := m_statusMessage a;
         m_pendingMinFreq := m_pendingMinFreq a; m_pendingMaxFreq := m_pendingMaxFreq a;
         m_pendingGovernor := m_pendingGovernor a;
         m_pendingEnergyPref := m_pendingEnergyPref a;
         m_pendingOnline := m_pendingOnline a;
         m_hasPendingMinFreq := m_hasPendingMinFreq a;
         m_hasPendingMaxFreq := m_hasPendingMaxFreq a;
         m_hasPendingGovernor := m_hasPendingGovernor a;
         m_hasPendingEnergyPref := m_hasPendingEnergyPref a;
         m_hasPendingOnline := m_hasPendingOnline a;
         emitted := emitted a |}.

Definition setCurrentCpu (cpu : Z) (a : State) : State :=
  if m_currentCpu a =? cpu then a
  else
    emit currentCpuStateChanged (emit allCpusSelectedChanged (emit currentCpuChanged
      {| m_currentCpu := cpu; m_allCpusSelected := false;
         m_hasUnsavedChanges := m_hasUnsavedChanges a; m_statusMessage := m_statusMessage a;
         m_pendingMinFreq := m_pendingMinFreq a; m_pendingMaxFreq := m_pendingMaxFreq a;
         m_pendingGovernor := m_pendingGovernor a;
         m_pendingEnergyPref := m_pendingEnergyPref a;
         m_pendingOnline := m_pendingOnline a;
         m_hasPendingMinFreq := m_hasPendingMinFreq a;
         m_hasPendingMaxFreq := m_hasPendingMaxFreq a;
         m_hasPendingGovernor := m_hasPendingGovernor a;
         m_hasPendingEnergyPref := m_hasPendingEnergyPref a;
         m_hasPendingOnline := m_hasPendingOnline a;
         emitted := emitted a |})).

Definition setAllCpusSelected (all : bool) (a : State) : State :=
  if Bool.eqb (m_allCpusSelected a) all then a
  else
    emit allCpusSelectedChanged
      {| m_currentCpu := m_currentCpu a; m_allCpusSelected := all;
         m_hasUnsavedChanges := m_hasUnsavedChanges a; m_statusMessage := m_statusMessage a;
         m_pendingMinFreq := m_pendingMinFreq a; m_pendingMaxFreq := m_pendingMaxFreq a;
         m_pendingGovernor := m_pendingGovernor a;
         m_pendingEnergyPref := m_pendingEnergyPref a;
         m_pendingOnline := m_pendingOnline a;
         m_hasPendingMinFreq := m_hasPendingMinFreq a;
         m_hasPendingMaxFreq := m_hasPendingMaxFreq a;
         m_hasPendingGovernor := m_hasPendingGovernor a;
         m_hasPendingEnergyPref := m_hasPendingEnergyPref a;
         m_hasPendingOnline := m_hasPendingOnline a;
         emitted := emitted a |}.

Definition setMinFrequency (freqKhz : Z) (a : State) : State :=
  setUnsavedChanges true
    {| m_currentCpu := m_currentCpu a; m_allCpusSelected := m_allCpusSelected a;
       m_hasUnsavedChanges := m_hasUnsavedChanges a; m_statusMessage := m_statusMessage a;
       m_pendingMinFreq := freqKhz; m_pendingMaxFreq := m_pendingMaxFreq a;
       m_pendingGovernor := m_pendingGovernor a; m_pendingEnergyPref := m_pendingEnergyPref a;
       m_pendingOnline := m_pendingOnline a;
       m_hasPendingMinFreq := true; m_hasPendingMaxFreq := m_hasPendingMaxFreq a;
       m_hasPendingGovernor := m_hasPendingGovernor a;
       m_hasPendingEnergyPref := m_hasPendingEnergyPref a;
       m_hasPendingOnline := m_hasPendingOnline a;
       emitted := emitted a |}.

Definition setMaxFrequency (freqKhz : Z) (a : State) : State :=
  setUnsavedChanges true
    {| m_currentCpu := m_currentCpu a; m_allCpusSelected := m_allCpusSelected a;
       m_hasUnsavedChanges := m_hasUnsavedChanges a; m_statusMessage := m_statusMessage a;
       m_pendingMinFreq := m_pendingMinFreq a; m_pendingMaxFreq := freqKhz;
       m_pendingGovernor := m_pendingGovernor a; m_pendingEnergyPref := m_pendingEnergyPref a;
       m_pendingOnline := m_pendingOnline a;
       m_hasPendingMinFreq := m_hasPendingMinFreq a; m_hasPendingMaxFreq := true;
       m_hasPendingGovernor := m_hasPendingGovernor a;
       m_hasPendingEnergyPref := m_hasPendingEnergyPref a;
       m_hasPendingOnline := m_hasPendingOnline a;
       emitted := emitted a |}.

Definition setGovernor (governor : string) (a : State) : State :=
  setUnsavedChanges true
    {| m_currentCpu := m_currentCpu a; m_allCpusSelected := m_allCpusSelected a;
       m_hasUnsavedChanges := m_hasUnsavedChanges a; m_statusMessage := m_statusMessage a;
       m_pendingMinFreq := m_pendingMinFreq a; m_pendingMaxFreq := m_pendingMaxFreq a;
       m_pendingGovernor := governor; m_pendingEnergyPref := m_pendingEnergyPref a;
       m_pendingOnline := m_pendingOnline a;
       m_hasPendingMinFreq := m_hasPendingMinFreq a;
       m_hasPendingMaxFreq := m_hasPendingMaxFreq a;
       m_hasPendingGovernor := true;
       m_hasPendingEnergyPref := m_hasPendingEnergyPref a;
       m_hasPendingOnline := m_hasPendingOnline a;
       emitted := emitted a |}.

Definition setEnergyPref (pref : string) (a : State) : State :=
  setUnsavedChanges true
    {| m_currentCpu := m_currentCpu a; m_allCpusSelected := m_allCpusSelected a;
       m_hasUnsavedChanges := m_hasUnsavedChanges a; m_statusMessage := m_statusMessage a;
       m_pendingMinFreq := m_pendingMinFreq a; m_pendingMaxFreq := m_pendingMaxFreq a;
       m_pendingGovernor := m_pendingGovernor a; m_pendingEnergyPref := pref;
       m_pendingOnline := m_pendingOnline a;
       m_hasPendingMinFreq := m_hasPendingMinFreq a;
       m_hasPendingMaxFreq := m_hasPendingMaxFreq a;
       m_hasPendingGovernor := m_hasPendingGovernor a;
       m_hasPendingEnergyPref := true;
       m_hasPendingOnline := m_hasPendingOnline a;
       emitted := emitted a |}.

Definition setCpuOnline (online : bool) (a : State) : State :=
  setUnsavedChanges true
    {| m_currentCpu := m_currentCpu a; m_allCpusSelected := m_allCpusSelected a;
       m_hasUnsavedChanges := m_hasUnsavedChanges a; m_statusMessage := m_statusMessage a;
       m_pendingMinFreq := m_pendingMinFreq a; m_pendingMaxFreq := m_pendingMaxFreq a;
       m_pendingGovernor := m_pendingGovernor a; m_pendingEnergyPref := m_pendingEnergyPref a;
       m_pendingOnline := online;
       m_hasPendingMinFreq := m_hasPendingMinFreq a;
       m_hasPendingMaxFreq := m_hasPendingMaxFreq a;
       m_hasPendingGovernor := m_hasPendingGovernor a;
       m_hasPendingEnergyPref := m_hasPendingEnergyPref a;
       m_hasPendingOnline := true;
       emitted := emitted a |}.

Definition clearPendingChanges (a : State) : State :=
  {| m_currentCpu := m_currentCpu a; m_allCpusSelected := m_allCpusSelected a;
     m_hasUnsavedChanges := m_hasUnsavedChanges a; m_statusMessage := m_statusMessage a;
     m_pendingMinFreq := 0; m_pendingMaxFreq := 0;
     m_pendingGovernor := EmptyString; m_pendingEnergyPref := EmptyString;
     m_pendingOnline := true;
     m_hasPendingMinFreq := false; m_hasPendingMaxFreq := false;
     m_hasPendingGovernor := false; m_hasPendingEnergyPref := false;
     m_hasPendingOnline := false;
     emitted := emitted a |}.

Definition refreshCpuInfo (a : State) : State :=
  setStatusMessage "CPU info refreshed" (emit currentCpuStateChanged a).

(** [errors.join("; ")]. *)
Definition join (sep : string) (l : list string) : string := String.concat sep l.

Definition onBatchCompleted (allSucceeded : bool) (errors : list string) (a : State) : State :=
  (* Refresh CPU info to show current state *)
  let a := refreshCpuInfo a in
  if allSucceeded then
    emit applySuccess (setStatusMessage "Changes applied successfully" a)
  else
    emit (applyFailed (join "; " errors)) (setStatusMessage "Some changes failed to apply" a).

Definition resetChanges (a : State) : State :=
  setStatusMessage "Changes discarded"
    (emit currentCpuStateChanged (setUnsavedChanges false (clearPendingChanges a))).

(** The object and its scheduler. *)
Record System := {
  app : State;
  dbus : DbusHelper.State
}.

(** The connection of [DbusHelper::batchCompleted] to [onBatchCompleted]:
    the slot runs for each such signal the scheduler emits. *)
Definition onSignal (a : State) (sig : DbusHelper.Signal) : State :=
  match sig with
  | batchCompleted allSucceeded errors => onBatchCompleted allSucceeded errors a
  | _ => a
  end.

(** A call of a function of the scheduler, with the slots its signals run. *)
Definition callHelper (f : DbusHelper.State -> DbusHelper.State) (s : System) : System :=
  let d := f (dbus s) in
  let signals := drop (length (DbusHelper.emitted (dbus s))) (DbusHelper.emitted d) in
  {| app := fold_left onSignal signals (app s); dbus := d |}.

Definition onApp (f : State -> State) (s : System) : System :=
  {| app := f (app s); dbus := dbus s |}.

Section Apply.

(** The files [SysfsReader] reads, and the bound on its range loops. *)
Variable fuel : nat.
Variable fs : gmap string SysfsFile.

(** The body of the loop of [applyChanges]. *)
Definition applyChangesToCpu (cpu : Z) (s : System) : option System :=
  (* Apply frequency settings (min and max together) *)
  let afterFreq :=
    if m_hasPendingMinFreq (app s) || m_hasPendingMaxFreq (app s) then
      match (if m_hasPendingMinFreq (app s) then Some (m_pendingMinFreq (app s))
             else SysfsReader.minFrequency fuel fs cpu) with
      | Some fmin =>
          match (if m_hasPendingMaxFreq (app s) then Some (m_pendingMaxFreq (app s))
                 else SysfsReader.maxFrequency fuel fs cpu) with
          | Some fmax =>
              Some (callHelper (updateCpuSettingsAsync cpu (wrapInt fmin) (wrapInt fmax)) s)
          | None => None
          end
      | None => None
      end
    else Some s in
  match afterFreq with
  | Some s =>
      (* Apply governor *)
      let s :=
        if m_hasPendingGovernor (app s) && negb (isEmpty (m_pendingGovernor (app s)))
        then callHelper (updateCpuGovernorAsync cpu (m_pendingGovernor (app s))) s
        else s in
      (* Apply energy preference *)
      let s :=
        if m_hasPendingEnergyPref (app s) && negb (isEmpty (m_pendingEnergyPref (app s))) then
          if SysfsReader.isEnergyPrefAvailable fs cpu
          then callHelper (updateCpuEnergyPrefsAsync cpu (m_pendingEnergyPref (app s))) s
          else s
        else s in
      (* Apply online/offline state (CPU 0 cannot be offlined) *)
      let s :=
        if m_hasPendingOnline (app s) && negb (cpu =? 0) then
          if m_pendingOnline (app s) then callHelper (setCpuOnlineAsync cpu) s
          else callHelper (setCpuOfflineAsync cpu) s
        else s in
      Some s
  | None => None
  end.

Fixpoint forEachCpu (body : Z -> System -> option System) (cpus : list Z) (s : System)
  : option System :=
  match cpus with
  | [] => Some s
  | cpu :: rest =>
      match body cpu s with
      | Some s => forEachCpu body rest s
      | None => None
      end
  end.

Definition applyChanges (s : System) : option System :=
  if negb (m_hasUnsavedChanges (app s)) then
    Some (onApp (setStatusMessage "No changes to apply") s)
  else if negb (m_connected (dbus s)) then
    (* Check if D-Bus helper is available *)
    Some (onApp (fun a => emit (applyFailed "D-Bus helper not available")
                   (setStatusMessage "D-Bus helper not connected - cannot apply changes" a)) s)
  else if m_operationInProgress (dbus s) then
    (* Check if an operation is already in progress *)
    Some (onApp (setStatusMessage "Operation already in progress") s)
  else
    let s := onApp (setStatusMessage "Applying changes...") s in
    match (if m_allCpusSelected (app s) then SysfsReader.availableCpus fuel fs
           else Some [m_currentCpu (app s)]) with
    | Some cpusToApply =>
        (* Begin batch mode - queue all operations *)
        let s := callHelper beginBatch s in
        match forEachCpu applyChangesToCpu cpusToApply s with
        | Some s =>
            (* Clear pending changes - results will be handled in onBatchCompleted *)
            let s := onApp clearPendingChanges s in
            let s := onApp (setUnsavedChanges false) s in
            (* End batch and start processing *)
            Some (callHelper endBatch s)
        | None => None
        end
    | None => None
    end.

(** The body of the loop of [applyProfile], for the entry under [cpu]. *)
Definition applyEntry (cpu : Z) (entry : CpuProfileEntry) (s : System) : option System :=
  match SysfsReader.availableCpus fuel fs with
  | Some available =>
      (* Check if this CPU exists *)
      if negb (containsInt available cpu) then Some s
      else
        (* Apply online/offline state first (CPU 0 cannot be offlined) *)
        let (s, skip) :=
          if negb (cpu =? 0) then
            if online entry then (callHelper (setCpuOnlineAsync cpu) s, false)
            else
              (* If we're setting CPU offline, skip other settings for this CPU *)
              (callHelper (setCpuOfflineAsync cpu) s, true)
          else (s, false) in
        if skip then Some s
        else
          (* Apply frequency settings *)
          let s :=
            if (freqMin entry >? 0) && (freqMax entry >? 0)
            then callHelper (updateCpuSettingsAsync cpu (wrapInt (freqMin entry))
                               (wrapInt (freqMax entry))) s
            else s in
          (* Apply governor *)
          let s :=
            if negb (isEmpty (governor entry))
            then callHelper (updateCpuGovernorAsync cpu (governor entry)) s
            else s in
          (* Apply energy preference *)
          let s :=
            if negb (isEmpty (energyPref entry)) && SysfsReader.isEnergyPrefAvailable fs cpu
            then callHelper (updateCpuEnergyPrefsAsync cpu (energyPref entry)) s
            else s in
          Some s
  | None => None
  end.

Fixpoint forEachEntry (entries : Settings) (s : System) : option System :=
  match entries with
  | [] => Some s
  | (cpu, entry) :: rest =>
      match applyEntry cpu entry s with
      | Some s => forEachEntry rest s
      | None => None
      end
  end.

(** [applyProfile(profileName)], with what
    [m_profileManager->profile(profileName)] returned. *)
Definition applyProfile (profileName : string) (profile : option Profile) (s : System)
  : option System :=
  match profile with
  | None => Some (onApp (emit (errorOccurred ("Profile not found: " +:+ profileName))) s)
  | Some profile =>
      if negb (m_connected (dbus s)) then
        Some (onApp (fun a => emit (applyFailed "D-Bus helper not available")
                       (setStatusMessage "D-Bus helper not connected - cannot apply profile" a))
                s)
      else if m_operationInProgress (dbus s) then
        Some (onApp (setStatusMessage "Operation already in progress") s)
      else
        let s := onApp (setStatusMessage ("Applying profile: " +:+ profileName)) s in
        (* Begin batch mode - queue all operations *)
        let s := callHelper beginBatch s in
        match forEachEntry (settings profile) s with
        | Some s => Some (callHelper endBatch s)
        | None => None
        end
  end.

End Apply.

(** The [finished] signal of the [w]-th watcher reaches the scheduler. *)
Definition onFinished (w : nat) (reply : PendingReply) : System -> System :=
  callHelper (fun d => handle d (Finished w reply)).

(** *** Notions used in the statements *)

(** The verdicts on a batch among the signals: [applySuccess] is [true]. *)
Definition verdicts (sigs : list Signal) : list bool :=
  flat_map (fun sig => match sig with
                       | applySuccess => [true]
                       | applyFailed _ => [false]
                       | _ => []
                       end) sigs.

(** An operation that switches CPU 0 on or off. *)
Definition switchesCpu0 (op : QueuedOperation) : bool :=
  (String.eqb (method op) "set_cpu_online" || String.eqb (method op) "set_cpu_offline")
  && match args op with
     | [VInt 0] => true
     | _ => false
     end.

(** The CPU an operation is for: its first argument. *)
Definition cpuOf (op : QueuedOperation) : option Z :=
  match args op with
  | VInt cpu :: _ => Some cpu
  | _ => None
  end.

(** The fields of the object that hold what is pending. *)
Definition pendingOf (a : State) :=
  (m_currentCpu a, m_allCpusSelected a, m_hasUnsavedChanges a,
   (m_pendingMinFreq a, m_pendingMaxFreq a, m_pendingGovernor a, m_pendingEnergyPref a,
    m_pendingOnline a),
   (m_hasPendingMinFreq a, m_hasPendingMaxFreq a, m_hasPendingGovernor a,
    m_hasPendingEnergyPref a, m_hasPendingOnline a)).

(** The system with [ops] added to the queue of the scheduler. *)
Definition queued (ops : list QueuedOperation) (s : System) : System :=
  {| app := app s;
     dbus := with_operationQueue (m_operationQueue (dbus s) ++ ops) (dbus s) |}.

(** An operation for [cpu] that does not switch CPU 0. *)
Definition operationFor (cpu : Z) (op : QueuedOperation) : Prop :=
  switchesCpu0 op = false /\ cpuOf op = Some cpu.

(** An operation the entry under [cpu] of a profile accounts for: it is
    for that CPU, which is among those [availableCpus] gives, it does not
    switch CPU 0, and it is [set_cpu_offline] when the entry is offline
    and the CPU is not CPU 0. *)
Definition operationOf (fuel : nat) (fs : gmap string SysfsFile)
    (cpu : Z) (entry : CpuProfileEntry) (op : QueuedOperation) : Prop :=
  operationFor cpu op /\
  (exists available,
     SysfsReader.availableCpus fuel fs = Some available /\ containsInt available cpu = true) /\
  (online entry = false -> cpu <> 0 -> method op = "set_cpu_offline").

(** The operations the five [Async] functions of the scheduler enqueue. *)
Definition settingsOperation (cpu fmin fmax : Z) : QueuedOperation :=
  {| method := "update_cpu_settings";
     args := [VInt cpu; VInt fmin; VInt fmax];
     description := "Set CPU " +:+ number cpu +:+ " frequency " +:+
                    number fmin +:+ "-" +:+ number fmax +:+ " kHz" |}.

Definition governorOperation (cpu : Z) (governor : string) : QueuedOperation :=
  {| method := "update_cpu_governor";
     args := [VInt cpu; VString governor];
     description := "Set CPU " +:+ number cpu +:+ " governor to " +:+ governor |}.

Definition energyPrefOperation (cpu : Z) (pref : string) : QueuedOperation :=
  {| method := "update_cpu_energy_prefs";
     args := [VInt cpu; VString pref];
     description := "Set CPU " +:+ number cpu +:+ " energy preference to " +:+ pref |}.

Definition onlineOperation (cpu : Z) : QueuedOperation :=
  {| method := "set_cpu_online"; args := [VInt cpu];
     description := "Set CPU " +:+ number cpu +:+ " online" |}.

Definition offlineOperation (cpu : Z) : QueuedOperation :=
  {| method := "set_cpu_offline"; args := [VInt cpu];
     description := "Set CPU " +:+ number cpu +:+ " offline" |}.

(** The operations what is pending in the application asks for, for one
    CPU: the two bounds together when one of them is pending, the other
    one as the reader gives it; the governor and the energy preference
    when they are pending and not empty, the preference only where the
    CPU has preferences; the switch when it is pending, but not for
    CPU 0. *)
Definition pendingOperations (fuel : nat) (fs : gmap string SysfsFile) (a : State) (cpu : Z)
  : list QueuedOperation :=
  (if m_hasPendingMinFreq a || m_hasPendingMaxFreq a then
     [settingsOperation cpu
        (wrapInt (if m_hasPendingMinFreq a then m_pendingMinFreq a
                  else default 0 (SysfsReader.minFrequency fuel fs cpu)))
        (wrapInt (if m_hasPendingMaxFreq a then m_pendingMaxFreq a
                  else default 0 (SysfsReader.maxFrequency fuel fs cpu)))]
   else [])
  ++ (if m_hasPendingGovernor a && negb (isEmpty (m_pendingGovernor a))
      then [governorOperation cpu (m_pendingGovernor a)] else [])
  ++ (if m_hasPendingEnergyPref a && negb (isEmpty (m_pendingEnergyPref a))
         && SysfsReader.isEnergyPrefAvailable fs cpu
      then [energyPrefOperation cpu (m_pendingEnergyPref a)] else [])
  ++ (if m_hasPendingOnline a && negb (cpu =? 0)
      then [if m_pendingOnline a then onlineOperation cpu else offlineOperation cpu]
      else []).

(** The operations an entry of a profile asks for: none for a CPU that
    is not among the available ones; the switch off alone for an entry
    that is offline, of a CPU other than 0; otherwise the switch on, for
    a CPU other than 0, the bounds when both are positive, the governor
    when it is not empty, and the energy preference when it is not empty
    and the CPU has preferences. *)
Definition entryOperations (fs : gmap string SysfsFile) (available : list Z)
    (cpu : Z) (entry : CpuProfileEntry) : list QueuedOperation :=
  if negb (containsInt available cpu) then []
  else if negb (cpu =? 0) && negb (online entry) then [offlineOperation cpu]
  else
    (if negb (cpu =? 0) then [onlineOperation cpu] else [])
    ++ (if (freqMin entry >? 0) && (freqMax entry >? 0)
        then [settingsOperation cpu (wrapInt (freqMin entry)) (wrapInt (freqMax entry))]
        else [])
    ++ (if negb (isEmpty (governor entry))
        then [governorOperation cpu (governor entry)] else [])
    ++ (if negb (isEmpty (energyPref entry)) && SysfsReader.isEnergyPrefAvailable fs cpu
        then [energyPrefOperation cpu (energyPref entry)] else []).

Definition profileOperations (fs : gmap string SysfsFile) (available : list Z)
    (profile : Profile) : list QueuedOperation :=
  flat_map (fun kv => entryOperations fs available (fst kv) (snd kv)) (settings profile).

(** The calls finish one after the other, each with its reply. *)
Definition finishAll (replies : list PendingReply) (s : System) : System :=
  fold_left (fun s reply => onFinished 0 reply s) replies s.

(** *** A machine to run the application on *)

(** Two CPUs with their [cpufreq] directories; CPU 1 can be switched. *)
Definition twoCpus : gmap string SysfsFile :=
  sysfsOf
    [("/sys/devices/system/cpu/present", ("0-1", false));
     ("/sys/devices/system/cpu/online", ("0-1", false));
     ("/sys/devices/system/cpu/cpu0/cpufreq/cpuinfo_min_freq", ("800000", false));
     ("/sys/devices/system/cpu/cpu0/cpufreq/cpuinfo_max_freq", ("3000000", false));
     ("/sys/devices/system/cpu/cpu0/cpufreq/scaling_min_freq", ("800000", true));
     ("/sys/devices/system/cpu/cpu0/cpufreq/scaling_max_freq", ("3000000", true));
     ("/sys/devices/system/cpu/cpu0/cpufreq/scaling_governor", ("powersave", true));
     ("/sys/devices/system/cpu/cpu0/cpufreq/scaling_available_governors",
      ("performance powersave", false));
     ("/sys/devices/system/cpu/cpu1/cpufreq/cpuinfo_min_freq", ("800000", false));
     ("/sys/devices/system/cpu/cpu1/cpufreq/cpuinfo_max_freq", ("3000000", false));
     ("/sys/devices/system/cpu/cpu1/cpufreq/scaling_min_freq", ("800000", true));
     ("/sys/devices/system/cpu/cpu1/cpufreq/scaling_max_freq", ("3000000", true));
     ("/sys/devices/system/cpu/cpu1/cpufreq/scaling_governor", ("powersave", true));
     ("/sys/devices/system/cpu/cpu1/cpufreq/scaling_available_governors",
      ("performance powersave", false));
     ("/sys/devices/system/cpu/cpu1/online", ("1", true))].

(** The application with a lower bound and a governor pending for all
    CPUs, on a connected scheduler. *)
Definition editing : System :=
  {| app := setGovernor "performance"
              (setMinFrequency 1000000 (setAllCpusSelected true declared));
     dbus := constructed true |}.

(** The application with a switch of CPU 0 pending. *)
Definition switching : System :=
  {| app := setCpuOnline false declared; dbus := constructed true |}.

(** A profile that caps CPU 0 and switches CPU 1 off. *)
Definition quiet : Profile :=
  {| name := "Quiet"; filePath := EmptyString; isSystem := false; isBuiltin := false;
     settings :=
       [(0, {| cpu := 0; freqMin := 800000; freqMax := 2000000; governor := "powersave";
               online := true; energyPref := EmptyString |});
        (1, {| cpu := 1; freqMin := 800000; freqMax := 2000000; governor := "powersave";
               online := false; energyPref := EmptyString |})] |}.

End Application.

(** ** Profiles and their files: profilemanager.cpp *)

Module ProfileManager.

Import HelperService Profile.

(** *** More of [QString], [QTextStream] and [QFileInfo] *)

(** [QString::startsWith]. *)
Fixpoint startsWith (prefix s : string) : bool :=
  match prefix, s with
  | EmptyString, _ => true
  | String p prefix', String c s' => Ascii.eqb c p && startsWith prefix' s'
  | String _ _, EmptyString => false
  end.

(** [QString::mid(n)]: the string from position [n] on. *)
Fixpoint mid (n : nat) (s : string) : string :=
  match n, s with
  | O, _ => s
  | S n', String _ s' => mid n' s'
  | S _, EmptyString => EmptyString
  end.

(** [QString::replace(QChar, QChar)]. *)
Fixpoint replace (before after : ascii) (s : string) : string :=
  match s with
  | EmptyString => EmptyString
  | String c s' => String (if Ascii.eqb c before then after else c) (replace before after s')
  end.

(** [QChar::toLower] below 256: the letters A to Z, and the capital
    letters of Latin-1, U+00C0 to U+00DE without the multiplication sign. *)
Definition toLowerChar (c : ascii) : ascii :=
  let n := N_of_ascii c in
  if ((65 <=? n)%N && (n <=? 90)%N) || ((192 <=? n)%N && (n <=? 222)%N && negb (n =? 215)%N)
  then ascii_of_N (n + 32)
  else c.

Fixpoint toLower (s : string) : string :=
  match s with
  | EmptyString => EmptyString
  | String c s' => String (toLowerChar c) (toLower s')
  end.

Definition LLONG_MIN : Z := -9223372036854775808.
Definition LLONG_MAX : Z := 9223372036854775807.

(** Two's-complement wrap-around of a [qint64]. *)
Definition wrapLongLong (z : Z) : Z :=
  (z + 9223372036854775808) mod 18446744073709551616 - 9223372036854775808.

(** [QString::toLongLong()]. *)
Definition toLongLong (s : string) : Z :=
  match parseDecimal (trimmed s) with
  | Some z => if (LLONG_MIN <=? z) && (z <=? LLONG_MAX) then z else 0
  | None => 0
  end.

(** What a device opened with [QIODevice::Text] gives when it is read:
    the content without its carriage returns. *)
Fixpoint textMode (content : string) : string :=
  match content with
  | EmptyString => EmptyString
  | String c r => if Ascii.eqb c "013" then textMode r else String c (textMode r)
  end.

(** The lines [QTextStream::readLine] returns until [atEnd]: the pieces
    between line feeds; after a final line feed there is no line. *)
Definition readLines (content : string) : list string :=
  let pieces := splitAt (Ascii.eqb "010") (textMode content) in
  match last pieces with
  | Some EmptyString => removelast pieces
  | _ => pieces
  end.

(** [QFileInfo(filePath).baseName()]: the file name up to its first dot. *)
Definition baseName (filePath : string) : string :=
  let fileName := List.last (splitAt (Ascii.eqb "/") filePath) EmptyString in
  match splitAt (Ascii.eqb ".") fileName with
  | base :: _ => base
  | [] => EmptyString
  end.

(** The characters the source writes as [\t] and [\n]. *)
Definition TAB : string := String "009" EmptyString.
Definition LF : string := String "010" EmptyString.

(** [operator<<(qint64)] of [QTextStream]. *)
Definition decimal (z : Z) : string := NilZero.string_of_int (Z.to_int z).

(** *** The object *)

Inductive Signal :=
| profilesChanged
| profileCreated (name : string)
| profileDeleted (name : string)
| error (message : string).

(** The profile files, and what the file system allows: whether the
    directory of the user's profiles exists and [mkpath] can make it,
    which paths can be opened for writing, and which removed. *)
Record Disk := {
  files : gmap string string;
  userDirExists : bool;
  canMakeDir : bool;
  canOpen : string -> bool;
  canRemove : string -> bool
}.

Record State := {
  m_profiles : gmap string Profile;
  disk : Disk;
  (** signals emitted so far, in order *)
  emitted : list Signal
}.

Definition emit (sig : Signal) (st : State) : State :=
  {| m_profiles := m_profiles st; disk := disk st; emitted := emitted st ++ [sig] |}.

Definition hasProfile (name : string) (st : State) : bool :=
  match m_profiles st !! name with Some _ => true | None => false end.

Definition isSystemProfile (name : string) (st : State) : bool :=
  match m_profiles st !! name with Some p => isSystem p | None => false end.

Definition isBuiltinProfile (name : string) (st : State) : bool :=
  match m_profiles st !! name with Some p => isBuiltin p | None => false end.

Definition canDeleteProfile (name : string) (st : State) : bool :=
  match m_profiles st !! name with Some p => canDelete p | None => false end.

Definition profile (name : string) (st : State) : option Profile := m_profiles st !! name.

Definition systemProfileDir : string := "/etc/cpupower_gui.d".

Section Manager.

(** [QStandardPaths::writableLocation(QStandardPaths::ConfigLocation)]. *)
Variable configLocation : string.

(** The files [m_sysfs] reads, [None] for a null pointer, and the bound
    on the iterations of each range loop. *)
Variable m_sysfs : option (gmap string SysfsFile).
Variable fuel : nat.

Definition userProfileDir : string := configLocation +:+ "/cpupower_gui".

(** One line of the file for an entry. *)
Definition entryLine (entry : CpuProfileEntry) : string :=
  decimal (cpu entry) +:+ TAB
  +:+ decimal (Z.quot (freqMin entry) 1000) +:+ TAB   (* kHz to MHz *)
  +:+ decimal (Z.quot (freqMax entry) 1000) +:+ TAB   (* kHz to MHz *)
  +:+ governor entry +:+ TAB
  +:+ (if online entry then "y" else "n") +:+ LF.

(** What [writeProfileFile] sends to the stream. *)
Definition profileText (p : Profile) : string :=
  "# name: " +:+ name p +:+ LF +:+ LF
  +:+ "# CPU" +:+ TAB +:+ "Min" +:+ TAB +:+ "Max" +:+ TAB +:+ "Governor" +:+ TAB +:+ "Online"
  +:+ LF
  +:+ String.concat EmptyString (List.map (fun kv => entryLine (snd kv)) (settings p)).

Definition writeProfileFile (p : Profile) (d : Disk) : bool * Disk :=
  (* Ensure directory exists *)
  let made :=
    if negb (userDirExists d) then
      if negb (canMakeDir d) then None
      else Some {| files := files d; userDirExists := true; canMakeDir := canMakeDir d;
                   canOpen := canOpen d; canRemove := canRemove d |}
    else Some d in
  match made with
  | None => (false, d)
  | Some d =>
      if negb (canOpen d (filePath p)) then (false, d)
      else
        (true,
         {| files := <[filePath p := profileText p]> (files d);
            userDirExists := userDirExists d; canMakeDir := canMakeDir d;
            canOpen := canOpen d; canRemove := canRemove d |})
  end.

(** The loop of [createProfile] over the CPU settings it is given,
    each already taken out of its [QVariantMap]. *)
Definition collect (cpuSettings : list CpuProfileEntry) : Settings :=
  fold_left (fun settings entry => insert (cpu entry) entry settings) cpuSettings [].

Definition createProfile (name : string) (cpuSettings : list CpuProfileEntry) (st : State)
  : bool * State :=
  if isEmpty name then (false, emit (error "Profile name cannot be empty") st)
  else if hasProfile name st && negb (canDeleteProfile name st) then
    (* Don't overwrite system/builtin profiles *)
    (false, emit (error ("Cannot overwrite system profile: " +:+ name)) st)
  else
    (* Generate filename *)
    let safeName := replace " " "-" name in
    let p := {| Profile.name := name;
                filePath := userProfileDir +:+ "/cpg-" +:+ safeName +:+ ".profile";
                isSystem := false; isBuiltin := false;
                settings := collect cpuSettings |} in
    let (ok, d) := writeProfileFile p (disk st) in
    let st := {| m_profiles := m_profiles st; disk := d; emitted := emitted st |} in
    if negb ok then (false, emit (error "Failed to write profile file") st)
    else
      (true,
       emit (profileCreated name)
         (emit profilesChanged
            {| m_profiles := <[name := p]> (m_profiles st); disk := disk st;
               emitted := emitted st |})).

Definition deleteProfile (name : string) (st : State) : bool * State :=
  if negb (canDeleteProfile name st) then
    (false, emit (error ("Cannot delete profile: " +:+ name)) st)
  else
    match m_profiles st !! name with
    | None => (false, st)
    | Some p =>
        (* Delete the file *)
        let exists_ := match files (disk st) !! filePath p with Some _ => true | None => false end in
        if negb (isEmpty (filePath p)) && exists_ && negb (canRemove (disk st) (filePath p))
        then (false, emit (error "Failed to delete profile file") st)
        else
          let d :=
            if negb (isEmpty (filePath p)) && exists_ then
              {| files := delete (filePath p) (files (disk st));
                 userDirExists := userDirExists (disk st); canMakeDir := canMakeDir (disk st);
                 canOpen := canOpen (disk st); canRemove := canRemove (disk st) |}
            else disk st in
          (true,
           emit (profileDeleted name)
             (emit profilesChanged
                {| m_profiles := delete name (m_profiles st); disk := d;
                   emitted := emitted st |}))
    end.

(** The CPUs a specification names. *)
Definition parseCpuSpec (cpuSpec : string) : option (list Z) :=
  if contains "-" cpuSpec && negb (contains "," cpuSpec) then
    (* Handle ranges like "0-3" *)
    match split "-" KeepEmptyParts cpuSpec with
    | [first; second] => rangeLoop fuel (toInt first) (toInt second) []
    | _ => Some []
    end
  else if contains "," cpuSpec then
    (* Handle comma-separated list "0,2,4" *)
    parseParts fuel (split "," KeepEmptyParts cpuSpec) []
  else
    (* Single CPU *)
    Some [toInt cpuSpec].

(** The loop that applies the settings of a line to the CPUs of its list. *)
Fixpoint applyToCpus (cpuList : list Z) (fmin fmax : Z) (governor : string) (online : bool)
    (settings : Settings) : option Settings :=
  match cpuList with
  | [] => Some settings
  | cpu :: rest =>
      (* Use hardware limits if not specified *)
      let limits :=
        match m_sysfs with
        | Some fs =>
            match (if fmin >? 0 then Some fmin
                   else SysfsReader.minFrequencyHardware fuel fs cpu) with
            | Some entryMin =>
                match (if fmax >? 0 then Some fmax
                       else SysfsReader.maxFrequencyHardware fuel fs cpu) with
                | Some entryMax => Some (entryMin, entryMax)
                | None => None
                end
            | None => None
            end
        | None => Some (fmin, fmax)
        end in
      match limits with
      | Some (entryMin, entryMax) =>
          let entry :=
            {| cpu := cpu; freqMin := entryMin; freqMax := entryMax;
               governor := if negb (String.eqb governor "-") then governor else EmptyString;
               online := online; energyPref := EmptyString |} in
          applyToCpus rest fmin fmax governor online (insert cpu entry settings)
      | None => None
      end
  end.

(** A line of CPU settings: "cpu  fmin  fmax  governor  online". *)
Definition parseSettingsLine (line : string) (settings : Settings) : option Settings :=
  let parts := splitWhitespace line in
  match parts with
  | cpuSpec :: fminStr :: fmaxStr :: governor :: more =>
      match parseCpuSpec cpuSpec with
      | Some cpuList =>
          (* Parse frequency values (in MHz in file, convert to kHz) *)
          let fmin :=
            if negb (String.eqb fminStr "-") && (toLongLong fminStr >? 0)
            then wrapLongLong (toLongLong fminStr * 1000) else 0 in
          let fmax :=
            if negb (String.eqb fmaxStr "-") && (toLongLong fmaxStr >? 0)
            then wrapLongLong (toLongLong fmaxStr * 1000) else 0 in
          let online :=
            match more with
            | onlineStr :: _ =>
                let onlineStr := toLower onlineStr in
                String.eqb onlineStr "y" || String.eqb onlineStr "yes"
                || String.eqb onlineStr "1" || String.eqb onlineStr "true"
            | [] => true
            end in
          applyToCpus cpuList fmin fmax governor online settings
      | None => None
      end
  | _ => Some settings   (* parts.size() < 4 *)
  end.

(** The body of the loop over the lines: [firstLine], the name and the
    settings so far. *)
Definition parseLine (filePath : string) (rawLine : string)
    (acc : bool * string * Settings) : option (bool * string * Settings) :=
  let '(firstLine, name, settings) := acc in
  let line := trimmed rawLine in
  (* Skip empty lines *)
  if isEmpty line then Some acc
  else
    let named :=
      if firstLine then
        if startsWith "# name:" line then Some (trimmed (mid 7 line))
        else if startsWith "#" line then Some (baseName filePath)
        else None
      else None in
    match named with
    | Some name => Some (false, name, settings)
    | None =>
        (* Skip comments *)
        if startsWith "#" line then Some (false, name, settings)
        else
          match parseSettingsLine line settings with
          | Some settings => Some (false, name, settings)
          | None => None
          end
    end.

Fixpoint parseLines (filePath : string) (lines : list string)
    (acc : bool * string * Settings) : option (bool * string * Settings) :=
  match lines with
  | [] => Some acc
  | line :: rest =>
      match parseLine filePath line acc with
      | Some acc => parseLines filePath rest acc
      | None => None
      end
  end.

Definition parseProfileFile (filePath : string) (isSystem : bool) (d : Disk) : option Profile :=
  match files d !! filePath with
  | None =>
      Some {| name := EmptyString; filePath := filePath; isSystem := isSystem;
              isBuiltin := false; settings := [] |}
  | Some content =>
      match parseLines filePath (readLines content) (true, EmptyString, []) with
      | Some (_, name, settings) =>
          (* Fallback name from filename if not found *)
          let name := if isEmpty name then baseName filePath else name in
          Some {| name := name; filePath := filePath; isSystem := isSystem;
                  isBuiltin := false; settings := settings |}
      | None => None
      end
  end.

(** [loadProfilesFromDir], with the names [dir.entryList] returned. *)
Fixpoint loadProfileFiles (dirPath : string) (isSystem : bool) (profileFiles : list string)
    (st : State) : option State :=
  match profileFiles with
  | [] => Some st
  | file :: rest =>
      let filePath := dirPath +:+ "/" +:+ file in
      match parseProfileFile filePath isSystem (disk st) with
      | Some prof =>
          let st :=
            if isValid prof
            then {| m_profiles := <[name prof := prof]> (m_profiles st); disk := disk st;
                    emitted := emitted st |}
            else st in
          loadProfileFiles dirPath isSystem rest st
      | None => None
      end
  end.

End Manager.

(** *** Notions used in the statements *)

(** No character of the string satisfies [f]. *)
Fixpoint without (f : ascii -> bool) (s : string) : bool :=
  match s with
  | EmptyString => true
  | String c r => negb (f c) && without f r
  end.

Definition isDigit (c : ascii) : bool :=
  let n := N_of_ascii c in (48 <=? n)%N && (n <=? 57)%N.

(** The line of an entry without its line feed. *)
Definition entryBody (e : CpuProfileEntry) : string :=
  decimal (cpu e) +:+ TAB
  +:+ decimal (Z.quot (freqMin e) 1000) +:+ TAB
  +:+ decimal (Z.quot (freqMax e) 1000) +:+ TAB
  +:+ governor e +:+ TAB
  +:+ (if online e then "y" else "n").

(** A name the first line of a file can carry: not empty, no white space
    at its ends, no line feed and no carriage return. *)
Definition nameFits (name : string) : Prop :=
  isEmpty name = false /\ trimmed name = name /\
  without (fun c => Ascii.eqb c "010" || Ascii.eqb c "013") name = true.

(** An entry the format can carry: a CPU number that is not negative,
    bounds that are positive and whole MHz, a governor that is a word
    other than "-", and no energy preference. *)
Definition entryFits (e : CpuProfileEntry) : Prop :=
  0 <= cpu e <= INT_MAX /\
  0 < freqMin e <= LLONG_MAX /\ freqMin e mod 1000 = 0 /\
  0 < freqMax e <= LLONG_MAX /\ freqMax e mod 1000 = 0 /\
  isEmpty (governor e) = false /\ without isRegexSpace (governor e) = true /\
  governor e <> "-" /\
  energyPref e = EmptyString.

(** As [entryFits], whatever the energy preference is. *)
Definition entryFitsButEnergyPref (e : CpuProfileEntry) : Prop :=
  0 <= cpu e <= INT_MAX /\
  0 < freqMin e <= LLONG_MAX /\ freqMin e mod 1000 = 0 /\
  0 < freqMax e <= LLONG_MAX /\ freqMax e mod 1000 = 0 /\
  isEmpty (governor e) = false /\ without isRegexSpace (governor e) = true /\
  governor e <> "-".

(** An entry, and a profile, with the energy preferences left out. *)
Definition withoutEnergyPref (e : CpuProfileEntry) : CpuProfileEntry :=
  {| cpu := cpu e; freqMin := freqMin e; freqMax := freqMax e; governor := governor e;
     online := online e; energyPref := EmptyString |}.

Definition withoutEnergyPrefs (p : Profile) : Profile :=
  {| name := name p; filePath := filePath p; isSystem := isSystem p;
     isBuiltin := isBuiltin p;
     settings := List.map (fun kv => (fst kv, withoutEnergyPref (snd kv))) (settings p) |}.

(** As [entryFits], for an entry without governor. *)
Definition entryFitsButGovernor (e : CpuProfileEntry) : Prop :=
  0 <= cpu e <= INT_MAX /\
  0 < freqMin e <= LLONG_MAX /\ freqMin e mod 1000 = 0 /\
  0 < freqMax e <= LLONG_MAX /\ freqMax e mod 1000 = 0 /\
  governor e = EmptyString.

(** The line over the entries of a file. *)
Definition headerLine : string :=
  "# CPU" +:+ TAB +:+ "Min" +:+ TAB +:+ "Max" +:+ TAB +:+ "Governor" +:+ TAB +:+ "Online".

(** The lines [writeProfileFile] writes. *)
Definition linesOf (p : Profile) : list string :=
  ("# name: " +:+ name p) :: EmptyString :: headerLine
  :: List.map (fun kv => entryBody (snd kv)) (settings p).

(** An entry as its line is read: without governor, the mark of its
    online state is its governor, and it is online. *)
Definition asRead (e : CpuProfileEntry) : CpuProfileEntry :=
  if isEmpty (governor e) then
    {| cpu := cpu e; freqMin := freqMin e; freqMax := freqMax e;
       governor := if online e then "y" else "n";
       online := true; energyPref := EmptyString |}
  else e.

Definition settingsAsRead (settings : Settings) : Settings :=
  List.map (fun kv => (fst kv, asRead (snd kv))) settings.

(** The profile [createProfile] makes of a name and CPU settings. *)
Definition created (configLocation name : string) (cpuSettings : list CpuProfileEntry)
  : Profile :=
  {| name := name;
     filePath := userProfileDir configLocation +:+ "/cpg-" +:+ replace " " "-" name
                 +:+ ".profile";
     isSystem := false; isBuiltin := false;
     settings := collect cpuSettings |}.

(** Requests to the manager, and the state after some of them. *)
Inductive Request :=
| create (name : string) (cpuSettings : list CpuProfileEntry)
| remove (name : string).

Definition request (configLocation : string) (r : Request) (st : State) : State :=
  match r with
  | create name cpuSettings => snd (createProfile configLocation name cpuSettings st)
  | remove name => snd (deleteProfile name st)
  end.

Definition requests (configLocation : string) (rs : list Request) (st : State) : State :=
  fold_left (fun st r => request configLocation r st) rs st.

(** The keys of a [QMap], as its iterator gives them. *)
Fixpoint ascending (settings : Settings) : Prop :=
  match settings with
  | [] => True
  | (key, _) :: rest => Forall (fun kv => key < fst kv) rest /\ ascending rest
  end.

(** The disk of a user who can write everywhere, with no profile yet. *)
Definition emptyDisk : Disk :=
  {| files := ∅; userDirExists := false; canMakeDir := true;
     canOpen := fun _ => true; canRemove := fun _ => true |}.

Definition noProfiles : State := {| m_profiles := ∅; disk := emptyDisk; emitted := [] |}.

(** Settings of two CPUs, the second offline; and the same with no
    governor for the second. *)
Definition wordEntries : list CpuProfileEntry :=
  [ {| cpu := 0; freqMin := 800000; freqMax := 2000000; governor := "powersave";
       online := true; energyPref := EmptyString |};
    {| cpu := 3; freqMin := 800000; freqMax := 2000000; governor := "performance";
       online := false; energyPref := EmptyString |} ].

Definition bareEntries : list CpuProfileEntry :=
  [ {| cpu := 0; freqMin := 800000; freqMax := 2000000; governor := "powersave";
       online := true; energyPref := EmptyString |};
    {| cpu := 3; freqMin := 800000; freqMax := 2000000; governor := EmptyString;
       online := false; energyPref := EmptyString |} ].

(** The first settings, with an energy preference for CPU 0. *)
Definition prefEntries : list CpuProfileEntry :=
  [ {| cpu := 0; freqMin := 800000; freqMax := 2000000; governor := "powersave";
       online := true; energyPref := "balance_power" |};
    {| cpu := 3; freqMin := 800000; freqMax := 2000000; governor := "performance";
       online := false; energyPref := EmptyString |} ].

(** A builtin profile, and a manager that holds it. *)
Definition balanced : Profile :=
  {| name := "Balanced"; filePath := EmptyString; isSystem := false; isBuiltin := true;
     settings := [] |}.

Definition withBalanced : State :=
  {| m_profiles := {[ "Balanced" := balanced ]}; disk := emptyDisk; emitted := [] |}.

Definition home : string := "/home/u/.config".

(** Two profiles whose names differ in a space and a hyphen are created,
    and the second is deleted. *)
Definition afterFirst : State := snd (createProfile home "a b" wordEntries noProfiles).
Definition afterSecond : State := snd (createProfile home "a-b" bareEntries afterFirst).
Definition afterDelete : State := snd (deleteProfile "a-b" afterSecond).

End ProfileManager.

(** * Properties *)

(** ** Decimal texts *)

Module QStringFacts.

Import QString.

Example trimmed_ex : trimmed "  0-3,5 " = "0-3,5".
Proof. reflexivity. Qed.

Example split_ex : split "," SkipEmptyParts "0-3,,5," = ["0-3"; "5"].
Proof. reflexivity. Qed.

Example split_dash_ex : split "-" KeepEmptyParts "-5" = [""; "5"].
Proof. reflexivity. Qed.

Example toInt_ex :
  List.map toInt ["12"; " 7 "; "+3"; "-4"; "x"; ""; "2147483648"; "1 2"]
  = [12; 7; 3; -4; 0; 0; 0; 0].
Proof. vm_compute. reflexivity. Qed.

Example number_ex : List.map number [0; 15; -20] = ["0"; "15"; "-20"].
Proof. vm_compute. reflexivity. Qed.

Lemma plain_string_of_uint d : plain (NilEmpty.string_of_uint d) = true.
Proof. induction d; simpl; auto. Qed.

Lemma plain_number z : plain (number z) = true.
Proof.
  unfold number. destruct z as [|p|p]; simpl.
  - reflexivity.
  - pose proof (plain_string_of_uint (Pos.to_uint p)) as H.
    unfold NilZero.string_of_uint. destruct (Pos.to_uint p); auto.
  - pose proof (plain_string_of_uint (Pos.to_uint p)) as H.
    unfold NilZero.string_of_uint. destruct (Pos.to_uint p); auto.
Qed.

Lemma trimLeft_plain s : plain s = true -> trimLeft s = s.
Proof.
  destruct s as [|c r]; simpl; [reflexivity|].
  destruct (isSpace c); simpl; [discriminate | reflexivity].
Qed.

Lemma trimRight_plain s : plain s = true -> trimRight s = s.
Proof.
  induction s as [|c r IH]; simpl; [reflexivity|].
  destruct (isSpace c); simpl; [discriminate|].
  intros H. apply andb_true_iff in H as [_ H]. now rewrite IH.
Qed.

Lemma trimmed_plain s : plain s = true -> trimmed s = s.
Proof. intros H. unfold trimmed. rewrite (trimLeft_plain _ H). now apply trimRight_plain. Qed.

Lemma parseDecimal_plain s :
  plain s = true -> parseDecimal s = option_map Z.of_int (NilZero.int_of_string s).
Proof.
  destruct s as [|c r]; [reflexivity|].
  destruct c as [[] [] [] [] [] [] [] []]; try reflexivity.
  simpl. discriminate.
Qed.

Lemma parseDecimal_number z : parseDecimal (number z) = Some z.
Proof.
  rewrite parseDecimal_plain by apply plain_number.
  unfold number. rewrite NilZero.isi.
  - simpl. now rewrite DecimalZ.of_to.
  - destruct z; simpl; try discriminate.
    intros [= H]. now apply Unsigned.to_uint_nonnil in H.
  - destruct z; simpl; try discriminate.
    intros [= H]. now apply Unsigned.to_uint_nonnil in H.
Qed.

Lemma toInt_number z : inIntRange z = true -> toInt (number z) = z.
Proof.
  intros H. unfold toInt. rewrite trimmed_plain by apply plain_number.
  now rewrite parseDecimal_number, H.
Qed.

Lemma toInt_trimmed_number z : inIntRange z = true -> toInt (trimmed (number z)) = z.
Proof. intros H. rewrite trimmed_plain by apply plain_number. now apply toInt_number. Qed.

Lemma toInt_range s : INT_MIN <= toInt s <= INT_MAX.
Proof.
  unfold toInt. destruct (parseDecimal (trimmed s)) as [z|]; [|unfold INT_MIN, INT_MAX; lia].
  destruct (inIntRange z) eqn:E; [|unfold INT_MIN, INT_MAX; lia].
  unfold inIntRange in E. apply andb_true_iff in E as [H1 H2]. lia.
Qed.

End QStringFacts.

(** ** The helper *)

Module HelperServiceFacts.

Import QString HelperService QStringFacts.

(** *** The list parsers *)

Lemma wrapInt_succ i : INT_MIN <= i < INT_MAX -> wrapInt (i + 1) = i + 1.
Proof.
  unfold INT_MIN, INT_MAX, wrapInt. intros H.
  rewrite Z.mod_small by lia. lia.
Qed.

Lemma wrapInt_range z : INT_MIN <= wrapInt z <= INT_MAX.
Proof.
  unfold INT_MIN, INT_MAX, wrapInt.
  pose proof (Z.mod_pos_bound (z + 2147483648) 4294967296 ltac:(lia)). lia.
Qed.

(** A loop whose bound is [INT_MAX] never leaves: [i <= end] holds for
    every [int]. *)
Lemma rangeLoop_INT_MAX fuel : forall i result,
  i <= INT_MAX -> rangeLoop fuel i INT_MAX result = None.
Proof.
  induction fuel as [|fuel IH]; intros i result Hi; simpl.
  - destruct (Z.leb_spec i INT_MAX); [reflexivity | lia].
  - destruct (Z.leb_spec i INT_MAX); [|lia].
    apply IH. apply wrapInt_range.
Qed.

Lemma rangeLoop_finishes fuel : forall i end_ result,
  INT_MIN <= i -> end_ < INT_MAX ->
  (Z.to_nat (end_ - i + 1) <= fuel)%nat ->
  rangeLoop fuel i end_ result = Some (result ++ seqZ i (end_ - i + 1)).
Proof.
  induction fuel as [|fuel IH]; intros i end_ result Hi He Hf; simpl.
  - destruct (Z.leb_spec i end_); [lia|].
    rewrite seqZ_nil by lia. now rewrite app_nil_r.
  - destruct (Z.leb_spec i end_).
    + rewrite wrapInt_succ by lia. rewrite IH by lia.
      rewrite (seqZ_cons i) by lia. rewrite <- app_assoc. simpl.
      repeat f_equal; lia.
    + rewrite seqZ_nil by lia. now rewrite app_nil_r.
Qed.

Lemma rangeLoop_empty fuel i end_ result :
  end_ < i -> rangeLoop fuel i end_ result = Some result.
Proof.
  intros H. destruct fuel; simpl; destruct (Z.leb_spec i end_); try lia; reflexivity.
Qed.

(** C10.  [parseCpuList] does not return a list for every text: on a
    range whose upper end is [INT_MAX] the loop [for (i = start; i <= end;
    ++i)] has no exit, whatever number of iterations it is given. *)
Theorem parseCpuList_range_to_INT_MAX fuel :
  parseCpuList fuel "0-2147483647" = None.
Proof.
  change (parseCpuList fuel "0-2147483647")
    with (parseParts fuel ["0-2147483647"] []).
  unfold parseParts.
  change (parsePart fuel "0-2147483647" []) with (rangeLoop fuel 0 INT_MAX []).
  rewrite rangeLoop_INT_MAX; [reflexivity | unfold INT_MAX; lia].
Qed.

Example parseCpuList_spec_example :
  parseCpuList 8 "0-3,5,7-9" = Some [0; 1; 2; 3; 5; 7; 8; 9] /\ parseCpuList 0 "" = Some [].
Proof. split; vm_compute; reflexivity. Qed.

Example parseCpuList_odd_parts :
  parseCpuList 8 " 1-2-3,,x,5-4,-2 " = Some [0; 0; 1; 2].
Proof. vm_compute. reflexivity. Qed.

(** A part that is not a number contributes 0. *)
Lemma toInt_not_a_number s : parseDecimal (trimmed s) = None -> toInt s = 0.
Proof. intros H. unfold toInt. now rewrite H. Qed.

Lemma parsePart_single fuel part result :
  contains "-" part = false -> parsePart fuel part result = Some (result ++ [toInt part]).
Proof. intros H. unfold parsePart. now rewrite H. Qed.

Lemma parsePart_not_two_pieces fuel part result :
  contains "-" part = true -> length (split "-" KeepEmptyParts part) <> 2%nat ->
  parsePart fuel part result = Some result.
Proof.
  intros H Hlen. unfold parsePart. rewrite H.
  destruct (split "-" KeepEmptyParts part) as [|a [|b [|c l]]]; simpl in *; congruence.
Qed.

Lemma parsePart_descending fuel part first second result :
  contains "-" part = true -> split "-" KeepEmptyParts part = [first; second] ->
  toInt second < toInt first ->
  parsePart fuel part result = Some result.
Proof.
  intros H Hs Hlt. unfold parsePart. rewrite H, Hs. now apply rangeLoop_empty.
Qed.

Lemma parsePart_range fuel part first second result :
  contains "-" part = true -> split "-" KeepEmptyParts part = [first; second] ->
  toInt second < INT_MAX -> enoughFuel fuel ->
  parsePart fuel part result
  = Some (result ++ seqZ (toInt first) (toInt second - toInt first + 1)).
Proof.
  intros H Hs Hlt Hfuel. unfold parsePart. rewrite H, Hs.
  pose proof (toInt_range first). pose proof (toInt_range second).
  apply rangeLoop_finishes; try lia.
  unfold enoughFuel, INT_MIN, INT_MAX in *. lia.
Qed.

Lemma parsePart_finishes fuel part result :
  rangeEnds part -> enoughFuel fuel ->
  exists result', parsePart fuel part result = Some result'.
Proof.
  intros Hends Hfuel. unfold rangeEnds in Hends.
  destruct (contains "-" part) eqn:Hc; [|rewrite parsePart_single by assumption; eauto].
  destruct (split "-" KeepEmptyParts part) as [|a [|b [|c l]]] eqn:Hs;
    try (rewrite parsePart_not_two_pieces by (rewrite ?Hs; simpl; congruence); eauto; fail).
  erewrite parsePart_range by eassumption. eauto.
Qed.

Lemma parseParts_finishes fuel parts : forall result,
  Forall rangeEnds parts -> enoughFuel fuel ->
  exists result', parseParts fuel parts result = Some result'.
Proof.
  induction parts as [|part parts IH]; intros result Hall Hfuel; simpl; [eauto|].
  inversion Hall as [|? ? Hpart Hrest]; subst.
  destruct (parsePart_finishes fuel part result Hpart Hfuel) as [r ->].
  now apply IH.
Qed.

(** [parseCpuList] returns for every text none of whose ranges ends at
    [INT_MAX]. *)
Lemma parseCpuList_finishes fuel content :
  Forall rangeEnds (split "," SkipEmptyParts (trimmed content)) ->
  enoughFuel fuel ->
  exists result, parseCpuList fuel content = Some result.
Proof.
  intros Hall Hfuel. unfold parseCpuList.
  destruct (isEmpty (trimmed content)); [eauto|].
  now apply parseParts_finishes.
Qed.

(** Empty parts are skipped. *)
Lemma split_skips_empty_parts sep s :
  Forall (fun part => isEmpty part = false) (split sep SkipEmptyParts s).
Proof.
  unfold split. apply List.Forall_forall. intros part Hin.
  apply List.filter_In in Hin as [_ H]. now apply negb_true_iff.
Qed.

(** *** What the common steps of the slots leave untouched *)

Section Frames.
Variable polkit : nat -> string -> string -> DBusReply.
Variable fuel : nat.

Lemma resetIdleTimer_eq st : resetIdleTimer st = Some (tt, timerReset st).
Proof. unfold resetIdleTimer, timerReset. now destruct (0 <? m_idleTimeoutSecs st). Qed.

Lemma timerReset_sysfs st : sysfs (timerReset st) = sysfs st.
Proof. unfold timerReset. now destruct (0 <? m_idleTimeoutSecs st). Qed.
Lemma timerReset_writes st : writes (timerReset st) = writes st.
Proof. unfold timerReset. now destruct (0 <? m_idleTimeoutSecs st). Qed.
Lemma timerReset_cache st : m_authorizedSenders (timerReset st) = m_authorizedSenders st.
Proof. unfold timerReset. now destruct (0 <? m_idleTimeoutSecs st). Qed.
Lemma timerReset_polkitCalls st : polkitCalls (timerReset st) = polkitCalls st.
Proof. unfold timerReset. now destruct (0 <? m_idleTimeoutSecs st). Qed.

Lemma checkPolkitAuthorization_frame sender actionId st :
  let st' := snd (checkPolkitAuthorization polkit sender actionId st) in
  sysfs st' = sysfs st /\ writes st' = writes st.
Proof.
  unfold checkPolkitAuthorization.
  destruct (m_authorizedSenders st !! (sender +:+ actionId)); simpl; [easy|].
  destruct (polkit _ _ _) as [|[|[a c d|] args]]; simpl; try easy.
  destruct (a && negb c); easy.
Qed.

Lemma isAuthorized_frame caller actionId st :
  let st' := snd (isAuthorized polkit caller actionId st) in
  sysfs st' = sysfs st /\ writes st' = writes st.
Proof.
  destruct caller; simpl; [easy|]. apply checkPolkitAuthorization_frame.
Qed.

(** The decision depends on the cache and on the calls made so far, not
    on the timer. *)
Lemma isAuthorized_timerReset caller actionId st :
  fst (isAuthorized polkit caller actionId (timerReset st))
  = fst (isAuthorized polkit caller actionId st).
Proof.
  destruct caller; simpl; [reflexivity|].
  unfold checkPolkitAuthorization.
  rewrite timerReset_cache, timerReset_polkitCalls.
  destruct (m_authorizedSenders st !! _); [reflexivity|].
  destruct (polkit _ _ _) as [|[|[a c d|] args]]; reflexivity.
Qed.

Lemma isPresent_eq cpu st :
  isPresent fuel cpu st =
  match cpuListed fuel (sysfs st) "present" cpu with
  | Some b => Some (b, timerReset st)
  | None => None
  end.
Proof.
  unfold isPresent, get_cpus_present, bind, readSysfsFile, partial, ret, cpuListed.
  rewrite resetIdleTimer_eq, timerReset_sysfs.
  now destruct (parseCpuList _ _).
Qed.

Lemma isOnline_eq cpu st :
  isOnline fuel cpu st =
  match cpuListed fuel (sysfs st) "online" cpu with
  | Some b => Some (b, timerReset st)
  | None => None
  end.
Proof.
  unfold isOnline, get_cpus_online, bind, readSysfsFile, partial, ret, cpuListed.
  rewrite resetIdleTimer_eq, timerReset_sysfs.
  now destruct (parseCpuList _ _).
Qed.

Lemma timerReset_idem st : timerReset (timerReset st) = timerReset st.
Proof.
  unfold timerReset. destruct (0 <? m_idleTimeoutSecs st) eqn:E; simpl; [|now rewrite E].
  now rewrite E.
Qed.

Lemma notPresentOrNotOnline_available cpu st :
  cpuListed fuel (sysfs st) "present" cpu = Some true ->
  cpuListed fuel (sysfs st) "online" cpu = Some true ->
  notPresentOrNotOnline fuel cpu st = Some (false, timerReset st).
Proof.
  intros Hp Ho. unfold notPresentOrNotOnline, bind, ret.
  rewrite isPresent_eq, Hp. simpl.
  rewrite isOnline_eq, timerReset_sysfs, Ho. simpl.
  now rewrite timerReset_idem.
Qed.
End Frames.

(** *** The authorization gate and the energy preference *)

Section Gate.
Variable polkit : nat -> string -> string -> DBusReply.
Variable fuel : nat.

(** The common opening of the five mutating slots. *)
Lemma gate_denied caller st :
  fst (isAuthorized polkit caller APPLY_RUNTIME st) = false ->
  exists st', isAuthorized polkit caller APPLY_RUNTIME (timerReset st) = (false, st')
              /\ writes st' = writes st /\ sysfs st' = sysfs st.
Proof.
  intros H. rewrite <- isAuthorized_timerReset in H.
  pose proof (isAuthorized_frame polkit caller APPLY_RUNTIME (timerReset st)) as [Hs Hw].
  destruct (isAuthorized polkit caller APPLY_RUNTIME (timerReset st)) as [b st'] eqn:E.
  simpl in *. subst b. exists st'. rewrite Hs, Hw, timerReset_sysfs, timerReset_writes. easy.
Qed.

Lemma gate_passed caller st :
  fst (isAuthorized polkit caller APPLY_RUNTIME st) = true ->
  exists st', isAuthorized polkit caller APPLY_RUNTIME (timerReset st) = (true, st')
              /\ writes st' = writes st /\ sysfs st' = sysfs st.
Proof.
  intros H. rewrite <- isAuthorized_timerReset in H.
  pose proof (isAuthorized_frame polkit caller APPLY_RUNTIME (timerReset st)) as [Hs Hw].
  destruct (isAuthorized polkit caller APPLY_RUNTIME (timerReset st)) as [b st'] eqn:E.
  simpl in *. subst b. exists st'. rewrite Hs, Hw, timerReset_sysfs, timerReset_writes. easy.
Qed.

(** C3.  When the authorization gate denies the caller, each of the five
    mutating slots returns -1, and no file has been written nor has a
    write been attempted. *)
Theorem denied_caller_no_write caller st cpu freq_min freq_max governor pref :
  fst (isAuthorized polkit caller APPLY_RUNTIME st) = false ->
  refusedWithoutWrite st (update_cpu_settings polkit fuel caller cpu freq_min freq_max st) /\
  refusedWithoutWrite st (update_cpu_governor polkit fuel caller cpu governor st) /\
  refusedWithoutWrite st (update_cpu_energy_prefs polkit fuel caller cpu pref st) /\
  refusedWithoutWrite st (set_cpu_online polkit caller cpu st) /\
  refusedWithoutWrite st (set_cpu_offline polkit caller cpu st).
Proof.
  intros H. destruct (gate_denied caller st H) as (st' & E & Hw & Hs).
  unfold refusedWithoutWrite.
  repeat split; exists st';
    unfold update_cpu_settings, update_cpu_governor, update_cpu_energy_prefs,
      set_cpu_online, set_cpu_offline, bind, total, ret;
    rewrite resetIdleTimer_eq, E; simpl; auto.
Qed.

(** C8.  For an authorized caller and a CPU that is present and online,
    [update_cpu_energy_prefs] returns 0 without any write when the
    preference is not among the supported ones, or when the preference
    file does not exist. *)
Theorem energy_pref_unsupported_is_noop caller st cpu pref :
  fst (isAuthorized polkit caller APPLY_RUNTIME st) = true ->
  cpuListed fuel (sysfs st) "present" cpu = Some true ->
  cpuListed fuel (sysfs st) "online" cpu = Some true ->
  containsString (supportedPrefs (sysfs st) cpu) pref = false \/
  fileExists (sysfs st) (inDir (cpufreqPath cpu) ENERGY_PERF_PREF) = false ->
  exists st',
    update_cpu_energy_prefs polkit fuel caller cpu pref st = Some (0, st') /\
    writes st' = writes st /\ sysfs st' = sysfs st.
Proof.
  intros Ha Hp Ho Hcase.
  destruct (gate_passed caller st Ha) as (st1 & E & Hw & Hs).
  unfold update_cpu_energy_prefs, bind, total, ret.
  rewrite resetIdleTimer_eq, E. simpl.
  rewrite notPresentOrNotOnline_available by (rewrite Hs; assumption). simpl.
  unfold get_cpu_energy_preferences, bind, ret, readSysfsFile.
  rewrite resetIdleTimer_eq.
  rewrite notPresentOrNotOnline_available
    by (rewrite !timerReset_sysfs, Hs; assumption).
  simpl. rewrite !timerReset_idem, timerReset_sysfs, Hs.
  fold (supportedPrefs (sysfs st) cpu).
  destruct (containsString (supportedPrefs (sysfs st) cpu) pref) eqn:Ec; simpl.
  - destruct Hcase as [Hc | Hx]; [discriminate|].
    unfold exists_. rewrite timerReset_sysfs, Hs, Hx. simpl.
    eexists; split; [reflexivity|]. now rewrite timerReset_writes, timerReset_sysfs.
  - eexists; split; [reflexivity|]. now rewrite timerReset_writes, timerReset_sysfs.
Qed.
End Gate.

(** *** The ordered writes of the scaling bounds *)

Lemma append_cancel_l (p a b : string) : p +:+ a = p +:+ b -> a = b.
Proof. induction p as [|c p IH]; simpl; [easy|]. intros [= H]. auto. Qed.

Lemma minPath_maxPath cpu : minPath cpu <> maxPath cpu.
Proof.
  unfold minPath, maxPath, inDir. intros H.
  apply append_cancel_l in H. discriminate.
Qed.

Lemma fileWrite_failed fs path value :
  fst (fileWrite fs path value) = false -> snd (fileWrite fs path value) = fs.
Proof.
  unfold fileWrite. destruct (fs !! path) as [f|]; [|easy].
  destruct (writable f); [discriminate | easy].
Qed.

Lemma fileWrite_succeeded fs path value :
  fst (fileWrite fs path value) = true ->
  snd (fileWrite fs path value) = <[path := {| content := value; writable := true |}]> fs.
Proof.
  unfold fileWrite. destruct (fs !! path) as [f|]; [|discriminate].
  destruct (writable f); [easy | discriminate].
Qed.

Lemma fileText_written fs path value :
  fileText (<[path := {| content := value; writable := true |}]> fs) path = value.
Proof. unfold fileText. now rewrite lookup_insert_eq. Qed.

Lemma fileText_other fs path path' f :
  path <> path' -> fileText (<[path := f]> fs) path' = fileText fs path'.
Proof. intros H. unfold fileText. now rewrite lookup_insert_ne. Qed.

(** What one write of a bound does to the two bounds as they are read back. *)
Lemma write_min_bounds fs cpu v :
  inIntRange v = true ->
  let fs' := snd (fileWrite fs (minPath cpu) (number v)) in
  (fst (fileWrite fs (minPath cpu) (number v)) = true -> scalingMin fs' cpu = v) /\
  (fst (fileWrite fs (minPath cpu) (number v)) = false -> scalingMin fs' cpu = scalingMin fs cpu) /\
  scalingMax fs' cpu = scalingMax fs cpu.
Proof.
  intros Hv fs'. subst fs'.
  destruct (fst (fileWrite fs (minPath cpu) (number v))) eqn:E.
  - rewrite fileWrite_succeeded by assumption. unfold scalingMin, scalingMax.
    rewrite fileText_written, fileText_other by apply minPath_maxPath.
    split; [intros _; now apply toInt_trimmed_number | easy].
  - rewrite fileWrite_failed by assumption. easy.
Qed.

Lemma write_max_bounds fs cpu v :
  inIntRange v = true ->
  let fs' := snd (fileWrite fs (maxPath cpu) (number v)) in
  (fst (fileWrite fs (maxPath cpu) (number v)) = true -> scalingMax fs' cpu = v) /\
  (fst (fileWrite fs (maxPath cpu) (number v)) = false -> scalingMax fs' cpu = scalingMax fs cpu) /\
  scalingMin fs' cpu = scalingMin fs cpu.
Proof.
  intros Hv fs'. subst fs'.
  destruct (fst (fileWrite fs (maxPath cpu) (number v))) eqn:E.
  - rewrite fileWrite_succeeded by assumption. unfold scalingMin, scalingMax.
    rewrite fileText_written, fileText_other by (apply not_eq_sym, minPath_maxPath).
    split; [intros _; now apply toInt_trimmed_number | easy].
  - rewrite fileWrite_failed by assumption. easy.
Qed.

Lemma writeSysfsFile_eq path value st :
  writeSysfsFile path value st =
  Some (fst (fileWrite (sysfs st) path value),
        with_writes (writes st ++ [(path, value)])
          (with_sysfs (snd (fileWrite (sysfs st) path value)) st)).
Proof. unfold writeSysfsFile. now destruct (fileWrite _ _ _). Qed.

Section Ordered.
Variable polkit : nat -> string -> string -> DBusReply.
Variable fuel : nat.

(** The run of [update_cpu_settings] on an available CPU for an
    authorized caller: the two writes it makes, in order. *)
Lemma update_cpu_settings_run caller st cpu freq_min freq_max :
  fst (isAuthorized polkit caller APPLY_RUNTIME st) = true ->
  cpuListed fuel (sysfs st) "present" cpu = Some true ->
  cpuListed fuel (sysfs st) "online" cpu = Some true ->
  let minW := (minPath cpu, number freq_min) in
  let maxW := (maxPath cpu, number freq_max) in
  let order :=
    if freq_max <? scalingMin (sysfs st) cpu then [minW; maxW]
    else if freq_min >? scalingMax (sysfs st) cpu then [maxW; minW]
    else [minW; maxW] in
  exists code st',
    update_cpu_settings polkit fuel caller cpu freq_min freq_max st = Some (code, st') /\
    writes st' = writes st ++ order /\
    sysfs st' = afterWrites (sysfs st) order.
Proof.
  intros Ha Hp Ho minW maxW order.
  destruct (gate_passed polkit caller st Ha) as (st1 & E & Hw & Hs).
  unfold update_cpu_settings, bind, total, ret.
  rewrite resetIdleTimer_eq, E. simpl.
  rewrite notPresentOrNotOnline_available by (rewrite Hs; assumption). simpl.
  unfold readSysfsFile. rewrite !timerReset_sysfs, Hs.
  fold (minPath cpu) (maxPath cpu).
  fold (scalingMin (sysfs st) cpu) (scalingMax (sysfs st) cpu).
  subst order.
  destruct (freq_max <? scalingMin (sysfs st) cpu);
    [|destruct (freq_min >? scalingMax (sysfs st) cpu)];
    rewrite !writeSysfsFile_eq; simpl;
    do 2 eexists; (split; [reflexivity|]); simpl;
    rewrite !timerReset_sysfs, timerReset_writes, Hs, Hw, <- app_assoc; easy.
Qed.

(** What holds of C1.  For an authorized caller, a CPU that is present
    and online, a request with [new_min <= new_max] and current bounds
    with [cur_min <= cur_max]: [update_cpu_settings] attempts exactly two
    writes, the lower bound first when [new_max < cur_min], the upper
    bound first when [new_min > cur_max], the lower bound first
    otherwise; and when the first of them succeeds, the bounds read back
    after the first and after the second write satisfy [min <= max]. *)
Theorem update_cpu_settings_ordered caller st cpu new_min new_max :
  inIntRange new_min = true -> inIntRange new_max = true ->
  fst (isAuthorized polkit caller APPLY_RUNTIME st) = true ->
  cpuListed fuel (sysfs st) "present" cpu = Some true ->
  cpuListed fuel (sysfs st) "online" cpu = Some true ->
  new_min <= new_max ->
  scalingMin (sysfs st) cpu <= scalingMax (sysfs st) cpu ->
  let cur_min := scalingMin (sysfs st) cpu in
  let cur_max := scalingMax (sysfs st) cpu in
  let minW := (minPath cpu, number new_min) in
  let maxW := (maxPath cpu, number new_max) in
  exists code st' first second,
    update_cpu_settings polkit fuel caller cpu new_min new_max st = Some (code, st') /\
    writes st' = writes st ++ [first; second] /\
    sysfs st' = afterWrites (sysfs st) [first; second] /\
    (new_max < cur_min -> first = minW /\ second = maxW) /\
    (new_min > cur_max -> first = maxW /\ second = minW) /\
    (cur_min <= new_max -> new_min <= cur_max -> first = minW /\ second = maxW) /\
    (writeSucceeds (sysfs st) first = true ->
     boundsOrdered (afterWrites (sysfs st) [first]) cpu /\
     boundsOrdered (afterWrites (sysfs st) [first; second]) cpu).
Proof.
  intros Rmin Rmax Ha Hp Ho Hnew Hcur cur_min cur_max minW maxW.
  destruct (update_cpu_settings_run caller st cpu new_min new_max Ha Hp Ho)
    as (code & st' & Hrun & Hw & Hs).
  pose proof (write_min_bounds (sysfs st) cpu new_min Rmin) as (Hm1 & Hm2 & Hm3).
  pose proof (write_max_bounds (sysfs st) cpu new_max Rmax) as (Hx1 & Hx2 & Hx3).
  fold cur_min cur_max in Hw, Hs, Hcur.
  unfold boundsOrdered, writeSucceeds, afterWrites.
  destruct (Z.ltb_spec new_max cur_min) as [C1|C1];
    [|destruct (Z.gtb_spec new_min cur_max) as [C2|C2]].
  - exists code, st', minW, maxW. repeat split; try assumption; try lia.
    + simpl in *. fold cur_min cur_max in Hm3. rewrite Hm1, Hm3 by assumption. lia.
    + simpl in *.
      pose proof (write_max_bounds (snd (fileWrite (sysfs st) (minPath cpu) (number new_min)))
                    cpu new_max Rmax) as (Hy1 & Hy2 & Hy3).
      rewrite Hy3, Hm1 by assumption.
      destruct (fst (fileWrite (snd (fileWrite (sysfs st) (minPath cpu) (number new_min)))
                       (maxPath cpu) (number new_max))).
      * rewrite Hy1 by reflexivity. lia.
      * rewrite Hy2, Hm3 by reflexivity. fold cur_max. lia.
  - exists code, st', maxW, minW. repeat split; try assumption; try lia.
    + simpl in *. fold cur_min cur_max in Hx3. rewrite Hx1, Hx3 by assumption. lia.
    + simpl in *.
      pose proof (write_min_bounds (snd (fileWrite (sysfs st) (maxPath cpu) (number new_max)))
                    cpu new_min Rmin) as (Hy1 & Hy2 & Hy3).
      rewrite Hy3, Hx1 by assumption.
      destruct (fst (fileWrite (snd (fileWrite (sysfs st) (maxPath cpu) (number new_max)))
                       (minPath cpu) (number new_min))).
      * rewrite Hy1 by reflexivity. lia.
      * rewrite Hy2, Hx3 by reflexivity. fold cur_min. lia.
  - exists code, st', minW, maxW. repeat split; try assumption; try lia.
    + simpl in *. fold cur_min cur_max in Hm3. rewrite Hm1, Hm3 by assumption. lia.
    + simpl in *.
      pose proof (write_max_bounds (snd (fileWrite (sysfs st) (minPath cpu) (number new_min)))
                    cpu new_max Rmax) as (Hy1 & Hy2 & Hy3).
      rewrite Hy3, Hm1 by assumption.
      destruct (fst (fileWrite (snd (fileWrite (sysfs st) (minPath cpu) (number new_min)))
                       (maxPath cpu) (number new_max))).
      * rewrite Hy1 by reflexivity. lia.
      * rewrite Hy2, Hm3 by reflexivity. fold cur_max. lia.
Qed.
End Ordered.

(** *** The decision cache *)

Section Cache.
Variable polkit : nat -> string -> string -> DBusReply.

(** One check either leaves the cache as it is or adds [true] under its
    own key, and the latter only on a reply "authorized, no challenge". *)
Lemma checkPolkitAuthorization_cache sender actionId st :
  let key := sender +:+ actionId in
  let st' := snd (checkPolkitAuthorization polkit sender actionId st) in
  m_authorizedSenders st' = m_authorizedSenders st \/
  (m_authorizedSenders st !! key = None /\
   (exists details rest,
      polkit (length (polkitCalls st)) sender actionId
      = ReplyMessage (AuthorizationResult true false details :: rest)) /\
   m_authorizedSenders st' = <[key := true]> (m_authorizedSenders st)).
Proof.
  unfold checkPolkitAuthorization.
  destruct (m_authorizedSenders st !! (sender +:+ actionId)) eqn:E; simpl; [now left|].
  destruct (polkit _ _ _) as [|[|[a c d|] args]]; simpl; try now left.
  destruct a, c; simpl; try now left.
  right. eauto.
Qed.

(** An entry of the cache is never removed nor overwritten. *)
Lemma checkPolkitAuthorization_keeps sender actionId st key cached :
  m_authorizedSenders st !! key = Some cached ->
  m_authorizedSenders (snd (checkPolkitAuthorization polkit sender actionId st)) !! key
  = Some cached.
Proof.
  intros H.
  destruct (checkPolkitAuthorization_cache sender actionId st) as [-> | (Hnone & _ & ->)];
    [assumption|].
  rewrite lookup_insert_ne; [assumption|]. intros <-. congruence.
Qed.

Lemma checks_keep requests : forall st key cached,
  m_authorizedSenders st !! key = Some cached ->
  m_authorizedSenders (checks polkit requests st) !! key = Some cached.
Proof.
  induction requests as [|r requests IH]; intros st key cached H; simpl; [assumption|].
  apply IH. now apply checkPolkitAuthorization_keeps.
Qed.

Lemma checkPolkitAuthorization_hit sender actionId st cached :
  m_authorizedSenders st !! (sender +:+ actionId) = Some cached ->
  checkPolkitAuthorization polkit sender actionId st = (cached, st).
Proof. intros H. unfold checkPolkitAuthorization. now rewrite H. Qed.

(** C2.  A check changes the cache only by storing [true] under its own
    key, and only when the authority replied "authorized, no challenge"
    (so a challenge is never stored); and once the key of a subject and
    an action holds a decision, every later check for them, after any
    other checks, returns that decision and leaves the state, the list
    of authority calls included, as it is. *)
Theorem polkit_decision_cache sender actionId st :
  let key := sender +:+ actionId in
  let st' := snd (checkPolkitAuthorization polkit sender actionId st) in
  (m_authorizedSenders st' = m_authorizedSenders st \/
   (m_authorizedSenders st !! key = None /\
    (exists details rest,
       polkit (length (polkitCalls st)) sender actionId
       = ReplyMessage (AuthorizationResult true false details :: rest)) /\
    m_authorizedSenders st' = <[key := true]> (m_authorizedSenders st))) /\
  (forall cached requests,
     m_authorizedSenders st !! key = Some cached ->
     let later := checks polkit requests st in
     checkPolkitAuthorization polkit sender actionId later = (cached, later)).
Proof.
  split.
  - apply checkPolkitAuthorization_cache.
  - intros cached requests H later.
    apply checkPolkitAuthorization_hit. now apply checks_keep.
Qed.

(** C4.  When a check has to ask the authority and the reply is a D-Bus
    error, has no argument, or has a first argument that cannot be read,
    the check returns [false] and stores nothing. *)
Theorem authority_failure_is_denial sender actionId st :
  m_authorizedSenders st !! (sender +:+ actionId) = None ->
  carriesNoDecision (polkit (length (polkitCalls st)) sender actionId) = true ->
  let st' := with_polkitCalls (polkitCalls st ++ [(sender, actionId)]) st in
  checkPolkitAuthorization polkit sender actionId st = (false, st') /\
  isAuthorized polkit (DBusCall sender) actionId st = (false, st').
Proof.
  intros Hmiss Hreply st'. simpl.
  assert (checkPolkitAuthorization polkit sender actionId st = (false, st')) as E.
  { unfold checkPolkitAuthorization. rewrite Hmiss.
    destruct (polkit _ _ _) as [|[|[a c d|] args]]; simpl in *; easy. }
  now rewrite E.
Qed.
End Cache.

(** *** Runs on a concrete machine *)

Example raise_above_old_max :
  match update_cpu_settings noAuthority 8 LocalCall 2 2200000 2500000 (fourCpus true) with
  | Some (code, st') =>
      code = 0 /\
      writes st' = [(maxPath 2, "2500000"); (minPath 2, "2200000")] /\
      (scalingMin (sysfs st') 2, scalingMax (sysfs st') 2) = (2200000, 2500000)
  | None => False
  end.
Proof. vm_compute. repeat split. Qed.

Example set_cpu_offline_cpu0 :
  option_map fst (set_cpu_offline noAuthority LocalCall 0 (fourCpus true)) = Some (-1) /\
  option_map fst (set_cpu_offline noAuthority (DBusCall ":1.42") 0 (fourCpus true)) = Some (-1).
Proof. split; vm_compute; reflexivity. Qed.

Example first_write_fails_run :
  match update_cpu_settings noAuthority 8 LocalCall 0 500000 1000000 (fourCpus false) with
  | Some (code, st') =>
      code = -13 /\
      writes st' = [(minPath 0, "500000"); (maxPath 0, "1000000")] /\
      (scalingMin (sysfs st') 0, scalingMax (sysfs st') 0) = (2000000, 1000000)
  | None => False
  end.
Proof. vm_compute. repeat split. Qed.

(** C1: the code breaks the rule [min <= max] it states for itself.
    CPU 0 is present and online, the caller is authorized, the request
    is 500000..1000000 and the current bounds are 2000000..3000000; the
    file of the lower bound cannot be opened for writing.  The lower
    bound is attempted first and fails; the failure is only recorded in
    [success], the upper bound is written all the same, and the bounds
    read 2000000..1000000.  The superseded revision returned at the
    first write that failed. *)
Lemma first_write_fails_bounds_cross :
  fst (isAuthorized noAuthority LocalCall APPLY_RUNTIME (fourCpus false)) = true /\
  cpuListed 8 (sysfs (fourCpus false)) "present" 0 = Some true /\
  cpuListed 8 (sysfs (fourCpus false)) "online" 0 = Some true /\
  500000 <= 1000000 /\
  scalingMin (sysfs (fourCpus false)) 0 <= scalingMax (sysfs (fourCpus false)) 0 /\
  ~ boundsOrderedAfterEveryWrite noAuthority 8 LocalCall (fourCpus false) 0 500000 1000000.
Proof.
  split; [reflexivity|]. split; [vm_compute; reflexivity|]. split; [vm_compute; reflexivity|].
  split; [lia|]. split; [vm_compute; discriminate|].
  intros (code & st' & first & second & Hrun & Hw & _ & Hb).
  destruct (update_cpu_settings_run noAuthority 8 LocalCall (fourCpus false) 0 500000 1000000)
    as (code' & st'' & Hrun' & Hw' & _);
    [reflexivity | vm_compute; reflexivity | vm_compute; reflexivity |].
  rewrite Hrun in Hrun'. injection Hrun' as _ <-.
  rewrite Hw in Hw'. apply app_inv_head in Hw'.
  change (scalingMin (sysfs (fourCpus false)) 0) with 2000000 in Hw'.
  simpl in Hw'. injection Hw' as -> ->.
  revert Hb. unfold boundsOrdered.
  replace (scalingMin _ 0) with 2000000 by (vm_compute; reflexivity).
  replace (scalingMax _ 0) with 1000000 by (vm_compute; reflexivity).
  lia.
Qed.

Lemma update_cpu_settings_ordered_witness :
  exists code st',
    update_cpu_settings noAuthority 8 LocalCall 0 500000 1000000 (fourCpus true)
    = Some (code, st') /\
    writes st' = [(minPath 0, number 500000); (maxPath 0, number 1000000)] /\
    boundsOrdered (sysfs st') 0.
Proof.
  assert (fst (isAuthorized noAuthority LocalCall APPLY_RUNTIME (fourCpus true)) = true)
    as Hauth by reflexivity.
  assert (cpuListed 8 (sysfs (fourCpus true)) "present" 0 = Some true)
    as Hpresent by (vm_compute; reflexivity).
  assert (cpuListed 8 (sysfs (fourCpus true)) "online" 0 = Some true)
    as Honline by (vm_compute; reflexivity).
  assert (500000 <= 1000000) as Hnew by lia.
  assert (scalingMin (sysfs (fourCpus true)) 0 <= scalingMax (sysfs (fourCpus true)) 0)
    as Hcur by (vm_compute; discriminate).
  destruct (update_cpu_settings_ordered noAuthority 8 LocalCall (fourCpus true) 0
              500000 1000000 eq_refl eq_refl Hauth Hpresent Honline Hnew Hcur)
    as (code & st' & first & second & Hrun & Hw & Hs & Hlow & _ & _ & Hb).
  destruct Hlow as [-> ->]; [vm_compute; reflexivity|].
  exists code, st'. split; [exact Hrun|]. split; [exact Hw|].
  rewrite Hs. apply Hb. vm_compute. reflexivity.
Defined.

Lemma denied_caller_no_write_witness :
  refusedWithoutWrite (fourCpus true)
    (update_cpu_settings noAuthority 8 (DBusCall ":1.42") 0 500000 1000000 (fourCpus true)) /\
  refusedWithoutWrite (fourCpus true)
    (set_cpu_offline noAuthority (DBusCall ":1.42") 2 (fourCpus true)).
Proof.
  destruct (denied_caller_no_write noAuthority 8 (DBusCall ":1.42") (fourCpus true)
              0 500000 1000000 "performance" "power")
    as (H1 & _); [vm_compute; reflexivity|].
  destruct (denied_caller_no_write noAuthority 8 (DBusCall ":1.42") (fourCpus true)
              2 500000 1000000 "performance" "power")
    as (_ & _ & _ & _ & H5); [vm_compute; reflexivity|].
  split; assumption.
Defined.

Lemma energy_pref_unsupported_is_noop_witness :
  exists st',
    update_cpu_energy_prefs noAuthority 8 LocalCall 0 "bogus" (fourCpus true) = Some (0, st') /\
    writes st' = [] /\ sysfs st' = sysfs (fourCpus true).
Proof.
  apply (energy_pref_unsupported_is_noop noAuthority 8 LocalCall (fourCpus true) 0 "bogus").
  - vm_compute. reflexivity.
  - vm_compute. reflexivity.
  - vm_compute. reflexivity.
  - left. vm_compute. reflexivity.
Defined.

Lemma authority_failure_is_denial_witness :
  isAuthorized noAuthority (DBusCall ":1.42") APPLY_RUNTIME (fourCpus true)
  = (false, with_polkitCalls [(":1.42", APPLY_RUNTIME)] (fourCpus true)).
Proof.
  apply (authority_failure_is_denial noAuthority ":1.42" APPLY_RUNTIME (fourCpus true)).
  - vm_compute. reflexivity.
  - vm_compute. reflexivity.
Defined.

Lemma polkit_decision_cache_witness :
  let st := snd (checkPolkitAuthorization grantedOnce ":1.42" APPLY_RUNTIME (fourCpus true)) in
  let later := checks grantedOnce [(":1.7", APPLY_RUNTIME); (":1.42", "other.action")] st in
  checkPolkitAuthorization grantedOnce ":1.42" APPLY_RUNTIME later = (true, later).
Proof.
  intros st later.
  apply (proj2 (polkit_decision_cache grantedOnce ":1.42" APPLY_RUNTIME st) true).
  vm_compute. reflexivity.
Defined.

Example grant_is_cached :
  let st := snd (checkPolkitAuthorization grantedOnce ":1.42" APPLY_RUNTIME (fourCpus true)) in
  fst (checkPolkitAuthorization grantedOnce ":1.42" APPLY_RUNTIME st) = true /\
  polkitCalls (snd (checkPolkitAuthorization grantedOnce ":1.42" APPLY_RUNTIME st))
  = [(":1.42", APPLY_RUNTIME)].
Proof. vm_compute. split; reflexivity. Qed.

Example denial_is_asked_again :
  let st := snd (checkPolkitAuthorization deniedOnce ":1.42" APPLY_RUNTIME (fourCpus true)) in
  fst (checkPolkitAuthorization deniedOnce ":1.42" APPLY_RUNTIME (fourCpus true)) = false /\
  fst (checkPolkitAuthorization deniedOnce ":1.42" APPLY_RUNTIME st) = true /\
  length (polkitCalls (snd (checkPolkitAuthorization deniedOnce ":1.42" APPLY_RUNTIME st)))
  = 2%nat.
Proof. vm_compute. repeat split. Qed.
End HelperServiceFacts.

(** ** The older revision *)

Module SupersededFacts.

Import QString HelperService.

(** The older [update_cpu_settings] on the request that raises both
    bounds above the old upper bound: the lower bound is written first,
    and after that write the bounds read 2200000..2000000. *)
Lemma superseded_min_first_crosses :
  match Superseded.update_cpu_settings noAuthority 8 LocalCall 2 2200000 2500000 (fourCpus true) with
  | Some (code, st') =>
      code = 0 /\
      writes st' = [(minPath 2, "2200000"); (maxPath 2, "2500000")] /\
      (scalingMin (afterWrites (sysfs (fourCpus true)) [(minPath 2, "2200000")]) 2,
       scalingMax (afterWrites (sysfs (fourCpus true)) [(minPath 2, "2200000")]) 2)
      = (2200000, 2000000)
  | None => False
  end.
Proof. vm_compute. repeat split. Qed.

(** The older [checkPolkitAuthorization] stores a denial: the second
    check returns it without asking the authority, which would grant. *)
Lemma superseded_caches_denial :
  let st := snd (Superseded.checkPolkitAuthorization deniedOnce ":1.42" APPLY_RUNTIME
                   (fourCpus true)) in
  m_authorizedSenders st !! (":1.42" +:+ APPLY_RUNTIME) = Some false /\
  fst (Superseded.checkPolkitAuthorization deniedOnce ":1.42" APPLY_RUNTIME st) = false /\
  polkitCalls (snd (Superseded.checkPolkitAuthorization deniedOnce ":1.42" APPLY_RUNTIME st))
  = [(":1.42", APPLY_RUNTIME)].
Proof. vm_compute. repeat split. Qed.
End SupersededFacts.

(** ** The scheduler *)

Module DbusHelperFacts.

Import QString DbusHelper.

Lemma setOperationInProgress_fields b d :
  let d' := setOperationInProgress b d in
  m_operationInProgress d' = b /\ m_connected d' = m_connected d /\
  m_batchMode d' = m_batchMode d /\ m_operationQueue d' = m_operationQueue d /\
  m_batchErrors d' = m_batchErrors d /\ m_batchHadErrors d' = m_batchHadErrors d /\
  watchers d' = watchers d /\ started d' = started d /\ calls d' = calls d.
Proof.
  unfold setOperationInProgress.
  destruct (m_operationInProgress d) eqn:E, b; simpl; rewrite ?E; repeat split; reflexivity.
Qed.


Lemma processQueue_serial queue : forall d pre,
  m_operationQueue d = queue -> watchers d = [] ->
  started d ++ queue = pre ->
  calls d = (if m_connected d then started d else []) ->
  serial pre (processQueue queue d) /\ m_connected (processQueue queue d) = m_connected d.
Proof.
  induction queue as [|op rest IH]; intros d pre Hq Hw Hpre Hcalls; simpl.
  - pose proof (setOperationInProgress_fields false d)
      as (Hp & Hc & Hb & Hq' & He & Hh & Hw' & Hs & Hcl).
    unfold serial.
    destruct (m_batchMode (setOperationInProgress false d)); simpl;
      rewrite ?Hw', ?Hw, ?Hs, ?Hq', ?Hq, ?Hcl, ?Hc; simpl; repeat split; auto; try lia; easy.
  - pose proof (setOperationInProgress_fields true d)
      as (Hp & Hc & Hb & Hq' & He & Hh & Hw' & Hs & Hcl).
    rewrite Hc. destruct (m_connected d) eqn:Econn; simpl.
    + unfold serial; simpl. rewrite Hw', Hw, Hs, Hcl, Hc, Hcalls, Hp. simpl.
      repeat split; auto. now rewrite <- app_assoc.
    + match goal with |- serial _ (processQueue _ ?d') /\ _ =>
        assert (serial pre (processQueue rest d') /\
                m_connected (processQueue rest d') = m_connected d') as [H1 H2]
      end.
      { apply IH; simpl; rewrite ?Hw', ?Hs, ?Hcl, ?Hc; auto. now rewrite <- app_assoc. }
      split; [exact H1 | rewrite H2; simpl; exact Hc].
Qed.

Ltac via_processQueue :=
  match goal with
  | |- serial ?pre (processQueue ?q ?d') /\ _ =>
      let H := fresh in
      assert (serial pre (processQueue q d') /\
              m_connected (processQueue q d') = m_connected d') as [? H];
      [apply processQueue_serial; simpl; auto
      | split; [assumption | rewrite H; reflexivity]]
  end.

Lemma handle_serial d pre ev :
  serial pre d -> serial (pre ++ enqueued [ev]) (handle d ev) /\ m_connected (handle d ev) = m_connected d.
Proof.
  intros (Hlen & Hbusy & Hpre & Hcalls).
  assert (m_operationInProgress d = false -> watchers d = []) as Hidle.
  { intros Ep. destruct (watchers d); [reflexivity|].
    rewrite Hbusy in Ep; [discriminate | easy]. }
  destruct ev as [op| | |w reply]; simpl.
  - (* queueOperation *)
    unfold queueOperation; simpl.
    destruct (m_operationInProgress d) eqn:Ep; simpl.
    + unfold serial; simpl. rewrite Ep, app_assoc, Hpre. easy.
    + destruct (m_batchMode d) eqn:Eb; simpl.
      * unfold serial; simpl. rewrite Ep, app_assoc, Hpre. easy.
      * unfold processNextOperation; simpl. via_processQueue.
        now rewrite app_assoc, Hpre.
  - (* beginBatch *)
    rewrite app_nil_r. unfold serial; simpl. easy.
  - (* endBatch *)
    rewrite app_nil_r. unfold endBatch.
    destruct (m_operationInProgress d) eqn:Ep; simpl.
    + rewrite andb_false_r. easy.
    + destruct (isEmptyList (m_operationQueue d)) eqn:Eq; simpl.
      * unfold serial; simpl. rewrite Ep, Hidle by reflexivity. simpl. repeat split; auto; easy.
      * unfold processNextOperation. via_processQueue.
  - (* a watcher finishes *)
    rewrite app_nil_r.
    destruct (watchers d) as [|w0 [|w1 ws]] eqn:Hw; simpl in Hlen; try lia.
    + rewrite lookup_nil. unfold serial. rewrite Hw. repeat split; auto.
    + destruct w as [|w]; simpl;
        [|unfold serial; rewrite Hw; repeat split; auto].
      unfold onAsyncCallFinished, processNextOperation.
      destruct reply as [error|value]; [|destruct (value =? 0)]; simpl;
        via_processQueue.
Qed.

Lemma run_serial evs : forall d pre,
  serial pre d -> serial (pre ++ enqueued evs) (run d evs).
Proof.
  induction evs as [|ev evs IH]; intros d pre H; simpl.
  - now rewrite app_nil_r.
  - destruct (handle_serial d pre ev H) as [H' _].
    specialize (IH _ _ H'). simpl in IH.
    now rewrite app_nil_r, <- app_assoc in IH.
Qed.

Lemma scheduler_serial_fifo_invariant connected evs :
  serial (enqueued evs) (run (constructed connected) evs).
Proof.
  apply (run_serial evs (constructed connected) []).
  unfold serial; simpl. repeat split; auto. now destruct connected.
Qed.

(** C6.  After any sequence of enqueue, [beginBatch], [endBatch] and
    completion events on a fresh scheduler, at most one call is in
    flight, and the operations taken off the queue followed by those
    still in it are the enqueued operations in the order of enqueuing;
    the calls sent are the operations taken, in that order. *)
Theorem scheduler_serial_fifo connected evs :
  let d := run (constructed connected) evs in
  (length (watchers d) <= 1)%nat /\
  started d ++ m_operationQueue d = enqueued evs /\
  calls d = (if m_connected d then started d else []).
Proof.
  pose proof (run_serial evs (constructed connected) []) as H.
  destruct H as (H1 & _ & H3 & H4).
  - unfold serial; simpl. repeat split; auto. now destruct connected.
  - simpl in *. repeat split; assumption.
Qed.

(** The recursion of [processNextOperation] as the source writes it: the
    function calls itself on the object whose queue has lost its head. *)
Lemma processNextOperation_eq d :
  processNextOperation d =
  match m_operationQueue d with
  | [] =>
      let d := setOperationInProgress false d in
      if m_batchMode d then
        with_batchHadErrors false
          (with_batchErrors []
             (emit (batchCompleted (negb (m_batchHadErrors d)) (m_batchErrors d))
                (with_batchMode false d)))
      else d
  | op :: rest =>
      let d := setOperationInProgress true d in
      let d := with_started (started d ++ [op]) (with_operationQueue rest d) in
      if negb (m_connected d) then
        processNextOperation
          (emit (operationFailed NOT_CONNECTED)
             (with_batchErrors (m_batchErrors d ++ [description op +:+ ": " +:+ NOT_CONNECTED])
                (with_batchHadErrors true d)))
      else with_watchers (watchers d ++ [description op]) (with_calls (calls d ++ [op]) d)
  end.
Proof.
  unfold processNextOperation. destruct (m_operationQueue d) as [|op rest]; reflexivity.
Qed.

(** After draining, the object is busy or its queue is empty. *)
Lemma processQueue_busy_or_empty queue : forall d,
  m_operationQueue d = queue ->
  m_operationInProgress (processQueue queue d) = true \/
  m_operationQueue (processQueue queue d) = [].
Proof.
  induction queue as [|op rest IH]; intros d Hq; simpl.
  - pose proof (setOperationInProgress_fields false d)
      as (Hp & Hc & Hb & Hq' & He & Hh & Hw' & Hs & Hcl).
    right. destruct (m_batchMode (setOperationInProgress false d)); simpl; congruence.
  - pose proof (setOperationInProgress_fields true d)
      as (Hp & Hc & Hb & Hq' & He & Hh & Hw' & Hs & Hcl).
    destruct (m_connected (setOperationInProgress true d)); simpl.
    + left. exact Hp.
    + apply IH. reflexivity.
Qed.

Lemma handle_settled d ev : settled d -> settled (handle d ev).
Proof.
  unfold settled. intros Hd.
  assert (forall q d', m_operationQueue d' = q ->
            m_operationInProgress (processQueue q d') = false ->
            m_operationQueue (processQueue q d') = []) as Hdrain.
  { intros q d' Hq Hp. destruct (processQueue_busy_or_empty q d' Hq); congruence. }
  destruct ev as [op| | |w reply]; simpl.
  - unfold queueOperation; simpl.
    destruct (m_operationInProgress d) eqn:Ep; simpl; [congruence|].
    destruct (m_batchMode d) eqn:Eb; simpl; [congruence|].
    unfold processNextOperation; simpl. intros Hp _. now apply Hdrain in Hp.
  - discriminate.
  - unfold endBatch.
    destruct (m_operationInProgress d) eqn:Ep; simpl.
    + rewrite andb_false_r. congruence.
    + destruct (isEmptyList (m_operationQueue d)) eqn:Eq; simpl.
      * destruct (m_operationQueue d); [reflexivity | discriminate].
      * unfold processNextOperation. intros Hp _. now apply Hdrain in Hp.
  - destruct (watchers d !! w) as [description|]; [|assumption].
    unfold onAsyncCallFinished, processNextOperation.
    intros Hp _. apply Hdrain in Hp; [assumption|].
    destruct reply as [error|value]; [|destruct (value =? 0)]; reflexivity.
Qed.

(** At the guard of the callers ([isOperationInProgress()] false, no batch
    open) the scheduler is idle. *)
Lemma guarded_scheduler_is_idle connected evs :
  let d := run (constructed connected) evs in
  m_operationInProgress d = false -> m_batchMode d = false -> idle d.
Proof.
  intros d Hp Hb.
  assert (forall evs d0, settled d0 -> settled (run d0 evs)) as Hrun.
  { clear. induction evs as [|ev evs IH]; intros d0 H; simpl; [assumption|].
    apply IH. now apply handle_settled. }
  destruct (scheduler_serial_fifo_invariant connected evs) as (_ & Hbusy & _).
  repeat split.
  - apply (Hrun evs (constructed connected)); [|assumption|assumption].
    intros _ _. reflexivity.
  - assumption.
  - fold d in Hbusy. destruct (watchers d); [reflexivity|].
    rewrite Hbusy in Hp; [discriminate | easy].
Qed.

Lemma completions_app l1 l2 : completions (l1 ++ l2) = completions l1 ++ completions l2.
Proof. unfold completions. apply flat_map_app. Qed.

Lemma enqueue_in_batch ops : forall d,
  m_batchMode d = true ->
  fold_left (fun d op => queueOperation op d) ops d
  = with_operationQueue (m_operationQueue d ++ ops) d.
Proof.
  induction ops as [|op ops IH]; intros d Hb; simpl.
  - rewrite app_nil_r. now destruct d.
  - unfold queueOperation at 2. simpl. rewrite Hb, andb_false_r.
    rewrite IH by assumption. simpl. now rewrite <- app_assoc.
Qed.

(** One call of the batch finishes while operations are still queued: the
    next one is sent, nothing is reported yet. *)
Lemma drain_step op queue d reply :
  draining (op :: queue) d ->
  let d' := handle d (Finished 0 reply) in
  draining queue d' /\
  length (m_batchErrors d') = (length (m_batchErrors d) + (if failed reply then 1 else 0))%nat /\
  m_batchHadErrors d' = m_batchHadErrors d || failed reply /\
  completions (emitted d') = completions (emitted d) /\
  calls d' = calls d ++ [op] /\ started d' = started d ++ [op].
Proof.
  intros (Hc & Hb & Hp & (w & Hw) & Hq). simpl. rewrite Hw. simpl.
  unfold onAsyncCallFinished, processNextOperation, draining.
  destruct reply as [error|value]; [|destruct (value =? 0) eqn:Ev]; simpl;
    rewrite Hq; simpl; unfold setOperationInProgress; simpl; rewrite Hp; simpl; rewrite ?Hc; simpl;
    rewrite ?Hc, ?Hb, ?Hp, ?Ev, ?length_app, ?completions_app, ?app_nil_r, ?orb_true_r, ?orb_false_r;
    simpl; repeat split; eauto; lia.
Qed.

(** The last call of the batch finishes: the batch is reported. *)
Lemma drain_last d reply :
  draining [] d ->
  let d' := handle d (Finished 0 reply) in
  exists errors,
    emitted d' = emitted d
                 ++ [if failed reply then operationFailed
                        match reply with
                        | ReplyError error => error
                        | ReplyValue value => "Operation failed with code " +:+ number value
                        end
                     else operationSucceeded;
                     operationInProgressChanged;
                     batchCompleted (negb (m_batchHadErrors d || failed reply)) errors] /\
    length errors = (length (m_batchErrors d) + (if failed reply then 1 else 0))%nat /\
    idle d' /\ m_batchMode d' = false /\
    calls d' = calls d /\ started d' = started d.
Proof.
  intros (Hc & Hb & Hp & (w & Hw) & Hq). simpl. rewrite Hw. simpl.
  unfold onAsyncCallFinished, processNextOperation, idle.
  destruct reply as [error|value]; [|destruct (value =? 0) eqn:Ev]; simpl;
    rewrite Hq; simpl; unfold setOperationInProgress; simpl; rewrite Hp; simpl;
    rewrite Hb; simpl; rewrite ?Ev; simpl;
    eexists; rewrite <- ?app_assoc, ?orb_true_r, ?orb_false_r; simpl;
    (split; [reflexivity|]); rewrite ?length_app; simpl;
    repeat split; auto; lia.
Qed.

Lemma failures_cons reply replies :
  failures (reply :: replies) = ((if failed reply then 1 else 0) + failures replies)%nat.
Proof. unfold failures. simpl. now destruct (failed reply). Qed.

Lemma failures_app l1 l2 : failures (l1 ++ l2) = (failures l1 + failures l2)%nat.
Proof. unfold failures. now rewrite List.filter_app, length_app. Qed.


(** While operations are queued, each finished call sends the next one;
    no [batchCompleted] is emitted. *)
Lemma drain_some replies : forall queue d,
  draining queue d -> (length replies <= length queue)%nat ->
  let d' := finishAll replies d in
  draining (drop (length replies) queue) d' /\
  length (m_batchErrors d') = (length (m_batchErrors d) + failures replies)%nat /\
  m_batchHadErrors d' = m_batchHadErrors d || existsb failed replies /\
  completions (emitted d') = completions (emitted d) /\
  calls d' = calls d ++ take (length replies) queue /\
  started d' = started d ++ take (length replies) queue.
Proof.
  induction replies as [|reply replies IH]; intros queue d Hd Hlen; simpl.
  - rewrite drop_0, take_0, !app_nil_r, orb_false_r. unfold failures. simpl.
    split; [assumption|]. repeat split; auto.
  - destruct queue as [|op queue]; simpl in Hlen; [lia|].
    destruct (drain_step op queue d reply Hd) as (Hd1 & He1 & Hh1 & Hc1 & Hk1 & Hs1).
    assert (length replies <= length queue)%nat as Hlen' by lia.
    destruct (IH queue _ Hd1 Hlen') as (Hd2 & He2 & Hh2 & Hc2 & Hk2 & Hs2).
    simpl in *. unfold finishAll in *.
    rewrite failures_cons, He2, He1, Hh2, Hh1, Hc2, Hc1, Hk2, Hk1, Hs2, Hs1, <- !app_assoc, orb_assoc.
    simpl. split; [assumption|]. repeat split; auto. lia.
Qed.

Lemma finishAll_app l1 l2 d : finishAll (l1 ++ l2) d = finishAll l2 (finishAll l1 d).
Proof. unfold finishAll. apply fold_left_app. Qed.

(** With the last call the batch is reported, once. *)
Lemma drain_all replies queue d :
  draining queue d -> length replies = S (length queue) ->
  let d' := finishAll replies d in
  exists errors,
    completions (emitted d')
    = completions (emitted d) ++ [(negb (m_batchHadErrors d || existsb failed replies), errors)] /\
    last (emitted d')
    = Some (batchCompleted (negb (m_batchHadErrors d || existsb failed replies)) errors) /\
    length errors = (length (m_batchErrors d) + failures replies)%nat /\
    idle d' /\ m_batchMode d' = false /\
    calls d' = calls d ++ queue /\ started d' = started d ++ queue.
Proof.
  intros Hd Hlen.
  destruct (exists_last (l := replies)) as (front & reply & ->); [now destruct replies|].
  rewrite length_app in Hlen. simpl in Hlen.
  assert (length front <= length queue)%nat as Hfront by lia.
  destruct (drain_some front queue d Hd Hfront) as (Hd1 & He1 & Hh1 & Hc1 & Hk1 & Hs1).
  replace (length front) with (length queue) in * by lia.
  rewrite drop_all in Hd1. rewrite firstn_all in Hk1, Hs1.
  cbv zeta. rewrite finishAll_app.
  change (finishAll [reply] (finishAll front d))
    with (handle (finishAll front d) (Finished 0 reply)).
  remember (finishAll front d) as d1 eqn:Ed1.
  destruct (drain_last d1 reply Hd1) as (errors & Hem & Hlen' & Hidle & Hb & Hk2 & Hs2).
  remember (handle d1 (Finished 0 reply)) as d2 eqn:Ed2.
  exists errors.
  rewrite Hem, Hk2, Hs2, Hk1, Hs1, Hlen', He1, Hh1, failures_app, existsb_app.
  rewrite completions_app, Hc1, last_app. simpl.
  rewrite orb_false_r, orb_assoc, failures_cons.
  split; [now destruct (failed reply)|].
  split; [reflexivity|].
  split; [unfold failures; simpl; lia|].
  auto.
Qed.

(** Opening a batch on an idle, connected scheduler, enqueuing, closing:
    the first operation is sent, the others wait. *)
Lemma batch_start op ops d :
  idle d -> m_connected d = true ->
  let d1 := batch (op :: ops) d in
  draining ops d1 /\ m_batchErrors d1 = [] /\ m_batchHadErrors d1 = false /\
  completions (emitted d1) = completions (emitted d) /\
  calls d1 = calls d ++ [op] /\ started d1 = started d ++ [op].
Proof.
  intros (Hq & Hp & Hw) Hc. unfold batch.
  rewrite enqueue_in_batch by reflexivity. simpl. rewrite Hq. simpl.
  unfold endBatch. simpl. rewrite Hp. simpl.
  unfold processNextOperation. simpl.
  unfold setOperationInProgress. simpl. rewrite Hp. simpl. rewrite Hc. simpl.
  unfold draining. simpl. rewrite Hc, Hw, completions_app. simpl. rewrite app_nil_r.
  repeat split; eauto.
Qed.




Example batch_of_two_run :
  let d := finishAll [ReplyValue 0; ReplyError "timeout"]
             (batch [setBounds; setGovernor] (constructed true)) in
  emitted d
  = [operationInProgressChanged; operationSucceeded; operationFailed "timeout";
     operationInProgressChanged;
     batchCompleted false ["Set CPU 0 governor to performance: timeout"]] /\
  calls d = [setBounds; setGovernor].
Proof. vm_compute. split; reflexivity. Qed.

Example empty_batch_run :
  emitted (batch [] (constructed true)) = [batchCompleted true []].
Proof. reflexivity. Qed.


End DbusHelperFacts.

(** ** The controller *)

Module CpuSettingsFacts.

Import QString CpuSettings.

Section Refresh.
Context {S : Type} `{Machine S}.

(** C9.  After [updateFromSystem] and after [resetToSystem] the five
    pending values equal the original ones and [isChanged] is false. *)
Theorem refresh_and_reset_leave_nothing_pending (sys : S) (c : State) :
  let u := updateFromSystem sys c in
  let r := resetToSystem c in
  (m_newFreqMin u = m_origFreqMin u /\ m_newFreqMax u = m_origFreqMax u /\
   m_newGovernor u = m_origGovernor u /\ m_newEnergyPref u = m_origEnergyPref u /\
   m_newOnline u = m_origOnline u /\ isChanged u = false) /\
  (m_newFreqMin r = m_origFreqMin r /\ m_newFreqMax r = m_origFreqMax r /\
   m_newGovernor r = m_origGovernor r /\ m_newEnergyPref r = m_origEnergyPref r /\
   m_newOnline r = m_origOnline r /\ isChanged r = false).
Proof.
  unfold isChanged, isFreqChanged, isGovernorChanged, isEnergyPrefChanged, isOnlineChanged.
  simpl. rewrite !Z.eqb_refl, !String.eqb_refl, !Bool.eqb_reflx. simpl.
  repeat split.
Qed.

(** A phase of [applyChanges] leaves the function only with a return
    value other than 0. *)
Lemma phase_return (c : State) (sys : S) :
  forall phase, In phase [applyOnline; applyFreq; applyGovernor; applyEnergyPref] ->
  forall ret sys', phase c sys = (inl ret, sys') -> ret <> 0.
Proof.
  intros phase Hin ret sys'.
  repeat (destruct Hin as [<- | Hin]); try contradiction;
    unfold applyOnline, applyFreq, applyGovernor, applyEnergyPref.
  - destruct (isOnlineChanged c); [|discriminate].
    destruct (if m_newOnline c then _ else _) as [r s1].
    destruct (r =? 0) eqn:E; simpl; [discriminate|].
    intros [= <- <-]. now apply Z.eqb_neq.
  - destruct (isFreqChanged c); [|discriminate].
    destruct (updateCpuSettings _ _ _ _) as [r s1].
    destruct (r =? 0); simpl; [discriminate|]. intros [= <- <-]. lia.
  - destruct (isGovernorChanged c); [|discriminate].
    destruct (updateCpuGovernor _ _ _) as [r s1].
    destruct (r =? 0); simpl; [discriminate|]. intros [= <- <-]. lia.
  - destruct (isEnergyPrefChanged c && m_energyPrefAvailable c); [|discriminate].
    destruct (updateCpuEnergyPrefs _ _ _) as [r s1].
    destruct (r =? 0); simpl; [discriminate|]. intros [= <- <-]. lia.
Qed.

(** [applyChanges] refreshes exactly when it returns 0: every other
    return leaves the object as it was. *)
Lemma applyChanges_refresh (c : State) (sys : S) :
  forall ret c' sys', applyChanges c sys = (ret, c', sys') ->
  (ret = 0 -> c' = updateFromSystem sys' c) /\ (ret <> 0 -> c' = c).
Proof.
  intros ret c' sys'. unfold applyChanges.
  destruct (applyOnline c sys) as [[r1|[]] s1] eqn:E1.
  { apply phase_return in E1; [|simpl; auto]. intros [= <- <- <-]. easy. }
  destruct (m_newOnline c); [|intros [= <- <- <-]; easy].
  destruct (applyFreq c s1) as [[r2|[]] s2] eqn:E2.
  { apply phase_return in E2; [|simpl; auto]. intros [= <- <- <-]. easy. }
  destruct (applyGovernor c s2) as [[r3|[]] s3] eqn:E3.
  { apply phase_return in E3; [|simpl; auto]. intros [= <- <- <-]. easy. }
  destruct (applyEnergyPref c s3) as [[r4|[]] s4] eqn:E4.
  { apply phase_return in E4; [|simpl; auto 6]. intros [= <- <- <-]. easy. }
  intros [= <- <- <-]. easy.
Qed.
End Refresh.

(** C7.  [applyChanges] at a controller with a pending lower bound and a
    pending governor, on a machine that accepts the bounds and refuses
    the governor: it returns -11 without refreshing.  The object is left
    as it was: its original lower bound is 800000 while the machine has
    1000000, and the frequency still counts as changed. *)
Theorem applyChanges_failure_keeps_stale_originals :
  let '(ret, c', sys') := applyChanges pendingEdits powersaving in
  ret = -11 /\
  c' = pendingEdits /\
  scalingFreqs sys' 0 = (1000000, 2000000) /\
  (m_origFreqMin c', m_origFreqMax c') = (800000, 2000000) /\
  isFreqChanged c' = true /\
  c' <> updateFromSystem sys' pendingEdits.
Proof.
  vm_compute. repeat split; try reflexivity. discriminate.
Qed.

End CpuSettingsFacts.

(** ** The helper: outcomes of the slots *)

Module HelperSlotFacts.

Import QString HelperService HelperQueries QStringFacts HelperServiceFacts.

Lemma fileWrite_canWrite fs path value : fst (fileWrite fs path value) = canWrite fs path.
Proof.
  unfold fileWrite, canWrite. destruct (fs !! path) as [f|]; [|reflexivity].
  now destruct (writable f).
Qed.

Lemma canWrite_fileWrite fs path value path' :
  canWrite (snd (fileWrite fs path value)) path' = canWrite fs path'.
Proof.
  unfold fileWrite, canWrite. destruct (fs !! path) as [f|] eqn:E; [|reflexivity].
  destruct (writable f) eqn:Ew; [|reflexivity]. simpl.
  destruct (decide (path = path')) as [<-|Hne].
  - now rewrite lookup_insert_eq, E.
  - now rewrite lookup_insert_ne.
Qed.

Lemma fileText_fileWrite_other fs path value path' :
  path <> path' -> fileText (snd (fileWrite fs path value)) path' = fileText fs path'.
Proof.
  intros Hne. unfold fileWrite. destruct (fs !! path) as [f|]; [|reflexivity].
  destruct (writable f); [|reflexivity]. simpl. now apply fileText_other.
Qed.

Lemma fileText_fileWrite fs path value :
  canWrite fs path = true -> fileText (snd (fileWrite fs path value)) path = value.
Proof.
  intros H. rewrite fileWrite_succeeded by now rewrite fileWrite_canWrite.
  apply fileText_written.
Qed.

Lemma fileWrite_cannot fs path value :
  canWrite fs path = false -> snd (fileWrite fs path value) = fs.
Proof. intros H. apply fileWrite_failed. now rewrite fileWrite_canWrite. Qed.

(** The files of one CPU are not the lists of the CPU directory. *)
Ltac distinct_paths :=
  let H := fresh in
  intros H;
  unfold minPath, maxPath, inDir, cpufreqPath, cpuOnlinePath, cpuPath, SYS_CPU_PATH,
    CPUFREQ_DIR, ONLINE_FILE in H;
  cbn [append] in H; discriminate H.

Lemma cpufreq_file_not_present cpu name :
  inDir (cpufreqPath cpu) name <> inDir SYS_CPU_PATH "present".
Proof. distinct_paths. Qed.
Lemma cpufreq_file_not_online cpu name :
  inDir (cpufreqPath cpu) name <> inDir SYS_CPU_PATH "online".
Proof. distinct_paths. Qed.
Lemma cpuOnlinePath_not_present cpu : cpuOnlinePath cpu <> inDir SYS_CPU_PATH "present".
Proof. distinct_paths. Qed.
Lemma cpuOnlinePath_not_online cpu : cpuOnlinePath cpu <> inDir SYS_CPU_PATH "online".
Proof. distinct_paths. Qed.

Lemma cpuListed_cpufreq_write fuel fs cpu0 name value file cpu :
  file = "present" \/ file = "online" ->
  cpuListed fuel (snd (fileWrite fs (inDir (cpufreqPath cpu0) name) value)) file cpu
  = cpuListed fuel fs file cpu.
Proof.
  intros Hfile. unfold cpuListed. rewrite fileText_fileWrite_other; [reflexivity|].
  destruct Hfile as [-> | ->];
    [apply cpufreq_file_not_present | apply cpufreq_file_not_online].
Qed.

(** *** The idle timer *)

Lemma armed_refl_reset st : armed st (timerReset st).
Proof.
  unfold armed, timerReset, timerAfterSlot.
  destruct (0 <? m_idleTimeoutSecs st); easy.
Qed.

Lemma staysArmed_ret {A} (a : A) : staysArmed (ret a).
Proof. intros st0 st r st' H [= _ <-]. exact H. Qed.

Lemma staysArmed_bind {A B} (c : M A) (k : A -> M B) :
  staysArmed c -> (forall a, staysArmed (k a)) -> staysArmed (bind c k).
Proof.
  intros Hc Hk st0 st r st' H. unfold bind.
  destruct (c st) as [[a st1]|] eqn:E; [|discriminate].
  intros Hrun. eapply Hk; [|exact Hrun]. eapply Hc; eauto.
Qed.

Lemma staysArmed_resetIdleTimer : staysArmed resetIdleTimer.
Proof.
  intros st0 st r st' [H1 H2]. rewrite resetIdleTimer_eq. intros [= _ <-].
  unfold armed, timerReset, timerAfterSlot in *.
  destruct (0 <? m_idleTimeoutSecs st) eqn:E; simpl; [|easy].
  rewrite H1 in E. rewrite E, H1. easy.
Qed.

Lemma staysArmed_readSysfsFile path : staysArmed (readSysfsFile path).
Proof. intros st0 st r st' H [= _ <-]. exact H. Qed.

Lemma staysArmed_exists path : staysArmed (exists_ path).
Proof. intros st0 st r st' H [= _ <-]. exact H. Qed.

Lemma staysArmed_partial {A} (o : option A) : staysArmed (partial o).
Proof. intros st0 st r st' H. unfold partial. destruct o; [|discriminate]. now intros [= _ <-]. Qed.

Lemma staysArmed_writeSysfsFile path value : staysArmed (writeSysfsFile path value).
Proof. intros st0 st r st' H. rewrite writeSysfsFile_eq. intros [= _ <-]. exact H. Qed.

Lemma checkPolkitAuthorization_timer polkit sender actionId st :
  let st' := snd (checkPolkitAuthorization polkit sender actionId st) in
  m_idleTimeoutSecs st' = m_idleTimeoutSecs st /\ m_idleTimer st' = m_idleTimer st.
Proof.
  unfold checkPolkitAuthorization.
  destruct (m_authorizedSenders st !! (sender +:+ actionId)); simpl; [easy|].
  destruct (polkit _ _ _) as [|[|[a c d|] args]]; simpl; try easy.
  destruct (a && negb c); easy.
Qed.

Lemma staysArmed_isAuthorized polkit caller actionId :
  staysArmed (total (isAuthorized polkit caller actionId)).
Proof.
  intros st0 st r st' [H1 H2]. unfold total. intros [= E].
  assert (st' = snd (isAuthorized polkit caller actionId st)) as -> by now rewrite E.
  destruct caller; simpl; [easy|].
  destruct (checkPolkitAuthorization_timer polkit service actionId st) as [E1 E2].
  split; congruence.
Qed.

Lemma restartsTimer_slot {A} (k : M A) :
  staysArmed k -> restartsTimer (bind resetIdleTimer (fun _ => k)).
Proof.
  intros Hk st r st'. unfold bind. rewrite resetIdleTimer_eq.
  apply Hk, armed_refl_reset.
Qed.

Create HintDb armed.

#[local] Hint Resolve staysArmed_ret staysArmed_resetIdleTimer staysArmed_readSysfsFile
  staysArmed_exists staysArmed_partial staysArmed_writeSysfsFile staysArmed_isAuthorized
  : armed.

Ltac stays_armed :=
  repeat first
    [ progress eauto with armed
    | apply staysArmed_bind; [|intros ?]
    | match goal with |- staysArmed (if ?b then _ else _) => destruct b end ].

Lemma staysArmed_get_cpus_present fuel : staysArmed (get_cpus_present fuel).
Proof. unfold get_cpus_present. stays_armed. Qed.
Lemma staysArmed_get_cpus_online fuel : staysArmed (get_cpus_online fuel).
Proof. unfold get_cpus_online. stays_armed. Qed.
#[local] Hint Resolve staysArmed_get_cpus_present staysArmed_get_cpus_online : armed.

Lemma staysArmed_notPresentOrNotOnline fuel cpu : staysArmed (notPresentOrNotOnline fuel cpu).
Proof. unfold notPresentOrNotOnline, isPresent, isOnline. stays_armed. Qed.
#[local] Hint Resolve staysArmed_notPresentOrNotOnline : armed.

Lemma staysArmed_get_cpu_energy_preferences fuel cpu :
  staysArmed (get_cpu_energy_preferences fuel cpu).
Proof. unfold get_cpu_energy_preferences. stays_armed. Qed.
#[local] Hint Resolve staysArmed_get_cpu_energy_preferences : armed.

Section Timer.
Variable polkit : nat -> string -> string -> DBusReply.
Variable fuel : nat.

(** X1. Every slot of the helper restarts the idle timer: whenever a slot
    returns, the timeout is as before and, when it is positive, the timer
    runs with that timeout in milliseconds; when it is not, the timer is
    as the slot found it. *)
Theorem every_slot_restarts_the_idle_timer caller cpu freq_min freq_max governor pref :
  restartsTimer (isauthorized polkit caller) /\
  restartsTimer (get_cpus_available fuel) /\
  restartsTimer (get_cpus_online fuel) /\
  restartsTimer (get_cpus_offline fuel) /\
  restartsTimer (get_cpus_present fuel) /\
  restartsTimer (get_cpu_governors fuel cpu) /\
  restartsTimer (get_cpu_energy_preferences fuel cpu) /\
  restartsTimer (get_cpu_governor fuel cpu) /\
  restartsTimer (get_cpu_energy_preference fuel cpu) /\
  restartsTimer (get_cpu_frequencies fuel cpu) /\
  restartsTimer (get_cpu_limits fuel cpu) /\
  restartsTimer (cpu_allowed_offline cpu) /\
  restartsTimer (update_cpu_settings polkit fuel caller cpu freq_min freq_max) /\
  restartsTimer (update_cpu_governor polkit fuel caller cpu governor) /\
  restartsTimer (update_cpu_energy_prefs polkit fuel caller cpu pref) /\
  restartsTimer (set_cpu_online polkit caller cpu) /\
  restartsTimer (set_cpu_offline polkit caller cpu).
Proof.
  repeat apply conj;
    unfold isauthorized, get_cpus_available, get_cpus_online, get_cpus_offline,
      get_cpus_present, get_cpu_governors, get_cpu_energy_preferences, get_cpu_governor,
      get_cpu_energy_preference, get_cpu_frequencies, get_cpu_limits, cpu_allowed_offline,
      update_cpu_settings, update_cpu_governor, update_cpu_energy_prefs, set_cpu_online,
      set_cpu_offline;
    apply restartsTimer_slot; stays_armed.
Qed.

(** X2. [setIdleTimeout] with a positive number of seconds starts the timer
    with it, and with any other number stops the timer; and the timer is
    so again after every slot that runs then: once stopped, no slot
    starts it. *)
Theorem setIdleTimeout_rules_the_timer seconds st :
  let timer := if 0 <? seconds then Some (wrapInt (seconds * 1000)) else None in
  exists st1,
    setIdleTimeout seconds st = Some (tt, st1) /\
    m_idleTimeoutSecs st1 = seconds /\ m_idleTimer st1 = timer /\
    forall A (slot : M A) r st2,
      restartsTimer slot -> slot st1 = Some (r, st2) -> m_idleTimer st2 = timer.
Proof.
  intros timer. subst timer. unfold setIdleTimeout. simpl. destruct (0 <? seconds) eqn:E.
  - rewrite resetIdleTimer_eq. eexists; split; [reflexivity|].
    unfold timerReset. simpl. rewrite E. simpl. split; [reflexivity|]. split; [reflexivity|].
    intros A slot r st2 Hslot Hrun. destruct (Hslot _ _ _ Hrun) as [_ Ht].
    rewrite Ht. unfold timerAfterSlot. simpl. now rewrite E.
  - eexists; split; [reflexivity|]. simpl. split; [reflexivity|]. split; [reflexivity|].
    intros A slot r st2 Hslot Hrun. destruct (Hslot _ _ _ Hrun) as [_ Ht].
    rewrite Ht. unfold timerAfterSlot. simpl. now rewrite E.
Qed.
End Timer.

(** *** What the slots return *)

Section Outcomes.
Variable polkit : nat -> string -> string -> DBusReply.
Variable fuel : nat.

Lemma notPresentOrNotOnline_unavailable cpu st :
  unavailable fuel (sysfs st) cpu ->
  notPresentOrNotOnline fuel cpu st = Some (true, timerReset st).
Proof.
  intros [Hp | [Hp Ho]]; unfold notPresentOrNotOnline, bind, ret;
    rewrite isPresent_eq, Hp; simpl; [reflexivity|].
  rewrite isOnline_eq, timerReset_sysfs, Ho. simpl. now rewrite timerReset_idem.
Qed.

Lemma get_cpu_frequencies_available cpu st :
  cpuListed fuel (sysfs st) "present" cpu = Some true ->
  cpuListed fuel (sysfs st) "online" cpu = Some true ->
  get_cpu_frequencies fuel cpu st
  = Some ([scalingMin (sysfs st) cpu; scalingMax (sysfs st) cpu], timerReset st).
Proof.
  intros Hp Ho. unfold get_cpu_frequencies, bind, ret, readSysfsFile.
  rewrite resetIdleTimer_eq.
  rewrite notPresentOrNotOnline_available by (rewrite timerReset_sysfs; assumption).
  simpl. now rewrite timerReset_idem, timerReset_sysfs.
Qed.


Lemma get_cpu_energy_preference_available cpu st :
  cpuListed fuel (sysfs st) "present" cpu = Some true ->
  cpuListed fuel (sysfs st) "online" cpu = Some true ->
  get_cpu_energy_preference fuel cpu st
  = Some (trimmed (fileText (sysfs st) (inDir (cpufreqPath cpu) ENERGY_PERF_PREF)),
          timerReset st).
Proof.
  intros Hp Ho. unfold get_cpu_energy_preference, bind, ret, readSysfsFile.
  rewrite resetIdleTimer_eq.
  rewrite notPresentOrNotOnline_available by (rewrite timerReset_sysfs; assumption).
  simpl. now rewrite timerReset_idem, timerReset_sysfs.
Qed.

(** The run of [update_cpu_settings] with its return code. *)
Lemma update_cpu_settings_code caller st cpu freq_min freq_max :
  fst (isAuthorized polkit caller APPLY_RUNTIME st) = true ->
  cpuListed fuel (sysfs st) "present" cpu = Some true ->
  cpuListed fuel (sysfs st) "online" cpu = Some true ->
  let minW := (minPath cpu, number freq_min) in
  let maxW := (maxPath cpu, number freq_max) in
  exists st' order,
    update_cpu_settings polkit fuel caller cpu freq_min freq_max st
    = Some (if canWrite (sysfs st) (minPath cpu) && canWrite (sysfs st) (maxPath cpu)
            then 0 else -13, st') /\
    (order = [minW; maxW] \/ order = [maxW; minW]) /\
    sysfs st' = afterWrites (sysfs st) order.
Proof.
  intros Ha Hp Ho minW maxW.
  destruct (gate_passed polkit caller st Ha) as (st1 & E & Hw & Hs).
  unfold update_cpu_settings, bind, total, ret.
  rewrite resetIdleTimer_eq, E. simpl.
  rewrite notPresentOrNotOnline_available by (rewrite Hs; assumption). simpl.
  unfold readSysfsFile. rewrite !timerReset_sysfs, Hs.
  fold (minPath cpu) (maxPath cpu).
  destruct (freq_max <? _); [|destruct (freq_min >? _)];
    rewrite !writeSysfsFile_eq; simpl;
    rewrite ?timerReset_sysfs, ?Hs, !fileWrite_canWrite, !canWrite_fileWrite;
    try rewrite (andb_comm (canWrite (sysfs st) (maxPath cpu)));
    eexists;
    [exists [minW; maxW] | exists [maxW; minW] | exists [minW; maxW]];
    (split; [reflexivity|]); simpl;
    rewrite ?timerReset_sysfs, ?Hs; (split; [|reflexivity]); auto.
Qed.

Lemma bounds_after_both_writes fs cpu freq_min freq_max order :
  inIntRange freq_min = true -> inIntRange freq_max = true ->
  canWrite fs (minPath cpu) = true -> canWrite fs (maxPath cpu) = true ->
  order = [(minPath cpu, number freq_min); (maxPath cpu, number freq_max)] \/
  order = [(maxPath cpu, number freq_max); (minPath cpu, number freq_min)] ->
  scalingMin (afterWrites fs order) cpu = freq_min /\
  scalingMax (afterWrites fs order) cpu = freq_max.
Proof.
  intros Rmin Rmax Cmin Cmax [-> | ->]; unfold afterWrites, scalingMin, scalingMax; simpl.
  - rewrite (fileText_fileWrite_other _ (maxPath cpu) _ (minPath cpu))
      by apply not_eq_sym, minPath_maxPath.
    rewrite (fileText_fileWrite _ (minPath cpu)) by assumption.
    rewrite (fileText_fileWrite _ (maxPath cpu)) by now rewrite canWrite_fileWrite.
    now rewrite !toInt_trimmed_number.
  - rewrite (fileText_fileWrite_other _ (minPath cpu) _ (maxPath cpu))
      by apply minPath_maxPath.
    rewrite (fileText_fileWrite _ (maxPath cpu)) by assumption.
    rewrite (fileText_fileWrite _ (minPath cpu)) by now rewrite canWrite_fileWrite.
    now rewrite !toInt_trimmed_number.
Qed.

Lemma cpuListed_bound_writes fs cpu order file cpu' :
  file = "present" \/ file = "online" ->
  Forall (fun w => fst w = minPath cpu \/ fst w = maxPath cpu) order ->
  cpuListed fuel (afterWrites fs order) file cpu' = cpuListed fuel fs file cpu'.
Proof.
  intros Hfile Hall. revert fs. unfold afterWrites.
  induction Hall as [|w ws Hw _ IH]; intros fs; simpl; [reflexivity|].
  rewrite IH. destruct Hw as [-> | ->]; now apply cpuListed_cpufreq_write.
Qed.

(** X3. For an authorized caller and a CPU that is present and online,
    [update_cpu_settings] returns 0 when both bound files can be opened
    for writing and -13 otherwise, whatever the two frequencies are; and
    after a return of 0 [get_cpu_frequencies] answers with the two
    frequencies of the request. *)
Theorem update_cpu_settings_outcome caller st cpu freq_min freq_max :
  inIntRange freq_min = true -> inIntRange freq_max = true ->
  fst (isAuthorized polkit caller APPLY_RUNTIME st) = true ->
  cpuListed fuel (sysfs st) "present" cpu = Some true ->
  cpuListed fuel (sysfs st) "online" cpu = Some true ->
  exists code st',
    update_cpu_settings polkit fuel caller cpu freq_min freq_max st = Some (code, st') /\
    code = (if canWrite (sysfs st) (minPath cpu) && canWrite (sysfs st) (maxPath cpu)
            then 0 else -13) /\
    (code = 0 ->
     get_cpu_frequencies fuel cpu st' = Some ([freq_min; freq_max], timerReset st')).
Proof.
  intros Rmin Rmax Ha Hp Ho.
  destruct (update_cpu_settings_code caller st cpu freq_min freq_max Ha Hp Ho)
    as (st' & order & Hrun & Horder & Hs).
  do 2 eexists. split; [exact Hrun|]. split; [reflexivity|].
  destruct (canWrite (sysfs st) (minPath cpu)) eqn:Cmin; [|discriminate].
  destruct (canWrite (sysfs st) (maxPath cpu)) eqn:Cmax; [|discriminate].
  intros _.
  assert (Forall (fun w => fst w = minPath cpu \/ fst w = maxPath cpu) order) as Hall.
  { destruct Horder as [-> | ->]; repeat apply Forall_cons; try apply Forall_nil; simpl; auto. }
  rewrite get_cpu_frequencies_available
    by (rewrite Hs, (cpuListed_bound_writes _ cpu); auto).
  rewrite Hs.
  destruct (bounds_after_both_writes (sysfs st) cpu freq_min freq_max order
              Rmin Rmax Cmin Cmax Horder) as [-> ->].
  reflexivity.
Qed.

(** X4. For an authorized caller and a CPU that is not present, or not
    online, the three slots that change a setting of the CPU return -1,
    and no file has been written nor has a write been attempted. *)
Theorem unavailable_cpu_is_refused caller st cpu freq_min freq_max governor pref :
  fst (isAuthorized polkit caller APPLY_RUNTIME st) = true ->
  unavailable fuel (sysfs st) cpu ->
  refusedWithoutWrite st (update_cpu_settings polkit fuel caller cpu freq_min freq_max st) /\
  refusedWithoutWrite st (update_cpu_governor polkit fuel caller cpu governor st) /\
  refusedWithoutWrite st (update_cpu_energy_prefs polkit fuel caller cpu pref st).
Proof.
  intros Ha Hu. destruct (gate_passed polkit caller st Ha) as (st1 & E & Hw & Hs).
  assert (notPresentOrNotOnline fuel cpu st1 = Some (true, timerReset st1)) as En
    by (apply notPresentOrNotOnline_unavailable; now rewrite Hs).
  unfold refusedWithoutWrite.
  repeat apply conj; exists (timerReset st1);
    unfold update_cpu_settings, update_cpu_governor, update_cpu_energy_prefs,
      bind, total, ret;
    rewrite resetIdleTimer_eq, E; simpl; rewrite En; simpl;
    now rewrite timerReset_writes, timerReset_sysfs.
Qed.

(** X5. For a CPU that is not present, or not online, the queries on the CPU
    answer with their defaults, whatever the files of the CPU hold: no
    governors, no preferences, an empty governor and an empty preference,
    and zero for the scaling bounds and for the hardware limits. *)
Theorem unavailable_cpu_answers st cpu :
  unavailable fuel (sysfs st) cpu ->
  get_cpu_governors fuel cpu st = Some ([], timerReset st) /\
  get_cpu_energy_preferences fuel cpu st = Some ([], timerReset st) /\
  get_cpu_governor fuel cpu st = Some (EmptyString, timerReset st) /\
  get_cpu_energy_preference fuel cpu st = Some (EmptyString, timerReset st) /\
  get_cpu_frequencies fuel cpu st = Some ([0; 0], timerReset st) /\
  get_cpu_limits fuel cpu st = Some ([0; 0], timerReset st).
Proof.
  intros Hu.
  assert (notPresentOrNotOnline fuel cpu (timerReset st)
          = Some (true, timerReset st)) as En.
  { rewrite notPresentOrNotOnline_unavailable by now rewrite timerReset_sysfs.
    now rewrite timerReset_idem. }
  repeat apply conj;
    unfold get_cpu_governors, get_cpu_energy_preferences, get_cpu_governor,
      get_cpu_energy_preference, get_cpu_frequencies, get_cpu_limits, bind, ret;
    rewrite resetIdleTimer_eq, En; reflexivity.
Qed.


(** X7. For an authorized caller and a CPU that is present and online, a
    preference that is among the supported ones and a preference file
    that exists: [update_cpu_energy_prefs] attempts one write, of the
    preference to the preference file, and returns 0 when the file can be
    opened for writing and -13 otherwise; after a return of 0
    [get_cpu_energy_preference] answers with the preference, trimmed. *)
Theorem update_cpu_energy_prefs_outcome caller st cpu pref :
  fst (isAuthorized polkit caller APPLY_RUNTIME st) = true ->
  cpuListed fuel (sysfs st) "present" cpu = Some true ->
  cpuListed fuel (sysfs st) "online" cpu = Some true ->
  containsString (supportedPrefs (sysfs st) cpu) pref = true ->
  let path := inDir (cpufreqPath cpu) ENERGY_PERF_PREF in
  fileExists (sysfs st) path = true ->
  exists code st',
    update_cpu_energy_prefs polkit fuel caller cpu pref st = Some (code, st') /\
    code = (if canWrite (sysfs st) path then 0 else -13) /\
    writes st' = writes st ++ [(path, pref)] /\
    (code = 0 ->
     get_cpu_energy_preference fuel cpu st' = Some (trimmed pref, timerReset st')).
Proof.
  intros Ha Hp Ho Hc path Hx.
  destruct (gate_passed polkit caller st Ha) as (st1 & E & Hw & Hs).
  unfold update_cpu_energy_prefs, bind, total, ret.
  rewrite resetIdleTimer_eq, E. simpl.
  rewrite notPresentOrNotOnline_available by (rewrite Hs; assumption). simpl.
  unfold get_cpu_energy_preferences, bind, ret, readSysfsFile.
  rewrite resetIdleTimer_eq.
  rewrite notPresentOrNotOnline_available
    by (rewrite !timerReset_sysfs, Hs; assumption).
  simpl. rewrite !timerReset_idem, timerReset_sysfs, Hs.
  fold (supportedPrefs (sysfs st) cpu). rewrite Hc. simpl.
  unfold exists_. rewrite timerReset_sysfs, Hs. fold path. rewrite Hx. simpl.
  rewrite writeSysfsFile_eq. simpl.
  rewrite timerReset_sysfs, timerReset_writes, Hs, Hw, fileWrite_canWrite.
  destruct (canWrite (sysfs st) path) eqn:C; simpl;
    do 2 eexists; (split; [reflexivity|]); (split; [reflexivity|]);
    (split; [reflexivity|]); simpl; [|discriminate].
  intros _. rewrite get_cpu_energy_preference_available; simpl.
  - fold path. now rewrite fileText_fileWrite.
  - unfold path. now rewrite cpuListed_cpufreq_write by auto.
  - unfold path. now rewrite cpuListed_cpufreq_write by auto.
Qed.

(** The code with which [set_cpu_online] and [set_cpu_offline] answer an
    authorized caller. *)
Lemma set_cpu_online_run caller st cpu value :
  fst (isAuthorized polkit caller APPLY_RUNTIME st) = true ->
  let path := cpuOnlinePath cpu in
  let slot := fun st =>
    bind resetIdleTimer (fun _ =>
    bind (total (isAuthorized polkit caller APPLY_RUNTIME)) (fun authorized =>
    if negb authorized then ret (-1)
    else bind (exists_ path) (fun present =>
         if negb present then ret (-1)
         else bind (writeSysfsFile path value) (fun ok =>
              if negb ok then ret (-13) else ret 0)))) st in
  exists st',
    slot st
    = Some (if fileExists (sysfs st) path
            then if canWrite (sysfs st) path then 0 else -13 else -1, st') /\
    (fileExists (sysfs st) path = true ->
     writes st' = writes st ++ [(path, value)] /\
     sysfs st' = snd (fileWrite (sysfs st) path value)) /\
    (fileExists (sysfs st) path = false ->
     writes st' = writes st /\ sysfs st' = sysfs st).
Proof.
  intros Ha path slot. subst slot.
  destruct (gate_passed polkit caller st Ha) as (st1 & E & Hw & Hs).
  unfold bind, total, ret. rewrite resetIdleTimer_eq, E. simpl.
  unfold exists_. rewrite Hs.
  destruct (fileExists (sysfs st) path) eqn:Hx; simpl.
  - rewrite writeSysfsFile_eq. simpl. rewrite Hs, Hw, fileWrite_canWrite.
    destruct (canWrite (sysfs st) path); simpl;
      eexists; (split; [reflexivity|]); simpl; easy.
  - eexists; split; [reflexivity|]. easy.
Qed.

(** X8. For an authorized caller, [set_cpu_online] and [set_cpu_offline]
    return -1 without attempting a write when the CPU has no [online]
    file, which is when [cpu_allowed_offline] answers 0; otherwise they
    attempt one write, of 1 or 0, and return 0 when the file can be
    opened for writing, after which the file holds the value, and -13
    when it cannot, after which no file has changed.  Neither slot looks
    at the lists of present and online CPUs. *)
Theorem set_cpu_online_offline_outcome caller st cpu :
  fst (isAuthorized polkit caller APPLY_RUNTIME st) = true ->
  let path := cpuOnlinePath cpu in
  let code := if fileExists (sysfs st) path
              then if canWrite (sysfs st) path then 0 else -13 else -1 in
  let outcome := fun (value : string) (r : option (Z * State)) =>
    exists st', r = Some (code, st') /\
      (code = 0 -> fileText (sysfs st') path = value) /\
      (code <> 0 -> sysfs st' = sysfs st) /\
      writes st' = (if fileExists (sysfs st) path then writes st ++ [(path, value)]
                    else writes st) in
  outcome "1" (set_cpu_online polkit caller cpu st) /\
  outcome "0" (set_cpu_offline polkit caller cpu st) /\
  exists st', cpu_allowed_offline cpu st
              = Some (if fileExists (sysfs st) path then 1 else 0, st').
Proof.
  intros Ha path code outcome.
  assert (forall value slot,
            (exists st',
               slot = Some (code, st') /\
               (fileExists (sysfs st) path = true ->
                writes st' = writes st ++ [(path, value)] /\
                sysfs st' = snd (fileWrite (sysfs st) path value)) /\
               (fileExists (sysfs st) path = false ->
                writes st' = writes st /\ sysfs st' = sysfs st)) ->
            outcome value slot) as Hout.
  { intros value slot (st' & Hrun & Hyes & Hno). exists st'. split; [exact Hrun|].
    subst code. destruct (fileExists (sysfs st) path) eqn:Hx.
    - destruct (Hyes eq_refl) as [Hw Hs]. rewrite Hs.
      destruct (canWrite (sysfs st) path) eqn:C.
      + repeat split; [now rewrite fileText_fileWrite | easy | exact Hw].
      + repeat split; [discriminate | now rewrite fileWrite_cannot | exact Hw].
    - destruct (Hno eq_refl) as [Hw Hs]. repeat split; [discriminate | easy | exact Hw]. }
  split; [|split].
  - apply Hout. exact (set_cpu_online_run caller st cpu "1" Ha).
  - apply Hout. exact (set_cpu_online_run caller st cpu "0" Ha).
  - unfold cpu_allowed_offline, bind, ret, exists_. rewrite resetIdleTimer_eq.
    fold path. rewrite timerReset_sysfs. eexists. reflexivity.
Qed.

Lemma notPresentOrNotOnline_eq cpu st :
  notPresentOrNotOnline fuel cpu st =
  match cpuListed fuel (sysfs st) "present" cpu with
  | Some true =>
      match cpuListed fuel (sysfs st) "online" cpu with
      | Some online => Some (negb online, timerReset st)
      | None => None
      end
  | Some false => Some (true, timerReset st)
  | None => None
  end.
Proof.
  unfold notPresentOrNotOnline, bind, ret. rewrite isPresent_eq.
  destruct (cpuListed fuel (sysfs st) "present" cpu) as [[|]|]; simpl; try reflexivity.
  rewrite isOnline_eq, timerReset_sysfs.
  destruct (cpuListed fuel (sysfs st) "online" cpu) as [o|]; simpl; [|reflexivity].
  now rewrite timerReset_idem.
Qed.

(** The three slots that change a setting of a CPU return 0 only past
    the gate and the test of the CPU. *)
Lemma zero_is_past_the_tests caller st cpu freq_min freq_max governor pref st' :
  update_cpu_settings polkit fuel caller cpu freq_min freq_max st = Some (0, st') \/
  update_cpu_governor polkit fuel caller cpu governor st = Some (0, st') \/
  update_cpu_energy_prefs polkit fuel caller cpu pref st = Some (0, st') ->
  fst (isAuthorized polkit caller APPLY_RUNTIME st) = true /\
  cpuListed fuel (sysfs st) "present" cpu = Some true /\
  cpuListed fuel (sysfs st) "online" cpu = Some true.
Proof.
  intros Hrun.
  destruct (fst (isAuthorized polkit caller APPLY_RUNTIME st)) eqn:Ha.
  - destruct (gate_passed polkit caller st Ha) as (st1 & E & Hw & Hs).
    unfold update_cpu_settings, update_cpu_governor, update_cpu_energy_prefs,
      bind, total, ret in Hrun.
    rewrite resetIdleTimer_eq, E in Hrun. simpl in Hrun.
    rewrite notPresentOrNotOnline_eq, Hs in Hrun.
    destruct (cpuListed fuel (sysfs st) "present" cpu) as [[|]|];
      [|destruct Hrun as [H|[H|H]]; discriminate H
       |destruct Hrun as [H|[H|H]]; discriminate H].
    destruct (cpuListed fuel (sysfs st) "online" cpu) as [[|]|];
      [easy
      |destruct Hrun as [H|[H|H]]; discriminate H
      |destruct Hrun as [H|[H|H]]; discriminate H].
  - destruct (gate_denied polkit caller st Ha) as (st1 & E & Hw & Hs).
    unfold update_cpu_settings, update_cpu_governor, update_cpu_energy_prefs,
      bind, total, ret in Hrun.
    rewrite resetIdleTimer_eq, E in Hrun. simpl in Hrun.
    destruct Hrun as [H|[H|H]]; discriminate H.
Qed.

Lemma update_cpu_settings_zero caller st cpu freq_min freq_max st' :
  update_cpu_settings polkit fuel caller cpu freq_min freq_max st = Some (0, st') ->
  cpuListed fuel (sysfs st) "present" cpu = Some true /\
  cpuListed fuel (sysfs st) "online" cpu = Some true /\
  canWrite (sysfs st) (minPath cpu) = true /\ canWrite (sysfs st) (maxPath cpu) = true /\
  exists order,
    (order = [(minPath cpu, number freq_min); (maxPath cpu, number freq_max)] \/
     order = [(maxPath cpu, number freq_max); (minPath cpu, number freq_min)]) /\
    sysfs st' = afterWrites (sysfs st) order.
Proof.
  intros Hrun.
  destruct (zero_is_past_the_tests caller st cpu freq_min freq_max "" "" st'
              (or_introl Hrun)) as (Ha & Hp & Ho).
  destruct (update_cpu_settings_code caller st cpu freq_min freq_max Ha Hp Ho)
    as (st2 & order & Hrun2 & Horder & Hs).
  rewrite Hrun in Hrun2.
  destruct (canWrite (sysfs st) (minPath cpu)); [|discriminate].
  destruct (canWrite (sysfs st) (maxPath cpu)); [|discriminate].
  injection Hrun2 as <-. eauto 8.
Qed.

(** X9. A return of 0 is earned.  When [update_cpu_settings] returns 0, the
    caller passed the gate, the CPU is present and online, and the two
    bound files hold the two frequencies of the request; when
    [update_cpu_governor] returns 0, the same and the governor file
    holds the governor; when [set_cpu_online] or [set_cpu_offline]
    returns 0, the caller passed the gate and the [online] file of the
    CPU holds 1 or 0. *)
Theorem zero_means_written caller st cpu st' :
  let passed := fst (isAuthorized polkit caller APPLY_RUNTIME st) = true in
  let available :=
    cpuListed fuel (sysfs st) "present" cpu = Some true /\
    cpuListed fuel (sysfs st) "online" cpu = Some true in
  (forall freq_min freq_max,
     update_cpu_settings polkit fuel caller cpu freq_min freq_max st = Some (0, st') ->
     passed /\ available /\
     fileText (sysfs st') (minPath cpu) = number freq_min /\
     fileText (sysfs st') (maxPath cpu) = number freq_max) /\
  (forall governor,
     update_cpu_governor polkit fuel caller cpu governor st = Some (0, st') ->
     passed /\ available /\
     fileText (sysfs st') (inDir (cpufreqPath cpu) SCALING_GOVERNOR) = governor) /\
  (set_cpu_online polkit caller cpu st = Some (0, st') ->
   passed /\ fileText (sysfs st') (cpuOnlinePath cpu) = "1") /\
  (set_cpu_offline polkit caller cpu st = Some (0, st') ->
   passed /\ fileText (sysfs st') (cpuOnlinePath cpu) = "0").
Proof.
  intros passed available. subst passed available.
  assert (forall value,
            bind resetIdleTimer (fun _ =>
            bind (total (isAuthorized polkit caller APPLY_RUNTIME)) (fun authorized =>
            if negb authorized then ret (-1)
            else bind (exists_ (cpuOnlinePath cpu)) (fun present =>
                 if negb present then ret (-1)
                 else bind (writeSysfsFile (cpuOnlinePath cpu) value) (fun ok =>
                      if negb ok then ret (-13) else ret 0)))) st = Some (0, st') ->
            fst (isAuthorized polkit caller APPLY_RUNTIME st) = true /\
            fileText (sysfs st') (cpuOnlinePath cpu) = value) as Honline.
  { intros value Hrun.
    destruct (fst (isAuthorized polkit caller APPLY_RUNTIME st)) eqn:Ha.
    - split; [reflexivity|].
      destruct (set_cpu_online_run caller st cpu value Ha) as (st2 & Hrun2 & Hyes & _).
      cbv zeta in Hrun2. rewrite Hrun in Hrun2.
      destruct (fileExists (sysfs st) (cpuOnlinePath cpu)); [|discriminate].
      destruct (canWrite (sysfs st) (cpuOnlinePath cpu)) eqn:C; [|discriminate].
      injection Hrun2 as <-. destruct (Hyes eq_refl) as [_ ->].
      now apply fileText_fileWrite.
    - destruct (gate_denied polkit caller st Ha) as (st1 & E & Hw & Hs).
      unfold bind, total, ret in Hrun. rewrite resetIdleTimer_eq, E in Hrun.
      discriminate Hrun. }
  split; [|split; [|split]].
  - intros freq_min freq_max Hrun.
    destruct (zero_is_past_the_tests caller st cpu freq_min freq_max "" "" st'
                (or_introl Hrun)) as (Ha & Hp & Ho).
    destruct (update_cpu_settings_zero caller st cpu freq_min freq_max st' Hrun)
      as (_ & _ & Cmin & Cmax & order & Horder & ->).
    repeat split; try assumption.
    + destruct Horder as [-> | ->]; unfold afterWrites; simpl.
      * rewrite fileText_fileWrite_other by apply not_eq_sym, minPath_maxPath.
        now apply fileText_fileWrite.
      * apply fileText_fileWrite. now rewrite canWrite_fileWrite.
    + destruct Horder as [-> | ->]; unfold afterWrites; simpl.
      * apply fileText_fileWrite. now rewrite canWrite_fileWrite.
      * rewrite fileText_fileWrite_other by apply minPath_maxPath.
        now apply fileText_fileWrite.
  - intros governor Hrun.
    destruct (zero_is_past_the_tests caller st cpu 0 0 governor "" st'
                (or_intror (or_introl Hrun))) as (Ha & Hp & Ho).
    repeat split; try assumption.
    destruct (gate_passed polkit caller st Ha) as (st1 & E & Hw & Hs).
    unfold update_cpu_governor, bind, total, ret in Hrun.
    rewrite resetIdleTimer_eq, E in Hrun. simpl in Hrun.
    rewrite notPresentOrNotOnline_available in Hrun by (rewrite Hs; assumption).
    simpl in Hrun. rewrite writeSysfsFile_eq in Hrun. simpl in Hrun.
    rewrite timerReset_sysfs, Hs, fileWrite_canWrite in Hrun.
    destruct (canWrite (sysfs st) _) eqn:C; [|discriminate].
    injection Hrun as <-. simpl. now apply fileText_fileWrite.
  - apply Honline.
  - apply Honline.
Qed.

End Outcomes.


(** *** The cache holds grants only *)

Lemma append_length (a b : string) :
  String.length (a +:+ b) = (String.length a + String.length b)%nat.
Proof. induction a as [|c a IH]; simpl; [reflexivity|]. now rewrite IH. Qed.

Lemma append_cancel_r (a b s : string) : a +:+ s = b +:+ s -> a = b.
Proof.
  revert b. induction a as [|c a IH]; intros [|d b] H; simpl in H.
  - reflexivity.
  - apply (f_equal String.length) in H. simpl in H. rewrite !append_length in H.
    simpl in H. lia.
  - apply (f_equal String.length) in H. simpl in H. rewrite !append_length in H.
    simpl in H. lia.
  - injection H as -> H. f_equal. now apply IH.
Qed.

Section CacheSound.
Variable polkit : nat -> string -> string -> DBusReply.

Lemma grantedAt_later st st' n sender actionId l :
  polkitCalls st' = polkitCalls st ++ l ->
  grantedAt polkit st n sender actionId -> grantedAt polkit st' n sender actionId.
Proof.
  intros E [Hcall Hreply]. split; [|exact Hreply].
  rewrite E. now apply lookup_app_l_Some.
Qed.

(** One check: the calls made so far stay, and a decision the check
    stores is the grant of the call it made. *)
Lemma checkPolkitAuthorization_step sender actionId st :
  let st' := snd (checkPolkitAuthorization polkit sender actionId st) in
  (m_authorizedSenders st !! (sender +:+ actionId) <> None /\ st' = st) \/
  (m_authorizedSenders st !! (sender +:+ actionId) = None /\
   polkitCalls st' = polkitCalls st ++ [(sender, actionId)] /\
   (m_authorizedSenders st' = m_authorizedSenders st \/
    (m_authorizedSenders st' = <[sender +:+ actionId := true]> (m_authorizedSenders st) /\
     grantedAt polkit st' (length (polkitCalls st)) sender actionId))).
Proof.
  unfold checkPolkitAuthorization.
  destruct (m_authorizedSenders st !! (sender +:+ actionId)) eqn:E; simpl; [now left|].
  right. split; [reflexivity|].
  destruct (polkit _ _ _) as [|[|[a c d|] args]] eqn:Er; simpl; auto.
  destruct a, c; simpl; auto.
  split; [reflexivity|]. right. split; [reflexivity|].
  split; simpl.
  - now rewrite list_lookup_middle.
  - eauto.
Qed.

Lemma checkPolkitAuthorization_sound sender actionId st :
  cacheHoldsGrants polkit st ->
  cacheHoldsGrants polkit (snd (checkPolkitAuthorization polkit sender actionId st)).
Proof.
  intros Hinv.
  destruct (checkPolkitAuthorization_step sender actionId st)
    as [[_ ->] | (Hmiss & Hcalls & [Hsame | [Hnew Hgrant]])]; [exact Hinv| |];
    intros key cached Hkey.
  - rewrite Hsame in Hkey. destruct (Hinv key cached Hkey) as (-> & n & s & a & -> & Hg).
    split; [reflexivity|]. exists n, s, a. split; [reflexivity|].
    eapply grantedAt_later; eauto.
  - rewrite Hnew in Hkey. destruct (decide (sender +:+ actionId = key)) as [<-|Hne].
    + rewrite lookup_insert_eq in Hkey. injection Hkey as <-.
      split; [reflexivity|]. eauto.
    + rewrite lookup_insert_ne in Hkey by assumption.
      destruct (Hinv key cached Hkey) as (-> & n & s & a & -> & Hg).
      split; [reflexivity|]. exists n, s, a. split; [reflexivity|].
      eapply grantedAt_later; eauto.
Qed.

Lemma checks_sound requests : forall st,
  cacheHoldsGrants polkit st -> cacheHoldsGrants polkit (checks polkit requests st).
Proof.
  induction requests as [|r requests IH]; intros st H; simpl; [exact H|].
  apply IH. now apply checkPolkitAuthorization_sound.
Qed.

Lemma checks_calls_for actionId requests : forall st,
  Forall (fun r => snd r = actionId) requests ->
  Forall (fun c => snd c = actionId) (polkitCalls st) ->
  Forall (fun c => snd c = actionId) (polkitCalls (checks polkit requests st)).
Proof.
  induction requests as [|[s a] requests IH]; intros st Hreq Hst; simpl; [exact Hst|].
  apply Forall_cons_1 in Hreq as [Ha Hreq]. simpl in Ha. subst a.
  apply IH; [exact Hreq|].
  destruct (checkPolkitAuthorization_step s actionId st) as [[_ ->] | (_ & -> & _)];
    [exact Hst|].
  apply Forall_app. split; [exact Hst|]. now repeat constructor.
Qed.

(** X10. From a service whose cache is empty and which has asked the authority
    nothing, after any sequence of checks for one action: a check of a
    caller for that action that does not ask the authority lets the caller
    through, and the authority was asked about that caller and that action
    before, and granted it without a challenge. *)
Theorem unasked_pass_has_a_grant st0 requests sender actionId :
  m_authorizedSenders st0 = ∅ ->
  polkitCalls st0 = [] ->
  Forall (fun r => snd r = actionId) requests ->
  let st := checks polkit requests st0 in
  let result := checkPolkitAuthorization polkit sender actionId st in
  polkitCalls (snd result) = polkitCalls st ->
  result = (true, st) /\ exists n, grantedAt polkit st n sender actionId.
Proof.
  intros Hcache Hcalls Hreq st result Hunasked.
  assert (cacheHoldsGrants polkit st) as Hinv.
  { apply checks_sound. intros key cached H. rewrite Hcache in H. discriminate. }
  assert (Forall (fun c => snd c = actionId) (polkitCalls st)) as Hfor.
  { apply checks_calls_for; [exact Hreq|]. rewrite Hcalls. constructor. }
  subst result.
  destruct (checkPolkitAuthorization_step sender actionId st)
    as [[Hhit _] | (_ & Happ & _)].
  - destruct (m_authorizedSenders st !! (sender +:+ actionId)) as [cached|] eqn:E;
      [|contradiction].
    destruct (Hinv _ _ E) as (-> & n & s & a & Hkey & Hg).
    split; [now apply checkPolkitAuthorization_hit|].
    exists n. destruct Hg as [Hcall Hreply].
    assert (a = actionId) as ->.
    { rewrite Forall_forall in Hfor.
      apply (Hfor (s, a)). eapply list_elem_of_lookup_2; eauto. }
    apply append_cancel_r in Hkey. subst s. split; assumption.
  - rewrite Happ in Hunasked. apply (f_equal (@length _)) in Hunasked.
    rewrite length_app in Hunasked. simpl in Hunasked. lia.
Qed.
End CacheSound.

(** *** Runs on a concrete machine *)

Lemma update_cpu_settings_outcome_witness :
  exists st',
    update_cpu_settings noAuthority 8 LocalCall 0 1000000 2500000 (fourCpus true)
    = Some (0, st') /\
    get_cpu_frequencies 8 0 st' = Some ([1000000; 2500000], timerReset st').
Proof.
  assert (cpuListed 8 (sysfs (fourCpus true)) "present" 0 = Some true) as Hp
    by (vm_compute; reflexivity).
  assert (cpuListed 8 (sysfs (fourCpus true)) "online" 0 = Some true) as Ho
    by (vm_compute; reflexivity).
  assert (canWrite (sysfs (fourCpus true)) (minPath 0)
          && canWrite (sysfs (fourCpus true)) (maxPath 0) = true) as Hw
    by (vm_compute; reflexivity).
  destruct (update_cpu_settings_outcome noAuthority 8 LocalCall (fourCpus true) 0
              1000000 2500000 eq_refl eq_refl eq_refl Hp Ho)
    as (code & st' & Hrun & Hcode & Hget).
  rewrite Hw in Hcode. subst code. exists st'. split; [exact Hrun | now apply Hget].
Defined.

Lemma unavailable_cpu_is_refused_witness :
  refusedWithoutWrite (fourCpus true)
    (update_cpu_governor noAuthority 8 LocalCall 7 "performance" (fourCpus true)).
Proof.
  assert (unavailable 8 (sysfs (fourCpus true)) 7) as Hu
    by (left; vm_compute; reflexivity).
  exact (proj1 (proj2 (unavailable_cpu_is_refused noAuthority 8 LocalCall (fourCpus true) 7
                         0 0 "performance" "power" eq_refl Hu))).
Defined.

Lemma unavailable_cpu_answers_witness :
  get_cpu_limits 8 7 (fourCpus true) = Some ([0; 0], timerReset (fourCpus true)).
Proof.
  assert (unavailable 8 (sysfs (fourCpus true)) 7) as Hu
    by (left; vm_compute; reflexivity).
  apply (unavailable_cpu_answers 8 (fourCpus true) 7 Hu).
Defined.


Lemma update_cpu_energy_prefs_outcome_witness :
  exists st',
    update_cpu_energy_prefs noAuthority 8 LocalCall 0 "power" (fourCpus true)
    = Some (0, st') /\
    get_cpu_energy_preference 8 0 st' = Some ("power", timerReset st').
Proof.
  assert (cpuListed 8 (sysfs (fourCpus true)) "present" 0 = Some true) as Hp
    by (vm_compute; reflexivity).
  assert (cpuListed 8 (sysfs (fourCpus true)) "online" 0 = Some true) as Ho
    by (vm_compute; reflexivity).
  assert (containsString (supportedPrefs (sysfs (fourCpus true)) 0) "power" = true) as Hc
    by (vm_compute; reflexivity).
  assert (fileExists (sysfs (fourCpus true)) (inDir (cpufreqPath 0) ENERGY_PERF_PREF) = true)
    as Hx by (vm_compute; reflexivity).
  assert (canWrite (sysfs (fourCpus true)) (inDir (cpufreqPath 0) ENERGY_PERF_PREF) = true)
    as Hw by (vm_compute; reflexivity).
  destruct (update_cpu_energy_prefs_outcome noAuthority 8 LocalCall (fourCpus true) 0
              "power" eq_refl Hp Ho Hc Hx)
    as (code & st' & Hrun & Hcode & _ & Hget).
  rewrite Hw in Hcode. subst code. exists st'. split; [exact Hrun | now apply Hget].
Defined.

Lemma set_cpu_online_offline_outcome_witness :
  exists st', set_cpu_offline noAuthority LocalCall 2 (fourCpus true) = Some (0, st')
              /\ fileText (sysfs st') (cpuOnlinePath 2) = "0".
Proof.
  assert (fileExists (sysfs (fourCpus true)) (cpuOnlinePath 2) = true) as Hx
    by (vm_compute; reflexivity).
  assert (canWrite (sysfs (fourCpus true)) (cpuOnlinePath 2) = true) as Hw
    by (vm_compute; reflexivity).
  destruct (set_cpu_online_offline_outcome noAuthority LocalCall (fourCpus true) 2 eq_refl)
    as (_ & (st' & Hrun & Hzero & _) & _).
  rewrite Hx, Hw in Hrun, Hzero. exists st'. split; [exact Hrun | now apply Hzero].
Defined.

Lemma unasked_pass_has_a_grant_witness :
  checkPolkitAuthorization grantedOnce ":1.42" APPLY_RUNTIME afterGrant = (true, afterGrant)
  /\ exists n, grantedAt grantedOnce afterGrant n ":1.42" APPLY_RUNTIME.
Proof.
  apply (unasked_pass_has_a_grant grantedOnce (fourCpus true)
           [(":1.42", APPLY_RUNTIME)] ":1.42" APPLY_RUNTIME).
  - reflexivity.
  - reflexivity.
  - repeat constructor.
  - vm_compute. reflexivity.
Defined.

Lemma every_slot_restarts_the_idle_timer_witness :
  exists st',
    cpu_allowed_offline 2 (fourCpus true) = Some (1, st') /\ m_idleTimer st' = Some 60000.
Proof.
  destruct (every_slot_restarts_the_idle_timer noAuthority 8 LocalCall 2 0 0
              EmptyString EmptyString)
    as (_ & _ & _ & _ & _ & _ & _ & _ & _ & _ & _ & Hslot & _).
  destruct (cpu_allowed_offline 2 (fourCpus true)) as [[r st']|] eqn:E.
  - destruct (Hslot _ _ _ E) as [_ Ht].
    pose proof E as E'. vm_compute in E'. injection E' as Hr _. subst r.
    exists st'. split; [reflexivity | exact Ht].
  - vm_compute in E. discriminate E.
Defined.

Lemma zero_means_written_witness :
  exists st',
    update_cpu_governor noAuthority 8 LocalCall 0 "performance" (fourCpus true)
    = Some (0, st') /\
    fileText (sysfs st') (inDir (cpufreqPath 0) SCALING_GOVERNOR) = "performance".
Proof.
  destruct (update_cpu_governor noAuthority 8 LocalCall 0 "performance" (fourCpus true))
    as [[code st']|] eqn:E.
  - pose proof E as E'. vm_compute in E'. injection E' as Hcode _. subst code.
    exists st'. split; [reflexivity|].
    destruct (zero_means_written noAuthority 8 LocalCall (fourCpus true) 0 st')
      as (_ & Hgov & _).
    apply (Hgov "performance" E).
  - vm_compute in E. discriminate E.
Defined.

End HelperSlotFacts.

(** ** The reader of the application and the helper *)

Module SysfsReaderFacts.

Import QString HelperService HelperQueries QStringFacts HelperServiceFacts HelperSlotFacts.

Lemma filter_all {A} (f : A -> bool) (l : list A) :
  forallb f l = true -> List.filter f l = l.
Proof.
  induction l as [|a l IH]; simpl; [reflexivity|].
  intros H. apply andb_true_iff in H as [-> H]. now rewrite IH.
Qed.

Lemma rangeLoop_extends fuel : forall i end_ result cpus,
  rangeLoop fuel i end_ result = Some cpus -> exists more, cpus = result ++ more.
Proof.
  induction fuel as [|fuel IH]; intros i end_ result cpus; simpl.
  - destruct (i <=? end_); [discriminate|]. intros [= <-]. exists []. now rewrite app_nil_r.
  - destruct (i <=? end_).
    + intros H. apply IH in H as [more ->]. exists (i :: more). now rewrite <- app_assoc.
    + intros [= <-]. exists []. now rewrite app_nil_r.
Qed.

Lemma parsePart_extends fuel part result cpus :
  parsePart fuel part result = Some cpus -> exists more, cpus = result ++ more.
Proof.
  unfold parsePart. destruct (contains "-" part).
  - destruct (split "-" KeepEmptyParts part) as [|a [|b [|c l]]];
      try (intros [= <-]; exists []; now rewrite app_nil_r).
    apply rangeLoop_extends.
  - intros [= <-]. eauto.
Qed.

Lemma parseParts_extends fuel parts : forall result cpus,
  parseParts fuel parts result = Some cpus -> exists more, cpus = result ++ more.
Proof.
  induction parts as [|part parts IH]; intros result cpus; simpl.
  - intros [= <-]. exists []. now rewrite app_nil_r.
  - destruct (parsePart fuel part result) as [r|] eqn:E; [|discriminate].
    intros H. apply IH in H as [more ->]. apply parsePart_extends in E as [more' ->].
    exists (more' ++ more). now rewrite app_assoc.
Qed.

Lemma parseParts_empty_part fuel parts : forall result cpus,
  In EmptyString parts -> parseParts fuel parts result = Some cpus -> In 0 cpus.
Proof.
  induction parts as [|part parts IH]; intros result cpus Hin; simpl; [contradiction|].
  destruct (parsePart fuel part result) as [r|] eqn:E; [|discriminate].
  destruct Hin as [-> | Hin].
  - simpl in E. injection E as <-. intros H.
    apply parseParts_extends in H as [more ->].
    apply in_or_app. left. apply in_or_app. right. now left.
  - now apply IH.
Qed.

Section Agreement.
Variable fuel : nat.

(** The reader of the application and the helper take the same list of
    CPUs from a text none of whose comma-separated parts is empty. *)
Lemma parseCpuList_agree text :
  SysfsReader.noEmptyPart (trimmed text) = true ->
  SysfsReader.parseCpuList fuel (trimmed text) = HelperService.parseCpuList fuel text.
Proof.
  intros H. unfold SysfsReader.parseCpuList, HelperService.parseCpuList.
  destruct (isEmpty (trimmed text)); [reflexivity|].
  unfold split. unfold SysfsReader.noEmptyPart, split in H. now rewrite filter_all.
Qed.

(** X11. On list files none of whose parts is empty, the reader of the
    application and the helper see the same CPUs: [presentCpus] and
    [onlineCpus] are the lists [get_cpus_present] and [get_cpus_online]
    answer with, and when the reader's [isOnline] has an answer, the test
    [!isPresent(cpu) || !isOnline(cpu)] of the helper has the opposite
    one. *)
Theorem reader_and_helper_see_the_same_cpus st cpu :
  let fs := sysfs st in
  SysfsReader.noEmptyPart (SysfsReader.readFile fs (inDir SYS_CPU_PATH "present")) = true ->
  SysfsReader.noEmptyPart (SysfsReader.readFile fs (inDir SYS_CPU_PATH "online")) = true ->
  get_cpus_present fuel st
  = option_map (fun cpus => (cpus, timerReset st)) (SysfsReader.presentCpus fuel fs) /\
  get_cpus_online fuel st
  = option_map (fun cpus => (cpus, timerReset st)) (SysfsReader.onlineCpus fuel fs) /\
  forall online, SysfsReader.isOnline fuel fs cpu = Some online ->
    notPresentOrNotOnline fuel cpu st = Some (negb online, timerReset st).
Proof.
  intros fs Hp Ho. unfold SysfsReader.readFile in Hp, Ho.
  assert (SysfsReader.presentCpus fuel fs
          = HelperService.parseCpuList fuel (fileText fs (inDir SYS_CPU_PATH "present")))
    as Ep by now apply parseCpuList_agree.
  assert (SysfsReader.onlineCpus fuel fs
          = HelperService.parseCpuList fuel (fileText fs (inDir SYS_CPU_PATH "online")))
    as Eo by now apply parseCpuList_agree.
  split; [|split].
  - unfold get_cpus_present, bind, readSysfsFile, partial.
    rewrite resetIdleTimer_eq, Ep, timerReset_sysfs. fold fs.
    now destruct (HelperService.parseCpuList _ _).
  - unfold get_cpus_online, bind, readSysfsFile, partial.
    rewrite resetIdleTimer_eq, Eo, timerReset_sysfs. fold fs.
    now destruct (HelperService.parseCpuList _ _).
  - intros online. unfold SysfsReader.isOnline. rewrite Ep, Eo.
    unfold notPresentOrNotOnline, bind, ret.
    rewrite isPresent_eq. unfold cpuListed. fold fs.
    destruct (HelperService.parseCpuList fuel (fileText fs (inDir SYS_CPU_PATH "online")))
      as [on|] eqn:Eon; [|discriminate].
    destruct (HelperService.parseCpuList fuel (fileText fs (inDir SYS_CPU_PATH "present")))
      as [pr|]; [|discriminate].
    intros [= <-]. simpl.
    destruct (containsInt pr cpu); simpl; [|reflexivity].
    rewrite isOnline_eq, timerReset_sysfs. unfold cpuListed. fold fs. rewrite Eon. simpl.
    now rewrite timerReset_idem.
Qed.

(** X12. An empty part of the text, which the helper skips, is CPU 0 to the
    reader of the application: [content.split(',')] keeps it, and
    [toInt] of the empty string is 0. *)
Theorem empty_part_is_cpu_0 content cpus :
  isEmpty content = false ->
  In EmptyString (split "," KeepEmptyParts content) ->
  SysfsReader.parseCpuList fuel content = Some cpus ->
  In 0 cpus.
Proof.
  intros Hne Hin. unfold SysfsReader.parseCpuList. rewrite Hne.
  now apply parseParts_empty_part.
Qed.
End Agreement.

Section ReadBack.
Variable polkit : nat -> string -> string -> DBusReply.
Variable fuel : nat.

Lemma reader_isOnline_bound_writes fs cpu order cpu' :
  Forall (fun w => fst w = minPath cpu \/ fst w = maxPath cpu) order ->
  SysfsReader.isOnline fuel (afterWrites fs order) cpu' = SysfsReader.isOnline fuel fs cpu'.
Proof.
  intros Hall. revert fs. unfold afterWrites.
  induction Hall as [|w ws Hw _ IH]; intros fs; simpl; [reflexivity|].
  rewrite IH. unfold SysfsReader.isOnline, SysfsReader.onlineCpus, SysfsReader.presentCpus,
    SysfsReader.readFile.
  destruct Hw as [-> | ->];
    rewrite !fileText_fileWrite_other;
    auto using cpufreq_file_not_present, cpufreq_file_not_online.
Qed.

(** X13. When [update_cpu_settings] of the helper has returned 0 for a CPU
    that the reader of the application sees online, the reader's
    [scalingFreqs] are the two frequencies of the request. *)
Theorem reader_reads_back_the_bounds caller st cpu freq_min freq_max st' :
  inIntRange freq_min = true -> inIntRange freq_max = true ->
  SysfsReader.isOnline fuel (sysfs st) cpu = Some true ->
  update_cpu_settings polkit fuel caller cpu freq_min freq_max st = Some (0, st') ->
  SysfsReader.scalingFreqs fuel (sysfs st') cpu = Some (freq_min, freq_max) /\
  SysfsReader.minFrequency fuel (sysfs st') cpu = Some freq_min /\
  SysfsReader.maxFrequency fuel (sysfs st') cpu = Some freq_max.
Proof.
  intros Rmin Rmax Hon Hrun.
  destruct (update_cpu_settings_zero polkit fuel caller st cpu freq_min freq_max st' Hrun)
    as (_ & _ & Cmin & Cmax & order & Horder & Hs).
  assert (Forall (fun w => fst w = minPath cpu \/ fst w = maxPath cpu) order) as Hall.
  { destruct Horder as [-> | ->]; repeat apply Forall_cons; try apply Forall_nil;
      simpl; auto. }
  assert (SysfsReader.scalingFreqs fuel (sysfs st') cpu = Some (freq_min, freq_max)) as E.
  { unfold SysfsReader.scalingFreqs.
    rewrite Hs, (reader_isOnline_bound_writes _ cpu) by assumption. rewrite Hon. simpl.
    destruct (bounds_after_both_writes (sysfs st) cpu freq_min freq_max order
                Rmin Rmax Cmin Cmax Horder) as [Emin Emax].
    unfold scalingMin, scalingMax in Emin, Emax. unfold SysfsReader.readFile.
    change (inDir (SysfsReader.cpuPath cpu) SysfsReader.SCALING_MIN_FREQ) with (minPath cpu).
    change (inDir (SysfsReader.cpuPath cpu) SysfsReader.SCALING_MAX_FREQ) with (maxPath cpu).
    now rewrite Emin, Emax. }
  unfold SysfsReader.minFrequency, SysfsReader.maxFrequency. now rewrite E.
Qed.
End ReadBack.

(** *** Runs on a concrete machine *)

Example trailing_comma :
  SysfsReader.parseCpuList 8 "1-3," = Some [1; 2; 3; 0] /\
  HelperService.parseCpuList 8 "1-3," = Some [1; 2; 3].
Proof. vm_compute. split; reflexivity. Qed.

Lemma reader_and_helper_see_the_same_cpus_witness :
  get_cpus_present 8 (fourCpus true)
  = option_map (fun cpus => (cpus, timerReset (fourCpus true)))
      (SysfsReader.presentCpus 8 (sysfs (fourCpus true))).
Proof.
  assert (SysfsReader.noEmptyPart
            (SysfsReader.readFile (sysfs (fourCpus true)) (inDir SYS_CPU_PATH "present"))
          = true) as Hp by (vm_compute; reflexivity).
  assert (SysfsReader.noEmptyPart
            (SysfsReader.readFile (sysfs (fourCpus true)) (inDir SYS_CPU_PATH "online"))
          = true) as Ho by (vm_compute; reflexivity).
  exact (proj1 (reader_and_helper_see_the_same_cpus 8 (fourCpus true) 0 Hp Ho)).
Defined.

Lemma empty_part_is_cpu_0_witness :
  SysfsReader.parseCpuList 8 "1-3," = Some [1; 2; 3; 0] /\ In 0 [1; 2; 3; 0].
Proof.
  assert (SysfsReader.parseCpuList 8 "1-3," = Some [1; 2; 3; 0]) as E
    by (vm_compute; reflexivity).
  split; [exact E|].
  apply (empty_part_is_cpu_0 8 "1-3," [1; 2; 3; 0] eq_refl); [|exact E].
  vm_compute. right. left. reflexivity.
Defined.

Lemma reader_reads_back_the_bounds_witness :
  exists st',
    update_cpu_settings noAuthority 8 LocalCall 0 1000000 2500000 (fourCpus true)
    = Some (0, st') /\
    SysfsReader.scalingFreqs 8 (sysfs st') 0 = Some (1000000, 2500000).
Proof.
  assert (SysfsReader.isOnline 8 (sysfs (fourCpus true)) 0 = Some true) as Hon
    by (vm_compute; reflexivity).
  destruct (update_cpu_settings noAuthority 8 LocalCall 0 1000000 2500000 (fourCpus true))
    as [[code st']|] eqn:E.
  - pose proof E as E'. vm_compute in E'. injection E' as Hcode _. subst code.
    exists st'. split; [reflexivity|].
    apply (reader_reads_back_the_bounds noAuthority 8 LocalCall (fourCpus true) 0
             1000000 2500000 st' eq_refl eq_refl Hon E).
  - vm_compute in E. discriminate E.
Defined.

End SysfsReaderFacts.

(** ** The controller: what is pending *)

Module CpuSettingsEditsFacts.

Import QString CpuSettings CpuSettingsEdits CpuSettingsFacts.

Lemma contains_In (x : string) (l : list string) :
  existsb (String.eqb x) l = true -> In x l.
Proof.
  intros H. apply existsb_exists in H as (y & Hin & E).
  apply String.eqb_eq in E. now subst.
Qed.

Lemma indexOf_bounds l x : -1 <= indexOf l x < Z.of_nat (length l).
Proof.
  induction l as [|y l IH]; simpl; [lia|].
  destruct (String.eqb y x); [lia|].
  destruct (Z.ltb_spec (indexOf l x) 0); lia.
Qed.

Lemma indexOf_found l x :
  0 <= indexOf l x -> l !! Z.to_nat (indexOf l x) = Some x.
Proof.
  induction l as [|y l IH]; simpl; [lia|].
  destruct (String.eqb y x) eqn:E.
  - intros _. apply String.eqb_eq in E. now subst.
  - destruct (Z.ltb_spec (indexOf l x) 0) as [Hlt|Hge]; [lia|].
    intros _. replace (Z.to_nat (indexOf l x + 1)) with (Datatypes.S (Z.to_nat (indexOf l x))) by lia.
    simpl. now apply IH.
Qed.

Lemma indexOf_first l x : forall i,
  l !! i = Some x -> 0 <= indexOf l x <= Z.of_nat i.
Proof.
  induction l as [|y l IH]; intros i; [discriminate|].
  simpl. destruct (String.eqb y x) eqn:E; [lia|].
  destruct i as [|i]; simpl.
  - intros [= ->]. rewrite String.eqb_refl in E. discriminate.
  - intros H. apply IH in H. destruct (Z.ltb_spec (indexOf l x) 0); lia.
Qed.

Lemma indexOf_absent l x : indexOf l x = -1 <-> ~ In x l.
Proof.
  split.
  - intros H Hin. apply list_elem_of_In, list_elem_of_lookup_1 in Hin as [i Hi].
    apply indexOf_first in Hi. lia.
  - induction l as [|y l IH]; simpl; [reflexivity|].
    intros Hnot. destruct (String.eqb y x) eqn:E.
    + apply String.eqb_eq in E. subst. exfalso. apply Hnot. now left.
    + rewrite IH by (intros Hin; apply Hnot; now right). reflexivity.
Qed.

Lemma setGovernor_pending gov c :
  In gov (m_governors c) ->
  m_newGovernor (setGovernor gov c) = gov /\ m_governors (setGovernor gov c) = m_governors c.
Proof.
  intros Hin. unfold setGovernor.
  destruct (String.eqb (m_newGovernor c) gov) eqn:E; simpl.
  - apply String.eqb_eq in E. easy.
  - destruct (existsb (String.eqb gov) (m_governors c)) eqn:Ex; simpl; [easy|].
    exfalso. apply not_true_iff_false in Ex. apply Ex, existsb_exists.
    exists gov. split; [assumption | apply String.eqb_refl].
Qed.

Lemma setEnergyPref_pending pref c :
  In pref (m_energyPrefs c) ->
  m_newEnergyPref (setEnergyPref pref c) = pref /\
  m_energyPrefs (setEnergyPref pref c) = m_energyPrefs c.
Proof.
  intros Hin. unfold setEnergyPref.
  destruct (String.eqb (m_newEnergyPref c) pref) eqn:E; simpl.
  - apply String.eqb_eq in E. easy.
  - destruct (existsb (String.eqb pref) (m_energyPrefs c)) eqn:Ex; simpl; [easy|].
    exfalso. apply not_true_iff_false in Ex. apply Ex, existsb_exists.
    exists pref. split; [assumption | apply String.eqb_refl].
Qed.

(** X14. [setGovernorIndex] with the index of a governor of the list makes
    that governor the pending one, and [governorIndex] then answers with
    the first position of that governor, which is the index when the
    governor occurs once; with any other index it does nothing.  The same
    for the energy preferences. *)
Theorem index_selects_the_entry index c :
  (forall gov, 0 <= index -> m_governors c !! Z.to_nat index = Some gov ->
     let c' := setGovernorIndex index c in
     m_newGovernor c' = gov /\
     0 <= governorIndex c' <= index /\
     m_governors c' !! Z.to_nat (governorIndex c') = Some gov) /\
  (forall pref, 0 <= index -> m_energyPrefs c !! Z.to_nat index = Some pref ->
     let c' := setEnergyPrefIndex index c in
     m_newEnergyPref c' = pref /\
     0 <= energyPrefIndex c' <= index /\
     m_energyPrefs c' !! Z.to_nat (energyPrefIndex c') = Some pref) /\
  (index < 0 \/ Z.of_nat (length (m_governors c)) <= index -> setGovernorIndex index c = c) /\
  (index < 0 \/ Z.of_nat (length (m_energyPrefs c)) <= index -> setEnergyPrefIndex index c = c).
Proof.
  split; [|split; [|split]].
  - intros gov Hge Hat c'. subst c'. unfold setGovernorIndex, governorIndex.
    pose proof (lookup_lt_Some _ _ _ Hat) as Hlt.
    destruct (Z.geb_spec index 0); [|lia].
    destruct (Z.ltb_spec index (Z.of_nat (length (m_governors c)))); [|lia].
    simpl. rewrite Hat.
    assert (In gov (m_governors c)) as Hin
      by (apply list_elem_of_In; eapply list_elem_of_lookup_2; eauto).
    destruct (setGovernor_pending gov c Hin) as [-> ->].
    pose proof (indexOf_first _ _ _ Hat) as Hfirst.
    split; [reflexivity|]. split; [lia|]. apply indexOf_found. lia.
  - intros pref Hge Hat c'. subst c'. unfold setEnergyPrefIndex, energyPrefIndex.
    pose proof (lookup_lt_Some _ _ _ Hat) as Hlt.
    destruct (Z.geb_spec index 0); [|lia].
    destruct (Z.ltb_spec index (Z.of_nat (length (m_energyPrefs c)))); [|lia].
    simpl. rewrite Hat.
    assert (In pref (m_energyPrefs c)) as Hin
      by (apply list_elem_of_In; eapply list_elem_of_lookup_2; eauto).
    destruct (setEnergyPref_pending pref c Hin) as [-> ->].
    pose proof (indexOf_first _ _ _ Hat) as Hfirst.
    split; [reflexivity|]. split; [lia|]. apply indexOf_found. lia.
  - intros Hout. unfold setGovernorIndex.
    destruct (Z.geb_spec index 0); simpl; [|reflexivity].
    destruct (Z.ltb_spec index (Z.of_nat (length (m_governors c)))); [lia | reflexivity].
  - intros Hout. unfold setEnergyPrefIndex.
    destruct (Z.geb_spec index 0); simpl; [|reflexivity].
    destruct (Z.ltb_spec index (Z.of_nat (length (m_energyPrefs c)))); [lia | reflexivity].
Qed.

Lemma setGovernor_offered gov c : offered c -> offered (setGovernor gov c).
Proof.
  intros [Hg Hp]. unfold setGovernor.
  destruct (negb (String.eqb (m_newGovernor c) gov)); simpl; [|easy].
  destruct (existsb (String.eqb gov) (m_governors c)) eqn:E; [|easy].
  split; simpl; [right; now apply contains_In | exact Hp].
Qed.

Lemma setEnergyPref_offered pref c : offered c -> offered (setEnergyPref pref c).
Proof.
  intros [Hg Hp]. unfold setEnergyPref.
  destruct (negb (String.eqb (m_newEnergyPref c) pref)); simpl; [|easy].
  destruct (existsb (String.eqb pref) (m_energyPrefs c)) eqn:E; [|easy].
  split; simpl; [exact Hg | right; now apply contains_In].
Qed.

Lemma edit_offered e c : offered c -> offered (edit e c).
Proof.
  intros Hc. destruct e; simpl.
  - unfold setFreqMin. destruct (negb _); [|exact Hc]. exact Hc.
  - unfold setFreqMax. destruct (negb _); [|exact Hc]. exact Hc.
  - now apply setGovernor_offered.
  - unfold setGovernorIndex. destruct (_ && _); [|exact Hc].
    destruct (_ !! _); [now apply setGovernor_offered | exact Hc].
  - now apply setEnergyPref_offered.
  - unfold setEnergyPrefIndex. destruct (_ && _); [|exact Hc].
    destruct (_ !! _); [now apply setEnergyPref_offered | exact Hc].
  - unfold setOnline. destruct (negb _); [|exact Hc]. exact Hc.
  - split; left; reflexivity.
Qed.

Section Pending.
Context {S : Type} `{Machine S}.

Lemma updateFromSystem_offered (sys : S) c : offered (updateFromSystem sys c).
Proof. split; left; reflexivity. Qed.

Lemma reachable_offered c : reachable c -> offered c.
Proof.
  induction 1 as [cpu sys | e c _ IH | sys c _ IH | sys c _ IH].
  - apply updateFromSystem_offered.
  - now apply edit_offered.
  - apply updateFromSystem_offered.
  - destruct (applyChanges c sys) as [[ret c'] sys'] eqn:E. simpl.
    destruct (applyChanges_refresh c sys ret c' sys' E) as [Hzero Hother].
    destruct (Z.eq_dec ret 0) as [Hr|Hr].
    + rewrite (Hzero Hr). apply updateFromSystem_offered.
    + now rewrite (Hother Hr).
Qed.

(** X15. However a controller has been edited, refreshed and applied: when
    its governor counts as changed, the pending governor is one of the
    list of governors of the controller, and when its energy preference
    counts as changed, the pending preference is one of its list.  These
    are the values [applyChanges] passes to the helper. *)
Theorem changed_setting_is_an_offered_one c :
  reachable c ->
  (isGovernorChanged c = true -> In (m_newGovernor c) (m_governors c)) /\
  (isEnergyPrefChanged c = true -> In (m_newEnergyPref c) (m_energyPrefs c)).
Proof.
  intros Hr. destruct (reachable_offered c Hr) as [Hg Hp].
  unfold isGovernorChanged, isEnergyPrefChanged. split; intros Hch.
  - destruct Hg as [E|Hin]; [|exact Hin].
    rewrite E, String.eqb_refl in Hch. discriminate.
  - destruct Hp as [E|Hin]; [|exact Hin].
    rewrite E, String.eqb_refl in Hch. discriminate.
Qed.

(** X16. A pending offline.  [applyChanges] then makes at most one call,
    [setCpuOffline], and none when the CPU cannot go offline or is
    offline already; a pending frequency, governor or preference is not
    sent.  Unless that call fails, the function returns 0 and refreshes,
    which discards what was pending. *)
Theorem pending_offline_sends_nothing_else c (sys : S) :
  m_newOnline c = false ->
  applyChanges c sys
  = if isOnlineChanged c && m_canGoOffline c then
      let '(ret, sys') := setCpuOffline (m_cpu c) sys in
      if ret =? 0 then (0, updateFromSystem sys' c, sys') else (ret, c, sys')
    else (0, updateFromSystem sys c, sys).
Proof.
  intros Hoff. unfold applyChanges, applyOnline. rewrite Hoff.
  destruct (isOnlineChanged c); simpl; [|reflexivity].
  destruct (m_canGoOffline c); simpl; [|reflexivity].
  destruct (setCpuOffline (m_cpu c) sys) as [ret sys'].
  destruct (ret =? 0); reflexivity.
Qed.
End Pending.

Lemma pending_offline_sends_nothing_else_witness :
  let c := setOnline false (setGovernor "performance" (loadFromSystem 0 powersaving)) in
  let '(ret, c', sys') := applyChanges c powersaving in
  ret = 0 /\ sys' = powersaving /\ m_newGovernor c' = "powersave" /\ m_newOnline c' = true.
Proof.
  intros c.
  rewrite (pending_offline_sends_nothing_else c powersaving eq_refl).
  vm_compute. repeat split.
Defined.

Lemma changed_setting_is_an_offered_one_witness :
  In (m_newGovernor pendingEdits) (m_governors pendingEdits).
Proof.
  assert (reachable pendingEdits) as Hr.
  { apply (reachable_edit (SetGovernor "performance")).
    apply (reachable_edit (SetFreqMin 1000000)).
    apply reachable_load. }
  apply (proj1 (changed_setting_is_an_offered_one pendingEdits Hr)).
  reflexivity.
Defined.

Lemma index_selects_the_entry_witness :
  let c := setGovernorIndex 0 (loadFromSystem 0 powersaving) in
  m_newGovernor c = "performance" /\ governorIndex c = 0.
Proof.
  intros c.
  destruct (proj1 (index_selects_the_entry 0 (loadFromSystem 0 powersaving))
              "performance") as (Hg & Hi & _); [lia | reflexivity |].
  fold c in Hg, Hi. split; [exact Hg | lia].
Defined.

End CpuSettingsEditsFacts.

(** ** The list of controllers *)

Module CpuListModelFacts.

Import QString CpuSettings CpuListModel CpuSettingsFacts.

Lemma isChanged_resetToSystem c : isChanged (resetToSystem c) = false.
Proof.
  unfold isChanged, isFreqChanged, isGovernorChanged, isEnergyPrefChanged, isOnlineChanged.
  simpl. now rewrite !Z.eqb_refl, !String.eqb_refl, !Bool.eqb_reflx.
Qed.

Lemma count_with_cpuSettings l m :
  length l = length (m_cpuSettings m) -> count (with_cpuSettings l m) = count m.
Proof. intros E. unfold count. simpl. now rewrite E. Qed.

Section Model.
Context {S : Type} `{Machine S}.

Lemma isChanged_updateFromSystem (sys : S) c : isChanged (updateFromSystem sys c) = false.
Proof.
  unfold isChanged, isFreqChanged, isGovernorChanged, isEnergyPrefChanged, isOnlineChanged.
  simpl. now rewrite !Z.eqb_refl, !String.eqb_refl, !Bool.eqb_reflx.
Qed.

Lemma applyEach_result cpus : forall result (sys : S) ret cpus' sys',
  applyEach cpus result sys = (ret, cpus', sys') ->
  (ret = 0 <-> result = 0 /\ existsb isChanged cpus' = false) /\
  List.map m_cpu cpus' = List.map m_cpu cpus.
Proof.
  induction cpus as [|cpu rest IH]; intros result sys ret cpus' sys'; simpl.
  - intros [= <- <- <-]. simpl. intuition.
  - destruct (isChanged cpu) eqn:Ech.
    + destruct (applyChanges cpu sys) as [[r cpu1] sys1] eqn:Ea.
      destruct (applyEach rest _ sys1) as [[r2 rest2] sys2] eqn:Er.
      intros [= <- <- <-].
      destruct (IH _ _ _ _ _ Er) as [Hiff Hmap].
      destruct (applyChanges_refresh cpu sys r cpu1 sys1 Ea) as [Hzero Hother].
      destruct (Z.eqb_spec r 0) as [Hr|Hr]; simpl in *.
      * rewrite (Hzero Hr), isChanged_updateFromSystem. simpl.
        split; [exact Hiff | now rewrite Hmap].
      * rewrite (Hother Hr), Ech. simpl.
        split; [|now rewrite Hmap].
        split; [intros E; apply Hiff in E; tauto | simpl; intros [_ E]; discriminate].
    + destruct (applyEach rest result sys) as [[r2 rest2] sys2] eqn:Er.
      intros [= <- <- <-].
      destruct (IH _ _ _ _ _ Er) as [Hiff Hmap].
      simpl. rewrite Ech. simpl. split; [exact Hiff | now rewrite Hmap].
Qed.

(** The loop is at every controller in its turn: the controller at a
    position of the result is what [applyChanges] makes of the one given
    there, in the system the controllers before it leave, whatever they
    returned. *)
Lemma applyEach_at c after : forall before result (sys : S),
  let '(_, _, sys1) := applyEach before result sys in
  let '(_, cpus', _) := applyEach (before ++ c :: after) result sys in
  cpus' !! length before
  = Some (if isChanged c then snd (fst (applyChanges c sys1)) else c).
Proof.
  induction before as [|b before IH]; intros result sys; simpl.
  - destruct (isChanged c).
    + destruct (applyChanges c sys) as [[r c1] sys1].
      destruct (applyEach after _ sys1) as [[r2 rest2] sys2]. reflexivity.
    + destruct (applyEach after result sys) as [[r2 rest2] sys2]. reflexivity.
  - destruct (isChanged b).
    + destruct (applyChanges b sys) as [[r b1] sysb].
      specialize (IH (if negb (r =? 0) then r else result) sysb).
      destruct (applyEach before _ sysb) as [[r1 before1] sys1].
      destruct (applyEach (before ++ c :: after) _ sysb) as [[r2 cpus2] sys2].
      exact IH.
    + specialize (IH result sys).
      destruct (applyEach before result sys) as [[r1 before1] sys1].
      destruct (applyEach (before ++ c :: after) result sys) as [[r2 cpus2] sys2].
      exact IH.
Qed.

(** X17. [applyAll] goes on after a controller that failed: every controller
    with changes has its [applyChanges] run, in the system the
    controllers before it leave and whatever they returned, and is
    afterwards what that call made of it; a controller without changes
    stays as it is.  [applyAll] returns 0 exactly when no controller is
    left with changes; the controllers stay those of the same CPUs. *)
Theorem applyAll_zero_iff_nothing_left (m : State) (sys : S) :
  let '(ret, m', sys') := applyAll m sys in
  (ret = 0 <-> hasChanges m' = false) /\
  List.map m_cpu (m_cpuSettings m') = List.map m_cpu (m_cpuSettings m) /\
  m_currentIndex m' = m_currentIndex m /\
  forall before c after, m_cpuSettings m = before ++ c :: after ->
    let '(_, _, sys1) := applyAll (with_cpuSettings before m) sys in
    m_cpuSettings m' !! length before
    = Some (if isChanged c then snd (fst (applyChanges c sys1)) else c).
Proof.
  unfold applyAll.
  destruct (applyEach (m_cpuSettings m) 0 sys) as [[ret cpus] sys'] eqn:E.
  destruct (applyEach_result _ _ _ _ _ _ E) as [Hiff Hmap].
  unfold hasChanges. simpl. split; [|split; [exact Hmap | split; [reflexivity|]]].
  - split; [intros Hr; now apply Hiff | intros Hn; apply Hiff; auto].
  - intros before c after Em. rewrite Em in E.
    pose proof (applyEach_at c after before 0 sys) as Hat.
    destruct (applyEach before 0 sys) as [[r1 before1] sys1].
    rewrite E in Hat. exact Hat.
Qed.

(** X18. After [resetAll] and after [refreshAll] no controller has changes;
    after [refresh] the current one has none. *)
Theorem reset_and_refresh_leave_no_changes (m : State) (sys : S) :
  hasChanges (resetAll m) = false /\
  hasChanges (refreshAll sys m) = false /\
  (forall cpu, currentCpu (refresh sys m) = Some cpu -> isChanged cpu = false).
Proof.
  split; [|split].
  - unfold hasChanges, resetAll. simpl.
    induction (m_cpuSettings m) as [|c l IH]; simpl; [reflexivity|].
    now rewrite isChanged_resetToSystem.
  - unfold hasChanges, refreshAll. simpl.
    induction (m_cpuSettings m) as [|c l IH]; simpl; [reflexivity|].
    now rewrite isChanged_updateFromSystem.
  - intros cpu. unfold refresh, currentCpu.
    destruct ((m_currentIndex m >=? 0) && (m_currentIndex m <? count m)) eqn:E.
    + rewrite count_with_cpuSettings by apply length_alter. simpl. rewrite E.
      rewrite list_lookup_alter_eq.
      destruct (m_cpuSettings m !! Z.to_nat (m_currentIndex m)); simpl; [|discriminate].
      intros [= <-]. apply isChanged_updateFromSystem.
    + rewrite E. discriminate.
Qed.

Lemma setCurrentIndex_inRange index m : indexInRange m -> indexInRange (setCurrentIndex index m).
Proof.
  intros Hm. unfold setCurrentIndex.
  destruct (Z.geb_spec index 0); simpl; [|exact Hm].
  destruct (Z.ltb_spec index (count m)); simpl; [|exact Hm].
  destruct (negb _); [|exact Hm].
  split; simpl; [lia | intros _; assumption].
Qed.

Lemma with_cpuSettings_inRange l m :
  length l = length (m_cpuSettings m) -> indexInRange m -> indexInRange (with_cpuSettings l m).
Proof.
  intros E [H0 Hlt]. split; simpl; [exact H0|].
  intros Hne. rewrite count_with_cpuSettings by exact E. apply Hlt.
  intros Hnil. rewrite Hnil in E. destruct l; [contradiction | discriminate].
Qed.

Lemma step_inRange m (s : Step S) : indexInRange m -> indexInRange (step m s).
Proof.
  intros Hm. destruct s as [cpus sys | index | apply | sys | sys |]; simpl.
  - unfold loadCpus.
    set (m1 := emit [countChanged] (with_cpuSettings _ m)).
    assert (m_currentIndex m1 = m_currentIndex m) as Ei by reflexivity.
    clearbody m1. destruct Hm as [H0 _].
    destruct (m_cpuSettings m1) as [|c l] eqn:El; cbn [DbusHelper.isEmptyList negb andb].
    + split; [lia | congruence].
    + assert (0 < count m1) as Hpos by (unfold count; rewrite El; simpl; lia).
      destruct (Z.geb_spec (m_currentIndex m1) (count m1)) as [Hge|Hlt].
      * unfold setCurrentIndex.
        destruct (Z.ltb_spec 0 (count m1)); [|lia].
        destruct (Z.eqb_spec 0 (m_currentIndex m1)); [lia|]. cbn.
        split; cbn; [lia | intros _; exact Hpos].
      * split; [lia | intros _; lia].
  - now apply setCurrentIndex_inRange.
  - unfold setApplyToAll. destruct (negb _); exact Hm.
  - unfold refresh. destruct (_ && _); [|exact Hm].
    apply with_cpuSettings_inRange; [apply length_alter | exact Hm].
  - apply with_cpuSettings_inRange; [apply length_map | exact Hm].
  - apply with_cpuSettings_inRange; [apply length_map | exact Hm].
Qed.

(** X19. Whatever the interface has done to the model since its construction:
    there is a current controller exactly when the model has
    controllers, and it is the one [cpuAt] gives for the current index. *)
Theorem current_cpu_is_defined (steps : list (Step S)) :
  let m := fold_left step steps initial in
  (currentCpu m = None <-> m_cpuSettings m = []) /\
  currentCpu m = cpuAt (m_currentIndex m) m.
Proof.
  intros m.
  assert (indexInRange m) as [H0 Hlt].
  { subst m. assert (indexInRange initial) as Hi by (split; simpl; [lia | congruence]).
    revert Hi. generalize initial. induction steps as [|s steps IH]; intros m0 Hm0; simpl.
    - exact Hm0.
    - apply IH. now apply step_inRange. }
  clearbody m. split; [|reflexivity].
  unfold currentCpu. destruct (Z.geb_spec (m_currentIndex m) 0); [|lia]. cbn [andb].
  split.
  - intros Hnone. destruct (m_cpuSettings m) as [|c l] eqn:El; [reflexivity|].
    exfalso.
    assert (m_currentIndex m < count m) as Hin by (apply Hlt; discriminate).
    destruct (Z.ltb_spec (m_currentIndex m) (count m)); [|lia].
    apply lookup_ge_None in Hnone. simpl in Hnone.
    unfold count in Hin. rewrite El in Hin. simpl length in Hin. lia.
  - intros Hnil. unfold count. rewrite Hnil.
    destruct (m_currentIndex m <? Z.of_nat (length [])); reflexivity.
Qed.
End Model.

Lemma applyAll_zero_iff_nothing_left_witness :
  fst (fst (applyAll twoEdits powersaving)) = -11 /\
  m_cpuSettings (snd (fst (applyAll twoEdits powersaving))) !! 1%nat
  = Some (updateFromSystem (snd (applyAll twoEdits powersaving)) boundEdit) /\
  hasChanges (snd (fst (applyAll twoEdits powersaving))) = true.
Proof.
  pose proof (applyAll_zero_iff_nothing_left twoEdits powersaving) as Hall.
  destruct (applyAll twoEdits powersaving) as [[ret m'] sys'] eqn:E.
  destruct Hall as (Hret & _ & _ & Hat).
  specialize (Hat [pendingEdits] boundEdit [] eq_refl).
  assert (ret = -11) as Er by (vm_compute in E; congruence).
  split; [exact Er|]. split.
  - cbn [fst snd]. change (length [pendingEdits]) with 1%nat in Hat. rewrite Hat.
    vm_compute in E. injection E as _ _ <-. vm_compute. reflexivity.
  - cbn [fst snd]. destruct (hasChanges m'); [reflexivity|].
    destruct Hret as [_ Hret]. specialize (Hret eq_refl). lia.
Defined.

End CpuListModelFacts.

(** ** The scheduler: signals *)

Module DbusHelperSignalsFacts.

Import QString DbusHelper DbusHelperSignals DbusHelperFacts.

Lemma outcomes_app l1 l2 : outcomes (l1 ++ l2) = outcomes l1 ++ outcomes l2.
Proof. apply List.filter_app. Qed.

Lemma setOperationInProgress_emitted b d :
  outcomes (emitted (setOperationInProgress b d)) = outcomes (emitted d) /\
  completions (emitted (setOperationInProgress b d)) = completions (emitted d).
Proof.
  unfold setOperationInProgress. destruct (negb _); [|easy]. simpl.
  rewrite outcomes_app, completions_app. simpl. now rewrite !app_nil_r.
Qed.

Lemma processQueue_accounted queue : forall d,
  accounted d -> accounted (processQueue queue d).
Proof.
  induction queue as [|op rest IH]; intros d Hd; simpl.
  - pose proof (setOperationInProgress_fields false d)
      as (_ & _ & _ & _ & _ & _ & Hw & Hs & _).
    destruct (setOperationInProgress_emitted false d) as [Ho _].
    unfold accounted in *.
    destruct (m_batchMode (setOperationInProgress false d)); simpl;
      rewrite ?outcomes_app, ?Ho, ?Hw, ?Hs; simpl; rewrite ?app_nil_r; exact Hd.
  - pose proof (setOperationInProgress_fields true d)
      as (_ & Hc & _ & _ & _ & _ & Hw & Hs & _).
    destruct (setOperationInProgress_emitted true d) as [Ho _].
    rewrite Hc. unfold accounted in *. destruct (m_connected d); simpl.
    + rewrite Ho, Hw, Hs, !length_app. simpl. lia.
    + apply IH. unfold accounted. simpl.
      rewrite outcomes_app, Ho, Hw, Hs, !length_app. simpl. lia.
Qed.

Lemma handle_accounted d ev : accounted d -> accounted (handle d ev).
Proof.
  intros Hd. destruct ev as [op| | |w reply]; simpl.
  - unfold queueOperation. destruct (_ && _); [|exact Hd].
    unfold processNextOperation. simpl. now apply processQueue_accounted.
  - exact Hd.
  - unfold endBatch. destruct (_ && _).
    + unfold accounted in *. simpl. rewrite outcomes_app. simpl. now rewrite app_nil_r.
    + destruct (negb _); [|exact Hd]. now apply processQueue_accounted.
  - destruct (watchers d !! w) as [description|] eqn:Ew; [|exact Hd].
    unfold onAsyncCallFinished, processNextOperation.
    assert (length (delete w (watchers d)) = pred (length (watchers d))) as Hdel.
    { rewrite length_delete by eauto. lia. }
    assert (0 < length (watchers d))%nat as Hpos by (apply lookup_lt_Some in Ew; lia).
    destruct reply as [error|value]; [|destruct (value =? 0)];
      apply processQueue_accounted; unfold accounted in *; simpl;
      rewrite outcomes_app, Hdel, length_app; simpl; lia.
Qed.

(** X20. After any sequence of enqueue, [beginBatch], [endBatch] and
    completion events on a fresh scheduler, every operation taken off the
    queue is accounted for: the [operationSucceeded] and
    [operationFailed] signals emitted and the calls in flight are as many
    as the operations taken. *)
Theorem every_operation_has_its_outcome connected evs :
  let d := run (constructed connected) evs in
  (length (outcomes (emitted d)) + length (watchers d))%nat = length (started d).
Proof.
  change (accounted (run (constructed connected) evs)).
  assert (accounted (constructed connected)) as H by reflexivity.
  revert H. generalize (constructed connected).
  induction evs as [|ev evs IH]; intros d Hd; simpl; [exact Hd|].
  apply IH. now apply handle_accounted.
Qed.

Lemma processQueue_outside_batch queue : forall d,
  m_batchMode d = false ->
  m_batchMode (processQueue queue d) = false /\
  completions (emitted (processQueue queue d)) = completions (emitted d).
Proof.
  induction queue as [|op rest IH]; intros d Hb; simpl.
  - pose proof (setOperationInProgress_fields false d) as (_ & _ & Hb' & _).
    destruct (setOperationInProgress_emitted false d) as [_ Hc].
    rewrite Hb', Hb. now rewrite Hb', Hc.
  - pose proof (setOperationInProgress_fields true d) as (_ & Hc & Hb' & _).
    destruct (setOperationInProgress_emitted true d) as [_ Hcomp].
    rewrite Hc. destruct (m_connected d); simpl.
    + now rewrite Hb', Hcomp.
    + match goal with |- context [processQueue rest ?d1] =>
        destruct (IH d1) as [-> ->]; [simpl; now rewrite Hb'|]
      end.
      simpl. rewrite completions_app, Hcomp. simpl. now rewrite app_nil_r.
Qed.

(** X21. Operations enqueued one by one, with no [beginBatch()] and no
    [endBatch()], never lead to a [batchCompleted] signal, whatever the
    replies. *)
Theorem no_batch_no_batchCompleted connected evs :
  forallb outsideBatch evs = true ->
  completions (emitted (run (constructed connected) evs)) = [].
Proof.
  intros Hevs.
  assert (m_batchMode (constructed connected) = false /\
          completions (emitted (constructed connected)) = []) as H by easy.
  revert H. generalize (constructed connected).
  induction evs as [|ev evs IH]; intros d [Hb Hc]; simpl; [exact Hc|].
  simpl in Hevs. apply andb_true_iff in Hevs as [Hev Hevs].
  apply IH; [exact Hevs|].
  destruct ev as [op| | |w reply]; try discriminate; simpl.
  - unfold queueOperation. destruct (_ && _); [|easy].
    unfold processNextOperation.
    match goal with |- context [processQueue ?q ?d1] =>
      destruct (processQueue_outside_batch q d1) as [-> ->]; [exact Hb|]
    end. easy.
  - destruct (watchers d !! w) as [description|]; [|easy].
    unfold onAsyncCallFinished, processNextOperation.
    destruct reply as [error|value]; [|destruct (value =? 0)];
      match goal with |- context [processQueue ?q ?d1] =>
        destruct (processQueue_outside_batch q d1) as [-> ->]; [exact Hb|]
      end; simpl; rewrite completions_app, Hc; easy.
Qed.

Lemma no_batch_no_batchCompleted_witness :
  completions (emitted (run (constructed true)
                          [Queue setBounds; Queue setGovernor;
                           Finished 0 (ReplyValue 0); Finished 0 (ReplyError "timeout")]))
  = [].
Proof. apply no_batch_no_batchCompleted. reflexivity. Defined.

End DbusHelperSignalsFacts.

(** ** The application *)

Module ApplicationFacts.

Import QString HelperService DbusHelper Profile Application DbusHelperFacts.

Lemma pendingOf_setStatusMessage msg a : pendingOf (setStatusMessage msg a) = pendingOf a.
Proof. unfold setStatusMessage. now destruct (String.eqb _ _). Qed.

Lemma emitted_setStatusMessage msg a :
  verdicts (Application.emitted (setStatusMessage msg a)) = verdicts (Application.emitted a).
Proof.
  unfold setStatusMessage. destruct (String.eqb _ _); [reflexivity|]. simpl.
  unfold verdicts. rewrite flat_map_app. simpl. now rewrite app_nil_r.
Qed.

Lemma verdicts_app l1 l2 : verdicts (l1 ++ l2) = verdicts l1 ++ verdicts l2.
Proof. unfold verdicts. apply flat_map_app. Qed.

Lemma onBatchCompleted_pending ok errors a :
  pendingOf (onBatchCompleted ok errors a) = pendingOf a.
Proof.
  unfold onBatchCompleted, refreshCpuInfo. destruct ok; simpl;
    unfold pendingOf; simpl;
    repeat match goal with
    | |- context [setStatusMessage ?m ?x] =>
        let H := fresh in
        pose proof (pendingOf_setStatusMessage m x) as H; unfold pendingOf in H;
        injection H as -> -> -> -> -> -> -> -> -> -> -> -> ->
    end; reflexivity.
Qed.

Lemma onBatchCompleted_verdicts ok errors a :
  verdicts (Application.emitted (onBatchCompleted ok errors a))
  = verdicts (Application.emitted a) ++ [ok].
Proof.
  unfold onBatchCompleted, refreshCpuInfo.
  destruct ok; simpl; rewrite verdicts_app, !emitted_setStatusMessage; simpl;
    rewrite verdicts_app; simpl; now rewrite app_nil_r.
Qed.

Lemma deliver_pending signals : forall a,
  pendingOf (fold_left onSignal signals a) = pendingOf a.
Proof.
  induction signals as [|sig signals IH]; intros a; simpl; [reflexivity|].
  rewrite IH. destruct sig; simpl; auto using onBatchCompleted_pending.
Qed.

Lemma deliver_verdicts signals : forall a,
  verdicts (Application.emitted (fold_left onSignal signals a))
  = verdicts (Application.emitted a) ++ List.map fst (completions signals).
Proof.
  induction signals as [|sig signals IH]; intros a; simpl; [now rewrite app_nil_r|].
  rewrite IH. destruct sig; simpl; try reflexivity.
  now rewrite onBatchCompleted_verdicts, <- app_assoc.
Qed.

Lemma dbus_callHelper f s : dbus (callHelper f s) = f (dbus s).
Proof. reflexivity. Qed.

Lemma pending_callHelper f s : pendingOf (app (callHelper f s)) = pendingOf (app s).
Proof. unfold callHelper. simpl. apply deliver_pending. Qed.

(** A call that emits nothing runs no slot. *)
Lemma callHelper_silent f s :
  DbusHelper.emitted (f (dbus s)) = DbusHelper.emitted (dbus s) ->
  callHelper f s = {| app := app s; dbus := f (dbus s) |}.
Proof. intros E. unfold callHelper. now rewrite E, drop_all. Qed.

Lemma callHelper_verdicts f s news :
  DbusHelper.emitted (f (dbus s)) = DbusHelper.emitted (dbus s) ++ news ->
  verdicts (Application.emitted (app (callHelper f s)))
  = verdicts (Application.emitted (app s)) ++ List.map fst (completions news).
Proof.
  intros E. unfold callHelper. simpl. rewrite E, drop_app_length. apply deliver_verdicts.
Qed.

Lemma queued_nil s : queued [] s = s.
Proof.
  unfold queued. rewrite app_nil_r. destruct s as [a d]. simpl. now destruct d.
Qed.

Lemma queued_queued ops1 ops2 s : queued ops2 (queued ops1 s) = queued (ops1 ++ ops2) s.
Proof. unfold queued. simpl. now rewrite app_assoc. Qed.

Lemma callHelper_queueOperation op s :
  m_batchMode (dbus s) = true -> callHelper (queueOperation op) s = queued [op] s.
Proof.
  intros Hb. rewrite callHelper_silent; unfold queueOperation; simpl;
    rewrite Hb, andb_false_r; reflexivity.
Qed.

(** The scheduler only adds to the signals it has emitted. *)
Lemma setOperationInProgress_extends b d :
  exists news, DbusHelper.emitted (setOperationInProgress b d) = DbusHelper.emitted d ++ news.
Proof.
  unfold setOperationInProgress. destruct (negb _); simpl; [eauto|].
  exists []. now rewrite app_nil_r.
Qed.

Lemma processQueue_extends queue : forall d,
  exists news, DbusHelper.emitted (processQueue queue d) = DbusHelper.emitted d ++ news.
Proof.
  induction queue as [|op rest IH]; intros d; simpl.
  - destruct (setOperationInProgress_extends false d) as [n1 E1].
    destruct (m_batchMode _); simpl; rewrite E1; [|eauto].
    rewrite <- app_assoc. eauto.
  - destruct (setOperationInProgress_extends true d) as [n1 E1].
    destruct (negb _); simpl; [|rewrite E1; eauto].
    match goal with |- context [processQueue rest ?d1] => destruct (IH d1) as [n2 E2] end.
    rewrite E2. simpl. rewrite E1, <- !app_assoc. eauto.
Qed.

Lemma handle_extends d ev :
  exists news, DbusHelper.emitted (handle d ev) = DbusHelper.emitted d ++ news.
Proof.
  assert (exists news, DbusHelper.emitted d = DbusHelper.emitted d ++ news) as Hsame
    by (exists []; now rewrite app_nil_r).
  destruct ev as [op| | |w reply]; simpl.
  - unfold queueOperation. destruct (_ && _); [|exact Hsame].
    unfold processNextOperation.
    match goal with |- context [processQueue ?q ?d1] =>
      destruct (processQueue_extends q d1) as [n E] end.
    rewrite E. simpl. eauto.
  - exact Hsame.
  - unfold endBatch. destruct (_ && _); simpl; [eauto|].
    destruct (negb _); [|exact Hsame]. apply processQueue_extends.
  - destruct (watchers d !! w); [|exact Hsame].
    unfold onAsyncCallFinished, processNextOperation.
    match goal with |- context [processQueue ?q ?d1] =>
      destruct (processQueue_extends q d1) as [n E] end.
    rewrite E. destruct reply as [error|value]; [|destruct (value =? 0)]; simpl;
      rewrite <- ?app_assoc; eauto.
Qed.

(** The verdicts of the application follow the [batchCompleted] signals
    of the scheduler. *)
Lemma callHelper_tracks f s cs :
  (exists news, DbusHelper.emitted (f (dbus s)) = DbusHelper.emitted (dbus s) ++ news) ->
  completions (DbusHelper.emitted (f (dbus s)))
  = completions (DbusHelper.emitted (dbus s)) ++ cs ->
  verdicts (Application.emitted (app (callHelper f s)))
  = verdicts (Application.emitted (app s)) ++ List.map fst cs.
Proof.
  intros [news E] Hc. rewrite (callHelper_verdicts f s news E).
  rewrite E, completions_app in Hc. apply app_inv_head in Hc. now rewrite Hc.
Qed.

Lemma dbus_finishAll replies : forall s,
  dbus (Application.finishAll replies s) = DbusHelper.finishAll replies (dbus s).
Proof.
  induction replies as [|reply replies IH]; intros s; [reflexivity|].
  change (Application.finishAll (reply :: replies) s)
    with (Application.finishAll replies (onFinished 0 reply s)).
  now rewrite IH.
Qed.

Lemma finishAll_extends replies : forall d,
  exists news, DbusHelper.emitted (DbusHelper.finishAll replies d) = DbusHelper.emitted d ++ news.
Proof.
  induction replies as [|reply replies IH]; intros d.
  - exists []. simpl. now rewrite app_nil_r.
  - change (DbusHelper.finishAll (reply :: replies) d)
      with (DbusHelper.finishAll replies (handle d (Finished 0 reply))).
    destruct (IH (handle d (Finished 0 reply))) as [n2 E2].
    destruct (handle_extends d (Finished 0 reply)) as [n1 E1].
    rewrite E2, E1, <- app_assoc. eauto.
Qed.

Lemma finishAll_verdicts replies : forall s news,
  DbusHelper.emitted (DbusHelper.finishAll replies (dbus s)) = DbusHelper.emitted (dbus s) ++ news ->
  verdicts (Application.emitted (app (Application.finishAll replies s)))
  = verdicts (Application.emitted (app s)) ++ List.map fst (completions news).
Proof.
  induction replies as [|reply replies IH]; intros s news.
  - simpl. intros E. rewrite <- (app_nil_r (DbusHelper.emitted (dbus s))) in E at 1.
    apply app_inv_head in E. subst news. simpl. now rewrite app_nil_r.
  - change (DbusHelper.finishAll (reply :: replies) (dbus s))
      with (DbusHelper.finishAll replies (handle (dbus s) (Finished 0 reply))).
    change (Application.finishAll (reply :: replies) s)
      with (Application.finishAll replies (onFinished 0 reply s)).
    intros E.
    destruct (handle_extends (dbus s) (Finished 0 reply)) as [n1 E1].
    destruct (finishAll_extends replies (handle (dbus s) (Finished 0 reply))) as [n2 E2].
    assert (news = n1 ++ n2) as ->.
    { rewrite E2, E1, <- app_assoc in E. now apply app_inv_head in E. }
    rewrite (IH (onFinished 0 reply s) n2) by exact E2.
    unfold onFinished. rewrite (callHelper_verdicts _ s n1 E1).
    now rewrite completions_app, map_app, app_assoc.
Qed.

(** A batch handed to an idle, connected scheduler, and the replies to
    its calls: the application gives its verdict with the last reply. *)
Lemma batch_verdict a d ops replies :
  idle d -> m_connected d = true -> (length replies <= length ops)%nat ->
  let s1 := callHelper endBatch
              {| app := a;
                 dbus := with_operationQueue (m_operationQueue (beginBatch d) ++ ops)
                           (beginBatch d) |} in
  dbus s1 = batch ops d /\
  verdicts (Application.emitted (app (Application.finishAll replies s1)))
  = verdicts (Application.emitted a)
    ++ (if (length replies =? length ops)%nat then [negb (existsb failed replies)] else []).
Proof.
  intros Hidle Hc Hlen.
  set (s0 := {| app := a;
                dbus := with_operationQueue (m_operationQueue (beginBatch d) ++ ops)
                          (beginBatch d) |}).
  intros s1. assert (s1 = callHelper endBatch s0) as Es by reflexivity. clearbody s1.
  assert (dbus s1 = batch ops d) as Hd1.
  { rewrite Es, dbus_callHelper. simpl. unfold batch.
    now rewrite enqueue_in_batch by reflexivity. }
  split; [exact Hd1|].
  destruct (finishAll_extends replies (dbus s1)) as [news Enews].
  rewrite (finishAll_verdicts replies s1 news Enews).
  assert (exists n0, DbusHelper.emitted (endBatch (dbus s0)) = DbusHelper.emitted (dbus s0) ++ n0)
    as Hext by apply (handle_extends _ EndBatch).
  destruct ops as [|op ops].
  - destruct replies; [|simpl in Hlen; lia].
    change (DbusHelper.finishAll [] (dbus s1)) with (dbus s1) in Enews.
    rewrite <- (app_nil_r (DbusHelper.emitted (dbus s1))) in Enews at 1.
    apply app_inv_head in Enews. subst news. simpl. rewrite app_nil_r.
    destruct Hidle as (Hq & Hp & Hw).
    rewrite Es, (callHelper_tracks endBatch s0 [(true, [])] Hext); [reflexivity|].
    simpl. unfold endBatch. simpl. rewrite Hq, Hp. simpl.
    now rewrite completions_app.
  - destruct (batch_start op ops d Hidle Hc) as (Hdr & He & Hh & Hcomp & _).
    assert (verdicts (Application.emitted (app s1)) = verdicts (Application.emitted a)) as ->.
    { rewrite Es, (callHelper_tracks endBatch s0 [] Hext); [simpl; now rewrite app_nil_r|].
      rewrite <- dbus_callHelper, <- Es, Hd1, Hcomp. simpl. now rewrite app_nil_r. }
    f_equal. rewrite Hd1 in Enews. simpl in Hlen.
    destruct (Nat.eqb_spec (length replies) (length (op :: ops))) as [Heq|Hne].
    + destruct (drain_all replies ops _ Hdr Heq) as (errors & Hall & _).
      rewrite Enews, completions_app, Hh in Hall. apply app_inv_head in Hall.
      rewrite Hall. reflexivity.
    + assert (length replies <= length ops)%nat as Hle by (simpl in Hne; lia).
      destruct (drain_some replies ops _ Hdr Hle) as (_ & _ & _ & Hsome & _).
      rewrite Enews, completions_app in Hsome.
      rewrite <- (app_nil_r (completions (DbusHelper.emitted (batch (op :: ops) d)))) in Hsome at 2.
      apply app_inv_head in Hsome. now rewrite Hsome.
Qed.

Section Apply.
Variable fuel : nat.
Variable fs : gmap string SysfsFile.

Lemma app_queued ops s : app (queued ops s) = app s.
Proof. reflexivity. Qed.

Lemma batchMode_queued ops s : m_batchMode (dbus (queued ops s)) = m_batchMode (dbus s).
Proof. reflexivity. Qed.

Ltac queue_all Hb :=
  unfold updateCpuSettingsAsync, updateCpuGovernorAsync, updateCpuEnergyPrefsAsync,
    setCpuOnlineAsync, setCpuOfflineAsync;
  repeat match goal with
         | |- context [callHelper (queueOperation ?op) ?s0] =>
             rewrite (callHelper_queueOperation op s0) by exact Hb
         end;
  rewrite ?app_queued, ?queued_queued.

Ltac split_if :=
  match goal with
  | |- context [if ?c then _ else _] =>
      lazymatch c with
      | context [if _ then _ else _] => fail
      | _ => destruct c eqn:?
      end
  end.

Lemma operationFor_switch cpu method description b :
  b && negb (cpu =? 0) = true ->
  operationFor cpu {| method := method; args := [VInt cpu]; description := description |}.
Proof.
  intros H. apply andb_true_iff in H as [_ H]. apply negb_true_iff, Z.eqb_neq in H.
  split; [|reflexivity]. unfold switchesCpu0. simpl.
  destruct cpu; [contradiction | |]; now rewrite andb_false_r.
Qed.

Ltac operations :=
  simpl;
  repeat first
    [ apply List.Forall_nil
    | apply List.Forall_cons;
      [first [ split; reflexivity | eapply operationFor_switch; eassumption ]|] ].

Ltac queued_result Hb :=
  repeat (queue_all Hb; split_if); queue_all Hb;
  intros [= <-];
  first [ exists []; split; [symmetry; apply queued_nil | operations]
        | eexists; split; [reflexivity | operations] ].

Lemma applyChangesToCpu_queues cpu s s' :
  m_batchMode (dbus s) = true ->
  applyChangesToCpu fuel fs cpu s = Some s' ->
  exists ops, s' = queued ops s /\ Forall (operationFor cpu) ops.
Proof.
  intros Hb. unfold applyChangesToCpu.
  destruct (m_hasPendingMinFreq (app s) || m_hasPendingMaxFreq (app s)).
  - destruct (if m_hasPendingMinFreq (app s) then _ else _) as [fmin|]; [|discriminate].
    destruct (if m_hasPendingMaxFreq (app s) then _ else _) as [fmax|]; [|discriminate].
    cbv zeta. queued_result Hb.
  - cbv zeta. queued_result Hb.
Qed.

Lemma forEachCpu_queues cpus : forall s s',
  m_batchMode (dbus s) = true ->
  forEachCpu (applyChangesToCpu fuel fs) cpus s = Some s' ->
  exists ops, s' = queued ops s /\
    Forall (fun op => exists cpu, In cpu cpus /\ operationFor cpu op) ops.
Proof.
  induction cpus as [|cpu cpus IH]; intros s s' Hb; simpl.
  - intros [= <-]. exists []. split; [symmetry; apply queued_nil | constructor].
  - destruct (applyChangesToCpu fuel fs cpu s) as [s1|] eqn:E1; [|discriminate].
    destruct (applyChangesToCpu_queues cpu s s1 Hb E1) as (ops1 & -> & Hops1).
    intros Hrest. apply IH in Hrest as (ops2 & -> & Hops2); [|exact Hb].
    exists (ops1 ++ ops2). split; [apply queued_queued|].
    apply Forall_app. split.
    + eapply Forall_impl; [exact Hops1|]. intros op Hop. exists cpu. split; [now left | exact Hop].
    + eapply Forall_impl; [exact Hops2|]. intros op (c & Hin & Hop). exists c.
      split; [now right | exact Hop].
Qed.

Lemma pendingOf_onApp_status msg s :
  pendingOf (app (onApp (setStatusMessage msg) s)) = pendingOf (app s).
Proof. apply pendingOf_setStatusMessage. Qed.

(** With the lists of present and online CPUs read, every read of the
    reader has a result. *)
Lemma scalingFreqs_returns cpu present online :
  SysfsReader.presentCpus fuel fs = Some present ->
  SysfsReader.onlineCpus fuel fs = Some online ->
  exists p, SysfsReader.scalingFreqs fuel fs cpu = Some p.
Proof.
  intros Hp Ho. unfold SysfsReader.scalingFreqs, SysfsReader.isOnline. rewrite Ho, Hp.
  destruct (negb _); eauto.
Qed.

Lemma availableCpus_returns present :
  SysfsReader.presentCpus fuel fs = Some present ->
  SysfsReader.availableCpus fuel fs = Some (List.filter (SysfsReader.hasCpufreq fs) present).
Proof. intros Hp. unfold SysfsReader.availableCpus. now rewrite Hp. Qed.

Lemma applyChangesToCpu_exact cpu s present online :
  m_batchMode (dbus s) = true ->
  SysfsReader.presentCpus fuel fs = Some present ->
  SysfsReader.onlineCpus fuel fs = Some online ->
  applyChangesToCpu fuel fs cpu s = Some (queued (pendingOperations fuel fs (app s) cpu) s).
Proof.
  intros Hb Hp Ho. destruct (scalingFreqs_returns cpu present online Hp Ho) as [[lo hi] E].
  unfold applyChangesToCpu, pendingOperations, SysfsReader.minFrequency,
    SysfsReader.maxFrequency.
  rewrite E. cbn [option_map default fst snd].
  fold (settingsOperation cpu) (governorOperation cpu) (energyPrefOperation cpu).
  destruct (m_hasPendingMinFreq (app s)), (m_hasPendingMaxFreq (app s)); cbn [orb];
    cbv zeta; repeat (queue_all Hb; cbn [andb]; split_if); queue_all Hb; cbn [andb];
    rewrite ?queued_nil; reflexivity.
Qed.

Lemma forEachCpu_exact present online cpus : forall s,
  m_batchMode (dbus s) = true ->
  SysfsReader.presentCpus fuel fs = Some present ->
  SysfsReader.onlineCpus fuel fs = Some online ->
  forEachCpu (applyChangesToCpu fuel fs) cpus s
  = Some (queued (flat_map (pendingOperations fuel fs (app s)) cpus) s).
Proof.
  induction cpus as [|cpu cpus IH]; intros s Hb Hp Ho; simpl.
  - now rewrite queued_nil.
  - rewrite (applyChangesToCpu_exact cpu s present online Hb Hp Ho).
    rewrite IH by assumption. now rewrite queued_queued.
Qed.

Lemma pendingOperations_pendingOf a b cpu :
  pendingOf a = pendingOf b ->
  pendingOperations fuel fs a cpu = pendingOperations fuel fs b cpu.
Proof.
  unfold pendingOf, pendingOperations.
  intros [= _ _ _ Emin Emax Egov Epref Eon Hmin Hmax Hgov Hpref Hon].
  now rewrite Emin, Emax, Egov, Epref, Eon, Hmin, Hmax, Hgov, Hpref, Hon.
Qed.

Lemma pendingOperations_for a cpu :
  Forall (operationFor cpu) (pendingOperations fuel fs a cpu).
Proof.
  unfold pendingOperations. repeat apply Forall_app_2.
  - destruct (_ || _); repeat constructor.
  - destruct (_ && _); repeat constructor.
  - destruct (_ && _ && _); repeat constructor.
  - destruct (m_hasPendingOnline a && negb (cpu =? 0)) eqn:E; [|constructor].
    constructor; [|constructor].
    destruct (m_pendingOnline a); eapply operationFor_switch; exact E.
Qed.

(** X22. Past its three checks, and with the lists of present and online
    CPUs read, [applyChanges] hands the scheduler one batch.  Its
    operations are, for the current CPU, or for each of the CPUs
    [availableCpus] gives when all are selected, in this order: the two
    bounds together when one of them is pending, the other one as the
    reader gives it; the governor when it is pending and not empty; the
    energy preference when it is pending, not empty and the CPU has
    preferences; the switch when it is pending and the CPU is not CPU 0;
    and nothing else.  It leaves nothing pending. *)
Theorem applyChanges_hands_over_one_batch s present online :
  m_hasUnsavedChanges (app s) = true ->
  m_connected (dbus s) = true ->
  m_operationInProgress (dbus s) = false ->
  SysfsReader.presentCpus fuel fs = Some present ->
  SysfsReader.onlineCpus fuel fs = Some online ->
  exists s' cpus,
    applyChanges fuel fs s = Some s' /\
    (if m_allCpusSelected (app s) then SysfsReader.availableCpus fuel fs
     else Some [m_currentCpu (app s)]) = Some cpus /\
    dbus s' = batch (flat_map (pendingOperations fuel fs (app s)) cpus) (dbus s) /\
    Forall (fun op => exists cpu, In cpu cpus /\ operationFor cpu op)
      (flat_map (pendingOperations fuel fs (app s)) cpus) /\
    pendingOf (app s')
    = (m_currentCpu (app s), m_allCpusSelected (app s), false,
       (0, 0, EmptyString, EmptyString, true), (false, false, false, false, false)).
Proof.
  intros Hu Hc Hp Hpres Honl. unfold applyChanges. rewrite Hu, Hc, Hp. simpl negb. cbv iota.
  set (s0 := onApp (setStatusMessage "Applying changes...") s).
  assert (pendingOf (app s0) = pendingOf (app s)) as Hpend by apply pendingOf_onApp_status.
  assert (dbus s0 = dbus s) as Hd0 by reflexivity.
  assert (forall cpu, pendingOperations fuel fs (app s0) cpu
                      = pendingOperations fuel fs (app s) cpu) as Hops.
  { intros cpu. now apply pendingOperations_pendingOf. }
  clearbody s0.
  assert (m_allCpusSelected (app s0) = m_allCpusSelected (app s)
          /\ m_currentCpu (app s0) = m_currentCpu (app s)) as [-> ->]
    by (unfold pendingOf in Hpend; split; congruence).
  rewrite (availableCpus_returns present Hpres).
  set (cpus := if m_allCpusSelected (app s)
               then List.filter (SysfsReader.hasCpufreq fs) present
               else [m_currentCpu (app s)]).
  assert ((if m_allCpusSelected (app s)
           then Some (List.filter (SysfsReader.hasCpufreq fs) present)
           else Some [m_currentCpu (app s)]) = Some cpus) as ->
    by (subst cpus; now destruct (m_allCpusSelected (app s))).
  rewrite callHelper_silent by reflexivity.
  match goal with |- context [forEachCpu _ cpus ?x] => set (s1 := x) end.
  rewrite (forEachCpu_exact present online cpus s1 eq_refl Hpres Honl).
  assert (flat_map (pendingOperations fuel fs (app s1)) cpus
          = flat_map (pendingOperations fuel fs (app s)) cpus) as ->.
  { subst s1. cbn [app]. apply flat_map_ext. exact Hops. }
  eexists _, cpus. split; [reflexivity|]. split; [reflexivity|].
  split; [|split].
  - rewrite dbus_callHelper. unfold batch.
    rewrite enqueue_in_batch by reflexivity. subst s1. simpl. now rewrite Hd0.
  - apply List.Forall_flat_map. apply List.Forall_forall. intros cpu Hin.
    eapply List.Forall_impl; [|apply pendingOperations_for].
    intros op Hop. exists cpu. split; [exact Hin | exact Hop].
  - rewrite pending_callHelper.
    unfold pendingOf in Hpend. injection Hpend as Hcur Hall _ _ _ _ _ _ _ _ _ _ _.
    subst s1. unfold onApp, queued, setUnsavedChanges, clearPendingChanges.
    cbn [app m_hasUnsavedChanges].
    destruct (Bool.eqb (m_hasUnsavedChanges (app s0)) false) eqn:E; unfold pendingOf;
      cbn; rewrite Hcur, Hall; [|reflexivity].
    apply Bool.eqb_prop in E. now rewrite E.
Qed.

(** X23. When one of its three checks fails, [applyChanges] leaves the
    scheduler and what is pending as they are. *)
Theorem applyChanges_checks_first s :
  m_hasUnsavedChanges (app s) = false \/ m_connected (dbus s) = false \/
  m_operationInProgress (dbus s) = true ->
  exists s', applyChanges fuel fs s = Some s' /\
    dbus s' = dbus s /\ pendingOf (app s') = pendingOf (app s).
Proof.
  intros Hcheck. unfold applyChanges.
  destruct (m_hasUnsavedChanges (app s)); simpl.
  - destruct (m_connected (dbus s)); simpl.
    + destruct (m_operationInProgress (dbus s)); simpl.
      * eexists. split; [reflexivity|]. split; [reflexivity|].
        apply pendingOf_setStatusMessage.
      * destruct Hcheck as [H|[H|H]]; discriminate.
    + eexists. split; [reflexivity|]. split; [reflexivity|]. simpl.
      apply pendingOf_setStatusMessage.
  - eexists. split; [reflexivity|]. split; [reflexivity|].
    apply pendingOf_setStatusMessage.
Qed.

(** X24. With [applyChanges] past its checks on an idle scheduler, and however
    many operations it handed over: the application gives no verdict
    before the last reply, and with the last reply exactly one, which is
    [applySuccess] when no reply failed and [applyFailed] otherwise.  With
    no operation handed over the verdict is [applySuccess], at once. *)
Theorem applyChanges_one_verdict s s' :
  m_hasUnsavedChanges (app s) = true ->
  m_connected (dbus s) = true ->
  idle (dbus s) ->
  applyChanges fuel fs s = Some s' ->
  exists ops,
    dbus s' = batch ops (dbus s) /\
    forall replies, (length replies <= length ops)%nat ->
      verdicts (Application.emitted (app (Application.finishAll replies s')))
      = verdicts (Application.emitted (app s))
        ++ (if (length replies =? length ops)%nat
            then [negb (existsb failed replies)] else []).
Proof.
  intros Hu Hc Hidle Hrun.
  assert (m_operationInProgress (dbus s) = false) as Hp by apply Hidle.
  unfold applyChanges in Hrun. rewrite Hu, Hc, Hp in Hrun. simpl negb in Hrun. cbv iota in Hrun.
  set (s0 := onApp (setStatusMessage "Applying changes...") s) in Hrun.
  destruct (if m_allCpusSelected (app s0) then _ else _) as [cpus|]; [|discriminate].
  rewrite callHelper_silent in Hrun by reflexivity.
  match type of Hrun with context [forEachCpu _ cpus ?x] => set (s1 := x) in Hrun end.
  destruct (forEachCpu (applyChangesToCpu fuel fs) cpus s1) as [s2|] eqn:Eloop; [|discriminate].
  destruct (forEachCpu_queues cpus s1 s2 eq_refl Eloop) as (ops & -> & _).
  injection Hrun as <-. exists ops.
  match goal with |- context [callHelper endBatch ?sq] => set (a := app sq) end.
  assert (verdicts (Application.emitted a) = verdicts (Application.emitted (app s))) as Ha.
  { subst a. simpl. unfold setUnsavedChanges.
    destruct (Bool.eqb _ _); simpl; rewrite ?verdicts_app; simpl;
      rewrite ?app_nil_r; apply emitted_setStatusMessage. }
  split.
  - apply (batch_verdict a (dbus s) ops [] Hidle Hc). simpl. lia.
  - intros replies Hlen.
    destruct (batch_verdict a (dbus s) ops replies Hidle Hc Hlen) as [_ Hv].
    rewrite <- Ha. exact Hv.
Qed.

Lemma applyEntry_exact cpu entry s available :
  m_batchMode (dbus s) = true ->
  SysfsReader.availableCpus fuel fs = Some available ->
  applyEntry fuel fs cpu entry s = Some (queued (entryOperations fs available cpu entry) s).
Proof.
  intros Hb Hav. unfold applyEntry, entryOperations. rewrite Hav.
  fold (settingsOperation cpu) (governorOperation cpu) (energyPrefOperation cpu).
  destruct (containsInt available cpu); cbn [negb]; [|now rewrite queued_nil].
  destruct (cpu =? 0), (online entry); cbn [negb andb];
    repeat (queue_all Hb; cbn [andb]; split_if); queue_all Hb; cbn [andb];
    rewrite ?queued_nil; reflexivity.
Qed.

Lemma forEachEntry_exact available entries : forall s,
  m_batchMode (dbus s) = true ->
  SysfsReader.availableCpus fuel fs = Some available ->
  forEachEntry fuel fs entries s
  = Some (queued (flat_map (fun kv => entryOperations fs available (fst kv) (snd kv)) entries)
            s).
Proof.
  induction entries as [|[cpu entry] entries IH]; intros s Hb Hav; simpl.
  - now rewrite queued_nil.
  - rewrite (applyEntry_exact cpu entry s available Hb Hav).
    rewrite IH by assumption. now rewrite queued_queued.
Qed.

Lemma entryOperations_of available cpu entry :
  SysfsReader.availableCpus fuel fs = Some available ->
  Forall (operationOf fuel fs cpu entry) (entryOperations fs available cpu entry).
Proof.
  intros Hav. unfold entryOperations.
  destruct (containsInt available cpu) eqn:Ein; cbn [negb]; [|constructor].
  assert (forall op, operationFor cpu op ->
            (online entry = false -> cpu <> 0 -> method op = "set_cpu_offline") ->
            operationOf fuel fs cpu entry op) as Hop.
  { intros op H1 H2. split; [exact H1|]. split; [eauto | exact H2]. }
  destruct (Z.eqb_spec cpu 0) as [E0|E0]; cbn [negb andb].
  - repeat first
      [ apply List.Forall_nil
      | apply List.Forall_cons;
        [apply Hop; [split; reflexivity | intros _ Hne; contradiction]|]
      | apply Forall_app_2
      | match goal with |- Forall _ (if ?c then _ else _) => destruct c end ].
  - assert (true && negb (cpu =? 0) = true) as Hsw.
    { simpl. now apply negb_true_iff, Z.eqb_neq. }
    destruct (online entry) eqn:Eon; cbn [negb].
    + repeat first
        [ apply List.Forall_nil
        | apply List.Forall_cons;
          [apply Hop;
           [first [split; reflexivity | eapply operationFor_switch; exact Hsw]
           | intros Hoff; discriminate]|]
        | apply Forall_app_2
        | match goal with |- Forall _ (if ?c then _ else _) => destruct c end ].
    + constructor; [|constructor]. apply Hop; [|reflexivity].
      eapply operationFor_switch; exact Hsw.
Qed.

(** X25. Past its checks, and with the available CPUs read, [applyProfile]
    hands the scheduler one batch.  Its operations are those of the
    entries of the profile, in their order: none for a CPU that
    [availableCpus] does not list; [set_cpu_offline] and nothing else for
    an entry that is offline, of a CPU other than 0; otherwise the switch
    on, for a CPU other than 0, the bounds when both are positive, the
    governor when it is not empty, and the energy preference when it is
    not empty and the CPU has preferences.  None of them switches CPU 0.
    What is pending in the application stays pending.  With the replies
    to the calls the application gives one verdict, as for
    [applyChanges]. *)
Theorem applyProfile_hands_over_one_batch profileName profile s available :
  m_connected (dbus s) = true ->
  m_operationInProgress (dbus s) = false ->
  SysfsReader.availableCpus fuel fs = Some available ->
  exists s',
    applyProfile fuel fs profileName (Some profile) s = Some s' /\
    dbus s' = batch (profileOperations fs available profile) (dbus s) /\
    Forall (fun op => exists cpu entry,
              In (cpu, entry) (settings profile) /\ operationOf fuel fs cpu entry op)
      (profileOperations fs available profile) /\
    (forall cpu entry,
       In (cpu, entry) (settings profile) -> containsInt available cpu = true ->
       cpu <> 0 -> online entry = false ->
       In (offlineOperation cpu) (profileOperations fs available profile)) /\
    pendingOf (app s') = pendingOf (app s) /\
    (idle (dbus s) ->
     forall replies,
       (length replies <= length (profileOperations fs available profile))%nat ->
       verdicts (Application.emitted (app (Application.finishAll replies s')))
       = verdicts (Application.emitted (app s))
         ++ (if (length replies =? length (profileOperations fs available profile))%nat
             then [negb (existsb failed replies)] else [])).
Proof.
  intros Hc Hp Hav. unfold applyProfile. rewrite Hc, Hp. simpl negb. cbv iota.
  set (s0 := onApp (setStatusMessage ("Applying profile: " +:+ profileName)) s).
  assert (pendingOf (app s0) = pendingOf (app s)) as Hpend by apply pendingOf_onApp_status.
  assert (verdicts (Application.emitted (app s0)) = verdicts (Application.emitted (app s)))
    as Hv0 by apply emitted_setStatusMessage.
  assert (dbus s0 = dbus s) as Hd0 by reflexivity.
  clearbody s0.
  rewrite callHelper_silent by reflexivity.
  match goal with |- context [forEachEntry _ _ _ ?x] => set (s1 := x) end.
  rewrite (forEachEntry_exact available (settings profile) s1 eq_refl Hav).
  fold (profileOperations fs available profile).
  eexists. split; [reflexivity|].
  split; [|split; [|split; [|split]]].
  - rewrite dbus_callHelper. unfold batch.
    rewrite enqueue_in_batch by reflexivity. subst s1. simpl. now rewrite Hd0.
  - unfold profileOperations. apply List.Forall_flat_map. apply List.Forall_forall.
    intros [cpu entry] Hin.
    eapply List.Forall_impl; [|apply (entryOperations_of available cpu entry Hav)].
    intros op Hop. exists cpu, entry. split; [exact Hin | exact Hop].
  - intros cpu entry Hin Hcont Hcpu Hoff.
    unfold profileOperations. apply List.in_flat_map. exists (cpu, entry).
    split; [exact Hin|]. unfold entryOperations. cbn [fst snd]. rewrite Hcont, Hoff.
    destruct (Z.eqb_spec cpu 0); [contradiction|]. now left.
  - rewrite pending_callHelper. exact Hpend.
  - intros Hidle replies Hlen.
    destruct (batch_verdict (app s0) (dbus s) (profileOperations fs available profile)
                replies Hidle Hc Hlen) as [_ Hv].
    rewrite <- Hv0, <- Hv. subst s1. unfold queued. simpl. now rewrite Hd0.
Qed.

(** X26. A pending switch of CPU 0, alone: [applyChanges] sends nothing, and
    the application reports [applySuccess]. *)
Theorem lone_switch_of_cpu0_is_reported_applied s :
  m_hasUnsavedChanges (app s) = true ->
  m_connected (dbus s) = true ->
  idle (dbus s) ->
  m_allCpusSelected (app s) = false ->
  m_currentCpu (app s) = 0 ->
  m_hasPendingMinFreq (app s) = false -> m_hasPendingMaxFreq (app s) = false ->
  m_hasPendingGovernor (app s) = false -> m_hasPendingEnergyPref (app s) = false ->
  exists s',
    applyChanges fuel fs s = Some s' /\
    calls (dbus s') = calls (dbus s) /\ started (dbus s') = started (dbus s) /\
    idle (dbus s') /\
    verdicts (Application.emitted (app s'))
    = verdicts (Application.emitted (app s)) ++ [true].
Proof.
  intros Hu Hc Hidle Hall Hcur Hmin Hmax Hgov Hpref.
  assert (m_operationInProgress (dbus s) = false) as Hp by apply Hidle.
  unfold applyChanges. rewrite Hu, Hc, Hp. simpl negb. cbv iota.
  set (s0 := onApp (setStatusMessage "Applying changes...") s).
  assert (pendingOf (app s0) = pendingOf (app s)) as Hpend by apply pendingOf_onApp_status.
  assert (verdicts (Application.emitted (app s0)) = verdicts (Application.emitted (app s)))
    as Hv0 by apply emitted_setStatusMessage.
  assert (dbus s0 = dbus s) as Hd0 by reflexivity.
  clearbody s0.
  unfold pendingOf in Hpend.
  injection Hpend as Ecur Eall _ _ _ _ _ _ Emin Emax Egov Epref _.
  rewrite Eall, Hall, Ecur, Hcur.
  rewrite callHelper_silent by reflexivity.
  simpl forEachCpu. unfold applyChangesToCpu. cbn [app].
  rewrite Emin, Emax, Hmin, Hmax. cbn [orb app]. rewrite Egov, Hgov. cbn [andb app].
  rewrite Epref, Hpref. cbn [andb app].
  change (0 =? 0) with true. cbn [negb]. rewrite andb_false_r.
  eexists. split; [reflexivity|].
  destruct Hidle as (Hq & _ & Hw).
  rewrite dbus_callHelper. simpl. unfold endBatch. simpl. rewrite Hd0, Hq, Hp. simpl.
  unfold idle. simpl. rewrite Hq, Hp, Hw.
  split; [reflexivity|]. split; [reflexivity|]. split; [easy|].
  rewrite drop_app_length.
  change (fold_left onSignal [batchCompleted true []] ?a) with (onBatchCompleted true [] a).
  rewrite onBatchCompleted_verdicts.
  f_equal. rewrite <- Hv0. unfold setUnsavedChanges.
  destruct (Bool.eqb _ _); simpl; rewrite ?verdicts_app; simpl;
    rewrite ?app_nil_r; reflexivity.
Qed.

End Apply.

(** *** Runs on a concrete machine *)

Example editing_run :
  match applyChanges 8 twoCpus editing with
  | Some s' =>
      List.map method (calls (dbus s') ++ m_operationQueue (dbus s'))
      = ["update_cpu_settings"; "update_cpu_governor";
         "update_cpu_settings"; "update_cpu_governor"] /\
      verdicts (Application.emitted
                  (app (Application.finishAll
                          [ReplyValue 0; ReplyValue 0; ReplyValue (-13); ReplyValue 0] s')))
      = [false]
  | None => False
  end.
Proof. vm_compute. split; reflexivity. Qed.

Example quiet_run :
  match applyProfile 8 twoCpus "Quiet" (Some quiet) {| app := declared; dbus := constructed true |} with
  | Some s' =>
      List.map description (calls (dbus s') ++ m_operationQueue (dbus s'))
      = ["Set CPU 0 frequency 800000-2000000 kHz"; "Set CPU 0 governor to powersave";
         "Set CPU 1 offline"]
  | None => False
  end.
Proof. vm_compute. reflexivity. Qed.

Lemma applyChanges_hands_over_one_batch_witness :
  exists s',
    applyChanges 8 twoCpus editing = Some s' /\
    dbus s'
    = batch [settingsOperation 0 1000000 3000000; governorOperation 0 "performance";
             settingsOperation 1 1000000 3000000; governorOperation 1 "performance"]
        (constructed true).
Proof.
  assert (SysfsReader.presentCpus 8 twoCpus = Some [0; 1]) as Hp by (vm_compute; reflexivity).
  assert (SysfsReader.onlineCpus 8 twoCpus = Some [0; 1]) as Ho by (vm_compute; reflexivity).
  destruct (applyChanges_hands_over_one_batch 8 twoCpus editing [0; 1] [0; 1]
              eq_refl eq_refl eq_refl Hp Ho) as (s' & cpus & Hrun & Hcpus & Hd & _).
  exists s'. split; [exact Hrun|]. rewrite Hd.
  vm_compute in Hcpus. injection Hcpus as <-. vm_compute. reflexivity.
Defined.

Lemma applyChanges_checks_first_witness :
  exists s', applyChanges 8 twoCpus {| app := declared; dbus := constructed true |} = Some s' /\
    dbus s' = constructed true /\ pendingOf (app s') = pendingOf declared.
Proof.
  apply (applyChanges_checks_first 8 twoCpus {| app := declared; dbus := constructed true |}).
  left. reflexivity.
Defined.

Lemma applyChanges_one_verdict_witness :
  exists s' ops,
    applyChanges 8 twoCpus editing = Some s' /\
    dbus s' = batch ops (constructed true) /\
    forall replies, (length replies <= length ops)%nat ->
      verdicts (Application.emitted (app (Application.finishAll replies s')))
      = verdicts (Application.emitted (app editing))
        ++ (if (length replies =? length ops)%nat
            then [negb (existsb failed replies)] else []).
Proof.
  destruct (applyChanges 8 twoCpus editing) as [s'|] eqn:E.
  - assert (idle (constructed true)) as Hidle by (repeat split).
    destruct (applyChanges_one_verdict 8 twoCpus editing s' eq_refl eq_refl Hidle E)
      as (ops & Hd & Hv).
    exists s', ops. repeat split; assumption.
  - vm_compute in E. discriminate E.
Defined.

Lemma applyProfile_hands_over_one_batch_witness :
  exists s',
    applyProfile 8 twoCpus "Quiet" (Some quiet) {| app := declared; dbus := constructed true |}
    = Some s' /\
    dbus s'
    = batch [settingsOperation 0 800000 2000000; governorOperation 0 "powersave";
             offlineOperation 1]
        (constructed true).
Proof.
  assert (SysfsReader.availableCpus 8 twoCpus = Some [0; 1]) as Hav
    by (vm_compute; reflexivity).
  destruct (applyProfile_hands_over_one_batch 8 twoCpus "Quiet" quiet
              {| app := declared; dbus := constructed true |} [0; 1]
              eq_refl eq_refl Hav) as (s' & Hrun & Hd & _).
  exists s'. split; [exact Hrun|]. rewrite Hd. vm_compute. reflexivity.
Defined.

Lemma lone_switch_of_cpu0_is_reported_applied_witness :
  exists s',
    applyChanges 8 twoCpus switching = Some s' /\
    calls (dbus s') = [] /\
    verdicts (Application.emitted (app s')) = [true].
Proof.
  assert (idle (constructed true)) as Hidle by (repeat split).
  destruct (lone_switch_of_cpu0_is_reported_applied 8 twoCpus switching
              eq_refl eq_refl Hidle eq_refl eq_refl eq_refl eq_refl eq_refl eq_refl)
    as (s' & Hrun & Hcalls & _ & _ & Hv).
  exists s'. repeat split; assumption.
Defined.

End ApplicationFacts.

(** ** Profiles and their files *)

Module ProfileManagerFacts.

Import QString HelperService Profile ProfileManager QStringFacts.

(** *** Strings *)

Lemma append_cons x (a b : string) : String x a +:+ b = String x (a +:+ b).
Proof. reflexivity. Qed.

Lemma append_nil_l (b : string) : EmptyString +:+ b = b.
Proof. reflexivity. Qed.

Lemma append_assoc (a b c : string) : (a +:+ b) +:+ c = a +:+ (b +:+ c).
Proof.
  induction a as [|x a IH]; [reflexivity|]. rewrite !append_cons. now rewrite IH.
Qed.

Lemma append_nil_r (a : string) : a +:+ EmptyString = a.
Proof. induction a as [|x a IH]; [reflexivity|]. rewrite append_cons. now rewrite IH. Qed.

Lemma without_app f a b : without f (a +:+ b) = without f a && without f b.
Proof.
  induction a as [|x a IH]; [reflexivity|]. rewrite append_cons. simpl.
  destruct (f x); simpl; [reflexivity | exact IH].
Qed.

Lemma splitAt_nonempty f s : splitAt f s <> [].
Proof.
  induction s as [|c s IH]; simpl; [discriminate|].
  destruct (f c); [discriminate|]. destruct (splitAt f s); discriminate.
Qed.

(** A string without separator, a separator, the rest: the string is
    the first piece. *)
Lemma splitAt_first f w c rest :
  without f w = true -> f c = true ->
  splitAt f (w +:+ String c rest) = w :: splitAt f rest.
Proof.
  intros Hw Hc. induction w as [|x w IH].
  - rewrite append_nil_l. simpl. now rewrite Hc.
  - simpl in Hw. apply andb_true_iff in Hw as [Hx Hw]. apply negb_true_iff in Hx.
    rewrite append_cons. simpl. rewrite Hx, IH by assumption. reflexivity.
Qed.

Lemma splitAt_whole f w : without f w = true -> splitAt f w = [w].
Proof.
  induction w as [|x w IH]; simpl; [reflexivity|].
  intros Hw. apply andb_true_iff in Hw as [Hx Hw]. apply negb_true_iff in Hx.
  now rewrite Hx, IH.
Qed.

Lemma trimRight_last a c :
  isSpace c = false -> trimRight (a +:+ String c EmptyString) = a +:+ String c EmptyString.
Proof.
  intros Hc. induction a as [|x a IH].
  - simpl. now rewrite Hc.
  - rewrite append_cons. simpl. rewrite IH. destruct (a +:+ String c EmptyString) eqn:E.
    + destruct a; discriminate.
    + simpl. now rewrite andb_false_r.
Qed.

Lemma trimLeft_first c r : isSpace c = false -> trimLeft (String c r) = String c r.
Proof. intros H. simpl. now rewrite H. Qed.

Lemma length_trimLeft s : (String.length (trimLeft s) <= String.length s)%nat.
Proof.
  induction s as [|c s IH]; simpl; [lia|]. destruct (isSpace c); simpl; lia.
Qed.

Lemma length_trimRight s : (String.length (trimRight s) <= String.length s)%nat.
Proof.
  induction s as [|c s IH]; simpl; [lia|].
  destruct (isSpace c && isEmpty (trimRight s)); simpl; lia.
Qed.

Lemma trimLeft_same_length s :
  String.length (trimLeft s) = String.length s -> trimLeft s = s.
Proof.
  destruct s as [|c s]; simpl; [reflexivity|].
  destruct (isSpace c); [|reflexivity].
  pose proof (length_trimLeft s). lia.
Qed.

(** A string that [trimmed] leaves as it is has no white space at
    either end. *)
Lemma trimmed_fixed s :
  trimmed s = s -> trimLeft s = s /\ trimRight s = s.
Proof.
  intros H. unfold trimmed in H.
  assert (trimLeft s = s) as Hl.
  { apply trimLeft_same_length.
    pose proof (length_trimLeft s). pose proof (length_trimRight (trimLeft s)).
    rewrite H in *. lia. }
  split; [exact Hl|]. now rewrite Hl in H.
Qed.

Lemma trimRight_app a b :
  isEmpty b = false -> trimRight b = b -> trimRight (a +:+ b) = a +:+ b.
Proof.
  intros Hne Hb. induction a as [|x a IH]; [exact Hb|].
  rewrite append_cons. simpl. rewrite IH. destruct (a +:+ b) eqn:E.
  - destruct a; [rewrite append_nil_l in E; subst; discriminate | discriminate].
  - simpl. now rewrite andb_false_r.
Qed.

(** *** Numbers as the stream prints them *)

Lemma digits_string_of_uint d :
  without (fun c => negb (isDigit c)) (NilEmpty.string_of_uint d) = true.
Proof. induction d; simpl; auto. Qed.

Lemma digits_number z :
  0 <= z -> without (fun c => negb (isDigit c)) (number z) = true /\ isEmpty (number z) = false.
Proof.
  intros Hz. unfold number. destruct z as [|p|p]; [split; reflexivity | | lia].
  simpl. unfold NilZero.string_of_uint.
  pose proof (digits_string_of_uint (Pos.to_uint p)) as H.
  pose proof (Unsigned.to_uint_nonnil p) as Hnil.
  destruct (Pos.to_uint p); try contradiction; split; try exact H; reflexivity.
Qed.

Lemma without_weaken (f g : ascii -> bool) s :
  (forall c, g c = true -> f c = true) -> without f s = true -> without g s = true.
Proof.
  intros Hfg. induction s as [|c s IH]; simpl; [reflexivity|].
  intros H. apply andb_true_iff in H as [Hc Hs]. rewrite IH by assumption.
  destruct (g c) eqn:E; [|reflexivity]. apply Hfg in E. now rewrite E in Hc.
Qed.

Lemma contains_without ch s :
  without (fun c => Ascii.eqb c ch) s = true -> contains ch s = false.
Proof.
  induction s as [|c s IH]; simpl; [reflexivity|].
  intros H. apply andb_true_iff in H as [Hc Hs]. apply negb_true_iff in Hc.
  now rewrite Hc, IH.
Qed.

Ltac by_cases_on_char :=
  let c := fresh "c" in
  intros c; destruct c as [[] [] [] [] [] [] [] []]; vm_compute; congruence.

Lemma digit_not_space : forall c, isSpace c = true -> negb (isDigit c) = true.
Proof. by_cases_on_char. Qed.
Lemma digit_not_regexSpace : forall c, isRegexSpace c = true -> negb (isDigit c) = true.
Proof. by_cases_on_char. Qed.
Lemma digit_not_lf : forall c, Ascii.eqb "010" c = true -> negb (isDigit c) = true.
Proof. by_cases_on_char. Qed.
Lemma digit_not_minus : forall c, Ascii.eqb c "-" = true -> negb (isDigit c) = true.
Proof. by_cases_on_char. Qed.
Lemma digit_not_comma : forall c, Ascii.eqb c "," = true -> negb (isDigit c) = true.
Proof. by_cases_on_char. Qed.
Lemma digit_not_hash : forall c, Ascii.eqb c "#" = true -> negb (isDigit c) = true.
Proof. by_cases_on_char. Qed.
Lemma regexSpace_lf : forall c, Ascii.eqb "010" c = true -> isRegexSpace c = true.
Proof. by_cases_on_char. Qed.

(** What a number that is not negative looks like. *)
Lemma number_word z :
  0 <= z ->
  exists d r,
    number z = String d r /\ isSpace d = false /\ Ascii.eqb d "#" = false /\
    without isRegexSpace (number z) = true /\
    without (Ascii.eqb "010") (number z) = true /\
    contains "-" (number z) = false /\ contains "," (number z) = false /\
    String.eqb (number z) "-" = false.
Proof.
  intros Hz. destruct (digits_number z Hz) as [Hd Hne].
  destruct (number z) as [|d r] eqn:E; [discriminate|].
  exists d, r. split; [reflexivity|].
  assert (isDigit d = true) as Hdig.
  { simpl in Hd. apply andb_true_iff in Hd as [Hd _]. now apply negb_true_iff, negb_false_iff in Hd. }
  split.
  { destruct (isSpace d) eqn:Es; [|reflexivity].
    apply digit_not_space in Es. now rewrite Hdig in Es. }
  split.
  { destruct (Ascii.eqb d "#") eqn:Es; [|reflexivity].
    apply digit_not_hash in Es. now rewrite Hdig in Es. }
  split; [exact (without_weaken _ _ _ digit_not_regexSpace Hd)|].
  split; [exact (without_weaken _ _ _ digit_not_lf Hd)|].
  split; [apply contains_without; exact (without_weaken _ _ _ digit_not_minus Hd)|].
  split; [apply contains_without; exact (without_weaken _ _ _ digit_not_comma Hd)|].
  apply String.eqb_neq. intros [= -> _]. discriminate Hdig.
Qed.

Lemma toLongLong_number z :
  LLONG_MIN <= z <= LLONG_MAX -> toLongLong (number z) = z.
Proof.
  intros Hz. unfold toLongLong. rewrite trimmed_plain by apply plain_number.
  rewrite parseDecimal_number.
  destruct (Z.leb_spec LLONG_MIN z); [|lia]. destruct (Z.leb_spec z LLONG_MAX); [|lia].
  reflexivity.
Qed.

(** *** The map of the settings *)

Lemma insert_last key entry : forall m,
  Forall (fun kv => fst kv < key) m ->
  insert key entry m = m ++ [(key, entry)].
Proof.
  induction m as [|[k e] rest IH]; intros Hall; simpl; [reflexivity|].
  apply Forall_cons_1 in Hall as [Hk Hrest]. simpl in Hk.
  destruct (Z.ltb_spec key k); [lia|]. destruct (Z.eqb_spec key k); [lia|].
  now rewrite IH.
Qed.

Lemma ascending_before key entry : forall done rest,
  ascending (done ++ (key, entry) :: rest) -> Forall (fun kv => fst kv < key) done.
Proof.
  induction done as [|[k e] done IH]; intros rest; simpl; [constructor|].
  intros [Hk Hrest]. constructor.
  - apply Forall_app in Hk as [_ Hk]. apply Forall_cons_1 in Hk as [Hk _]. exact Hk.
  - eapply IH. exact Hrest.
Qed.

Lemma insert_keys_above key entry k : forall m,
  k < key -> Forall (fun kv => k < fst kv) m ->
  Forall (fun kv => k < fst kv) (insert key entry m).
Proof.
  induction m as [|[k' e'] rest IH]; intros Hk Hall; simpl.
  - repeat constructor. exact Hk.
  - apply Forall_cons_1 in Hall as [Hk' Hrest].
    destruct (key <? k'); [constructor; [exact Hk | constructor; assumption]|].
    destruct (key =? k'); constructor; auto.
Qed.

Lemma insert_ascending key entry : forall m,
  ascending m -> ascending (insert key entry m).
Proof.
  induction m as [|[k e] rest IH]; simpl; [intros _; split; constructor|].
  intros [Hk Hrest].
  destruct (Z.ltb_spec key k) as [Hlt|Hge]; simpl.
  - split; [|split; assumption].
    constructor; [exact Hlt|]. eapply Forall_impl; [exact Hk|]. simpl. intros; lia.
  - destruct (Z.eqb_spec key k) as [->|Hne]; simpl.
    + split; assumption.
    + split; [|now apply IH]. apply insert_keys_above; [lia | exact Hk].
Qed.

Lemma insert_Forall (P : Z * CpuProfileEntry -> Prop) key entry : forall m,
  P (key, entry) -> Forall P m -> Forall P (insert key entry m).
Proof.
  induction m as [|[k e] rest IH]; intros Hp Hall; simpl.
  - repeat constructor. exact Hp.
  - apply Forall_cons_1 in Hall as [Hk Hrest].
    destruct (key <? k); [constructor; [exact Hp | constructor; assumption]|].
    destruct (key =? k); constructor; auto.
Qed.

(** The settings [createProfile] collects are a map: their keys ascend,
    each entry is under its own CPU number, and is one of those given. *)
Lemma collect_map (P : CpuProfileEntry -> Prop) cpuSettings :
  Forall P cpuSettings ->
  ascending (collect cpuSettings) /\
  Forall (fun kv => fst kv = cpu (snd kv) /\ P (snd kv)) (collect cpuSettings).
Proof.
  unfold collect.
  assert (forall acc,
            Forall P cpuSettings ->
            ascending acc /\ Forall (fun kv => fst kv = cpu (snd kv) /\ P (snd kv)) acc ->
            let r := fold_left (fun settings entry => insert (cpu entry) entry settings)
                       cpuSettings acc in
            ascending r /\ Forall (fun kv => fst kv = cpu (snd kv) /\ P (snd kv)) r) as H.
  { induction cpuSettings as [|e es IH]; intros acc Hall [Ha Hf]; simpl; [easy|].
    apply Forall_cons_1 in Hall as [He Hes].
    apply IH; [exact Hes|]. split; [now apply insert_ascending|].
    apply insert_Forall; [easy | exact Hf]. }
  intros Hall. apply H; [exact Hall|]. split; [exact I | constructor].
Qed.

(** *** One line of settings *)

Lemma wrapLongLong_small z : LLONG_MIN <= z <= LLONG_MAX -> wrapLongLong z = z.
Proof.
  unfold LLONG_MIN, LLONG_MAX, wrapLongLong. intros Hz.
  rewrite Z.mod_small by lia. lia.
Qed.

Lemma whole_MHz f :
  0 < f <= LLONG_MAX -> f mod 1000 = 0 ->
  0 < Z.quot f 1000 /\ LLONG_MIN <= Z.quot f 1000 <= LLONG_MAX /\
  wrapLongLong (Z.quot f 1000 * 1000) = f.
Proof.
  intros Hf Hmod. rewrite Z.quot_div_nonneg by lia.
  assert (f = 1000 * (f / 1000)) as E by (apply Z.div_exact; lia).
  unfold LLONG_MIN, LLONG_MAX in *.
  assert (0 < f / 1000) by lia. assert (f / 1000 <= f) by lia.
  split; [lia|]. split; [lia|].
  rewrite wrapLongLong_small; unfold LLONG_MIN, LLONG_MAX; lia.
Qed.

Lemma tab_then (rest : string) : TAB +:+ rest = String "009" rest.
Proof. reflexivity. Qed.

(** The pieces of the line of an entry. *)
Lemma entryBody_pieces e :
  0 <= cpu e -> 0 <= Z.quot (freqMin e) 1000 -> 0 <= Z.quot (freqMax e) 1000 ->
  without isRegexSpace (governor e) = true ->
  splitAt isRegexSpace (entryBody e)
  = [decimal (cpu e); decimal (Z.quot (freqMin e) 1000); decimal (Z.quot (freqMax e) 1000);
     governor e; if online e then "y" else "n"].
Proof.
  intros Hc Hmin Hmax Hg. unfold entryBody, decimal.
  destruct (number_word _ Hc) as (_ & _ & _ & _ & _ & Wc & _).
  destruct (number_word _ Hmin) as (_ & _ & _ & _ & _ & Wmin & _).
  destruct (number_word _ Hmax) as (_ & _ & _ & _ & _ & Wmax & _).
  fold (number (cpu e)) (number (Z.quot (freqMin e) 1000)) (number (Z.quot (freqMax e) 1000)).
  rewrite !tab_then.
  rewrite (splitAt_first isRegexSpace _ "009"%char _ Wc eq_refl).
  rewrite (splitAt_first isRegexSpace _ "009"%char _ Wmin eq_refl).
  rewrite (splitAt_first isRegexSpace _ "009"%char _ Wmax eq_refl).
  rewrite (splitAt_first isRegexSpace _ "009"%char _ Hg eq_refl).
  rewrite splitAt_whole by now destruct (online e).
  reflexivity.
Qed.

Section Lines.
Variable m_sysfs : option (gmap string SysfsFile).
Variable fuel : nat.

Lemma applyToCpus_given cpu0 fmin fmax gov on m :
  0 < fmin -> 0 < fmax ->
  applyToCpus m_sysfs fuel [cpu0] fmin fmax gov on m
  = Some (insert cpu0
            {| cpu := cpu0; freqMin := fmin; freqMax := fmax;
               governor := if negb (String.eqb gov "-") then gov else EmptyString;
               online := on; energyPref := EmptyString |} m).
Proof.
  intros Hmin Hmax. simpl.
  destruct (Z.gtb_spec fmin 0); [|lia]. destruct (Z.gtb_spec fmax 0); [|lia].
  now destruct m_sysfs.
Qed.

Lemma parseSettingsLine_entry e m :
  entryFits e ->
  parseSettingsLine m_sysfs fuel (entryBody e) m = Some (insert (cpu e) e m).
Proof.
  intros (Hc & Hmin & Mmin & Hmax & Mmax & Gne & Gw & Gdash & Hpref).
  destruct (whole_MHz _ Hmin Mmin) as (Qmin & Rmin & Emin).
  destruct (whole_MHz _ Hmax Mmax) as (Qmax & Rmax & Emax).
  assert (0 <= cpu e) as Hc0 by lia.
  assert (0 <= Z.quot (freqMin e) 1000) as Hq1 by lia.
  assert (0 <= Z.quot (freqMax e) 1000) as Hq2 by lia.
  unfold parseSettingsLine, splitWhitespace.
  rewrite (entryBody_pieces e Hc0 Hq1 Hq2 Gw). unfold decimal.
  destruct (number_word _ Hc0) as (d0 & r0 & E0 & _ & _ & _ & _ & Cm & Cc & _).
  destruct (number_word _ Hq1) as (d1 & r1 & E1 & _ & _ & _ & _ & _ & _ & D1).
  destruct (number_word _ Hq2) as (d2 & r2 & E2 & _ & _ & _ & _ & _ & _ & D2).
  fold (number (cpu e)) (number (Z.quot (freqMin e) 1000)) (number (Z.quot (freqMax e) 1000)).
  assert (List.filter (fun p => negb (isEmpty p))
            [number (cpu e); number (Z.quot (freqMin e) 1000);
             number (Z.quot (freqMax e) 1000); governor e; if online e then "y" else "n"]
          = [number (cpu e); number (Z.quot (freqMin e) 1000);
             number (Z.quot (freqMax e) 1000); governor e; if online e then "y" else "n"])
    as ->.
  { simpl. rewrite E0, E1, E2, Gne. simpl. now destruct (online e). }
  unfold parseCpuSpec. rewrite Cm, Cc. simpl andb. cbv iota.
  rewrite toInt_number
    by (unfold inIntRange, INT_MIN, INT_MAX in *;
        destruct (Z.leb_spec (-2147483648) (cpu e)); [|lia];
        destruct (Z.leb_spec (cpu e) 2147483647); [reflexivity | lia]).
  rewrite D1, D2, !toLongLong_number by assumption.
  destruct (Z.gtb_spec (Z.quot (freqMin e) 1000) 0); [|lia].
  destruct (Z.gtb_spec (Z.quot (freqMax e) 1000) 0); [|lia].
  simpl andb. cbv iota. rewrite Emin, Emax.
  rewrite applyToCpus_given by lia.
  apply String.eqb_neq in Gdash. rewrite Gdash. simpl negb. cbv iota.
  do 2 f_equal. destruct e as [c f1 f2 g o p]. simpl in *. subst p.
  now destruct o.
Qed.

(** An entry without governor: its line has four pieces, and the mark
    of its online state is read as its governor. *)
Lemma parseSettingsLine_no_governor e m :
  entryFitsButGovernor e ->
  parseSettingsLine m_sysfs fuel (entryBody e) m
  = Some (insert (cpu e)
            {| cpu := cpu e; freqMin := freqMin e; freqMax := freqMax e;
               governor := if online e then "y" else "n";
               online := true; energyPref := EmptyString |} m).
Proof.
  intros (Hc & Hmin & Mmin & Hmax & Mmax & Gempty).
  destruct (whole_MHz _ Hmin Mmin) as (Qmin & Rmin & Emin).
  destruct (whole_MHz _ Hmax Mmax) as (Qmax & Rmax & Emax).
  assert (0 <= cpu e) as Hc0 by lia.
  assert (0 <= Z.quot (freqMin e) 1000) as Hq1 by lia.
  assert (0 <= Z.quot (freqMax e) 1000) as Hq2 by lia.
  unfold parseSettingsLine, splitWhitespace.
  rewrite (entryBody_pieces e Hc0 Hq1 Hq2) by now rewrite Gempty.
  unfold decimal.
  destruct (number_word _ Hc0) as (d0 & r0 & E0 & _ & _ & _ & _ & Cm & Cc & _).
  destruct (number_word _ Hq1) as (d1 & r1 & E1 & _ & _ & _ & _ & _ & _ & D1).
  destruct (number_word _ Hq2) as (d2 & r2 & E2 & _ & _ & _ & _ & _ & _ & D2).
  fold (number (cpu e)) (number (Z.quot (freqMin e) 1000)) (number (Z.quot (freqMax e) 1000)).
  assert (List.filter (fun p => negb (isEmpty p))
            [number (cpu e); number (Z.quot (freqMin e) 1000);
             number (Z.quot (freqMax e) 1000); governor e; if online e then "y" else "n"]
          = [number (cpu e); number (Z.quot (freqMin e) 1000);
             number (Z.quot (freqMax e) 1000); if online e then "y" else "n"])
    as ->.
  { simpl. rewrite E0, E1, E2, Gempty. simpl. now destruct (online e). }
  unfold parseCpuSpec. rewrite Cm, Cc. simpl andb. cbv iota.
  rewrite toInt_number
    by (unfold inIntRange, INT_MIN, INT_MAX in *;
        destruct (Z.leb_spec (-2147483648) (cpu e)); [|lia];
        destruct (Z.leb_spec (cpu e) 2147483647); [reflexivity | lia]).
  rewrite D1, D2, !toLongLong_number by assumption.
  destruct (Z.gtb_spec (Z.quot (freqMin e) 1000) 0); [|lia].
  destruct (Z.gtb_spec (Z.quot (freqMax e) 1000) 0); [|lia].
  simpl andb. cbv iota. rewrite Emin, Emax.
  rewrite applyToCpus_given by lia.
  now destruct (online e).
Qed.
End Lines.

(** *** The file *)

Lemma entryLine_body e : entryLine e = entryBody e +:+ LF.
Proof. unfold entryLine, entryBody. now rewrite !append_assoc. Qed.

Lemma entryBody_line e :
  0 <= cpu e ->
  trimmed (entryBody e) = entryBody e /\ isEmpty (entryBody e) = false /\
  startsWith "#" (entryBody e) = false.
Proof.
  intros Hc. destruct (number_word _ Hc) as (d & r & E & Hsp & Hhash & _).
  assert (exists front, entryBody e = front +:+ (if online e then "y" else "n")) as [front Ef].
  { unfold entryBody. eexists. rewrite <- !append_assoc. reflexivity. }
  assert (exists rest, entryBody e = String d rest) as [rest Er].
  { unfold entryBody, decimal. fold (number (cpu e)). rewrite E. eexists. apply append_cons. }
  split; [|split].
  - unfold trimmed. rewrite Er, trimLeft_first by exact Hsp. rewrite <- Er, Ef.
    apply trimRight_app; now destruct (online e).
  - now rewrite Er.
  - rewrite Er. simpl. now rewrite Hhash.
Qed.

Lemma concat_cons (x : string) l :
  String.concat EmptyString (x :: l) = x +:+ String.concat EmptyString l.
Proof. destruct l; simpl; [now rewrite append_nil_r | reflexivity]. Qed.

Lemma splitAt_lines bodies :
  Forall (fun b => without (Ascii.eqb "010") b = true) bodies ->
  splitAt (Ascii.eqb "010") (String.concat EmptyString (List.map (fun b => b +:+ LF) bodies))
  = bodies ++ [EmptyString].
Proof.
  induction 1 as [|b bodies Hb _ IH]; [reflexivity|].
  rewrite map_cons, concat_cons, append_assoc.
  change (LF +:+ ?r) with (String "010" r).
  rewrite (splitAt_first (Ascii.eqb "010") b "010"%char _ Hb eq_refl), IH. reflexivity.
Qed.


Lemma entryBody_without (f : ascii -> bool) e :
  (forall c, f c = true -> isRegexSpace c = true) -> f "009"%char = false ->
  0 <= cpu e -> 0 <= Z.quot (freqMin e) 1000 -> 0 <= Z.quot (freqMax e) 1000 ->
  without isRegexSpace (governor e) = true ->
  without f (entryBody e) = true.
Proof.
  intros Hf Htab Hc Hmin Hmax Hg. unfold entryBody, decimal.
  assert (forall z, 0 <= z -> without f (number z) = true) as Hn.
  { intros z Hz. destruct (digits_number z Hz) as [Hd _].
    refine (without_weaken _ _ _ _ Hd). intros c Hc'. now apply digit_not_regexSpace, Hf. }
  fold (number (cpu e)) (number (Z.quot (freqMin e) 1000)) (number (Z.quot (freqMax e) 1000)).
  rewrite !without_app, !Hn by assumption.
  rewrite (without_weaken _ _ _ Hf Hg).
  assert (without f TAB = true) as -> by (unfold TAB; simpl; now rewrite Htab).
  destruct (online e); simpl.
  - destruct (f "y"%char) eqn:E; [apply Hf in E; discriminate | reflexivity].
  - destruct (f "n"%char) eqn:E; [apply Hf in E; discriminate | reflexivity].
Qed.

Lemma textMode_without s :
  without (fun c => Ascii.eqb c "013") s = true -> textMode s = s.
Proof.
  induction s as [|c s IH]; simpl; [reflexivity|].
  intros H. apply andb_true_iff in H as [Hc Hs]. apply negb_true_iff in Hc.
  now rewrite Hc, IH.
Qed.

Lemma without_lines f lines :
  f "010"%char = false -> Forall (fun b => without f b = true) lines ->
  without f (String.concat EmptyString (List.map (fun b => b +:+ LF) lines)) = true.
Proof.
  intros Hlf. induction 1 as [|b lines Hb _ IH]; [reflexivity|].
  rewrite map_cons, concat_cons, !without_app, Hb, IH. simpl. now rewrite Hlf.
Qed.

Lemma lf_or_cr_lf : forall c,
  Ascii.eqb "010" c = true -> Ascii.eqb c "010" || Ascii.eqb c "013" = true.
Proof. by_cases_on_char. Qed.
Lemma lf_or_cr_cr : forall c,
  Ascii.eqb c "013" = true -> Ascii.eqb c "010" || Ascii.eqb c "013" = true.
Proof. by_cases_on_char. Qed.
Lemma lf_or_cr_space : forall c,
  Ascii.eqb c "010" || Ascii.eqb c "013" = true -> isRegexSpace c = true.
Proof. by_cases_on_char. Qed.

Lemma profileText_lines p :
  profileText p = String.concat EmptyString (List.map (fun b => b +:+ LF) (linesOf p)).
Proof.
  unfold profileText, linesOf, headerLine.
  rewrite !map_cons, !concat_cons, List.map_map, !append_assoc, append_nil_l.
  rewrite (List.map_ext (fun kv : Z * CpuProfileEntry => entryLine (snd kv))
             (fun kv => entryBody (snd kv) +:+ LF)) by (intros kv; apply entryLine_body).
  reflexivity.
Qed.

Lemma readLines_lines bodies :
  Forall (fun b => without (fun c => Ascii.eqb c "010" || Ascii.eqb c "013") b = true) bodies ->
  readLines (String.concat EmptyString (List.map (fun b => b +:+ LF) bodies)) = bodies.
Proof.
  intros H. unfold readLines. rewrite textMode_without.
  - rewrite splitAt_lines.
    + rewrite last_snoc. apply removelast_last.
    + eapply List.Forall_impl; [|exact H]. intros b. apply without_weaken, lf_or_cr_lf.
  - apply without_lines; [reflexivity|].
    eapply List.Forall_impl; [|exact H]. intros b. apply without_weaken, lf_or_cr_cr.
Qed.

Section Files.
Variable m_sysfs : option (gmap string SysfsFile).
Variable fuel : nat.

Lemma parseLine_name path name :
  nameFits name ->
  parseLine m_sysfs fuel path ("# name: " +:+ name) (true, EmptyString, [])
  = Some (false, name, []).
Proof.
  intros (Hne & Htrim & _). destruct (trimmed_fixed _ Htrim) as [Hl Hr].
  unfold parseLine.
  assert (trimmed ("# name: " +:+ name) = "# name: " +:+ name) as ->.
  { unfold trimmed. change ("# name: " +:+ name) with (String "#" (" name: " +:+ name)).
    rewrite trimLeft_first by reflexivity.
    change (String "#" (" name: " +:+ name)) with ("# name: " +:+ name).
    now apply trimRight_app. }
  change ("# name: " +:+ name) with (String "#" (String " " (String "n" (String "a"
            (String "m" (String "e" (String ":" (String " " name)))))))).
  cbn [isEmpty startsWith mid Ascii.eqb Bool.eqb andb].
  unfold trimmed. change (trimLeft (String " " name)) with (trimLeft name).
  now rewrite Hl, Hr.
Qed.

Lemma parseLine_empty path acc :
  parseLine m_sysfs fuel path EmptyString acc = Some acc.
Proof. now destruct acc as [[? ?] ?]. Qed.

Lemma parseLine_header path name m :
  parseLine m_sysfs fuel path headerLine (false, name, m) = Some (false, name, m).
Proof. reflexivity. Qed.

Lemma parseLine_body path name e m :
  entryFits e \/ entryFitsButGovernor e ->
  parseLine m_sysfs fuel path (entryBody e) (false, name, m)
  = Some (false, name, insert (cpu e) (asRead e) m).
Proof.
  intros H.
  assert (0 <= cpu e) as Hc by (destruct H as [H|H]; unfold entryFits, entryFitsButGovernor in H; lia).
  destruct (entryBody_line e Hc) as (Ht & Hne & Hhash).
  unfold parseLine. rewrite Ht, Hne, Hhash.
  destruct H as [H|H].
  - rewrite (parseSettingsLine_entry m_sysfs fuel e m H).
    unfold asRead. destruct H as (_ & _ & _ & _ & _ & -> & _). reflexivity.
  - rewrite (parseSettingsLine_no_governor m_sysfs fuel e m H).
    unfold asRead. destruct H as (_ & _ & _ & _ & _ & ->). reflexivity.
Qed.

Lemma parseLines_bodies path name : forall todo done,
  ascending (done ++ todo) ->
  Forall (fun kv => fst kv = cpu (snd kv) /\ (entryFits (snd kv) \/ entryFitsButGovernor (snd kv)))
    todo ->
  parseLines m_sysfs fuel path (List.map (fun kv => entryBody (snd kv)) todo)
    (false, name, settingsAsRead done)
  = Some (false, name, settingsAsRead (done ++ todo)).
Proof.
  induction todo as [|[k e] rest IH]; intros done Hasc Hall.
  - now rewrite app_nil_r.
  - apply Forall_cons_1 in Hall as [[Hk He] Hrest]. simpl in Hk, He. subst k.
    rewrite map_cons. cbn [parseLines snd]. rewrite (parseLine_body path name e _ He).
    rewrite insert_last.
    + replace (settingsAsRead done ++ [(cpu e, asRead e)])
        with (settingsAsRead (done ++ [(cpu e, e)]))
        by (unfold settingsAsRead; now rewrite List.map_app).
      rewrite IH; [now rewrite <- app_assoc | now rewrite <- app_assoc | exact Hrest].
    + apply ascending_before in Hasc. unfold settingsAsRead.
      apply List.Forall_map. simpl. exact Hasc.
Qed.

(** The file of a profile gives the profile, each entry as it is read. *)
Lemma parse_written p d :
  nameFits (name p) -> ascending (settings p) ->
  Forall (fun kv => fst kv = cpu (snd kv) /\ (entryFits (snd kv) \/ entryFitsButGovernor (snd kv)))
    (settings p) ->
  files d !! filePath p = Some (profileText p) ->
  parseProfileFile m_sysfs fuel (filePath p) (isSystem p) d
  = Some {| name := name p; filePath := filePath p; isSystem := isSystem p;
            isBuiltin := false; settings := settingsAsRead (settings p) |}.
Proof.
  intros Hname Hasc Hall Hfile. unfold parseProfileFile. rewrite Hfile.
  rewrite profileText_lines, readLines_lines.
  - unfold linesOf. cbn [parseLines].
    rewrite (parseLine_name _ _ Hname).
    rewrite parseLine_empty, parseLine_header.
    change (@nil (Z * CpuProfileEntry)) with (settingsAsRead []).
    rewrite (parseLines_bodies (filePath p) (name p) (settings p) [] Hasc Hall).
    rewrite app_nil_l. destruct Hname as (-> & _). reflexivity.
  - unfold linesOf. destruct Hname as (_ & _ & Hlf).
    repeat apply List.Forall_cons.
    + rewrite without_app, Hlf. reflexivity.
    + reflexivity.
    + reflexivity.
    + apply List.Forall_map. eapply List.Forall_impl; [|exact Hall].
      intros kv [_ H]. cbn beta.
      assert (forall f, 0 < f <= LLONG_MAX -> f mod 1000 = 0 -> 0 <= Z.quot f 1000) as Hq
        by (intros f H1 H2; destruct (whole_MHz f H1 H2); lia).
      destruct H as [H|H].
      * destruct H as (Hc & Hmin & Hmin' & Hmax & Hmax' & _ & Hg & _).
        apply entryBody_without; auto using lf_or_cr_space; lia.
      * destruct H as (Hc & Hmin & Hmin' & Hmax & Hmax' & Hg).
        apply entryBody_without; auto using lf_or_cr_space; [lia|]. now rewrite Hg.
Qed.

End Files.

(** *** Creating and deleting *)

Lemma createProfile_done cfg name cs st st' :
  createProfile cfg name cs st = (true, st') ->
  m_profiles st' = <[name := created cfg name cs]> (m_profiles st) /\
  files (disk st') = <[filePath (created cfg name cs) := profileText (created cfg name cs)]>
                       (files (disk st)) /\
  canRemove (disk st') = canRemove (disk st).
Proof.
  unfold createProfile. destruct (isEmpty name); [discriminate|].
  destruct (hasProfile name st && negb (canDeleteProfile name st)); [discriminate|].
  fold (created cfg name cs). unfold writeProfileFile.
  destruct (userDirExists (disk st)); simpl.
  - destruct (canOpen (disk st) _); simpl; [|discriminate].
    intros [= <-]. simpl. auto.
  - destruct (canMakeDir (disk st)); simpl; [|discriminate].
    destruct (canOpen (disk st) _); simpl; [|discriminate].
    intros [= <-]. simpl. auto.
Qed.

Lemma settingsAsRead_fits m :
  Forall (fun kv => entryFits (snd kv)) m -> settingsAsRead m = m.
Proof.
  induction 1 as [|[k e] m He _ IH]; [reflexivity|].
  simpl in *. rewrite IH. unfold asRead.
  destruct He as (_ & _ & _ & _ & _ & -> & _). reflexivity.
Qed.

Lemma created_reads_back cfg m_sysfs fuel name cs st st' :
  nameFits name ->
  Forall (fun e => entryFits e \/ entryFitsButGovernor e) cs ->
  createProfile cfg name cs st = (true, st') ->
  m_profiles st' !! name = Some (created cfg name cs) /\
  parseProfileFile m_sysfs fuel (filePath (created cfg name cs)) false (disk st')
  = Some {| name := name; filePath := filePath (created cfg name cs);
            isSystem := false; isBuiltin := false;
            settings := settingsAsRead (collect cs) |}.
Proof.
  intros Hname Hcs Hdone. destruct (createProfile_done _ _ _ _ _ Hdone) as (Hm & Hf & _).
  split; [rewrite Hm; apply lookup_insert_eq|].
  destruct (collect_map _ cs Hcs) as [Hasc Hall].
  apply (parse_written m_sysfs fuel (created cfg name cs) (disk st') Hname Hasc Hall).
  rewrite Hf. apply lookup_insert_eq.
Qed.

Lemma request_keeps cfg r st name p :
  m_profiles st !! name = Some p -> canDelete p = false ->
  m_profiles (request cfg r st) !! name = Some p.
Proof.
  intros Hp Hcan. destruct r as [name' cs|name']; simpl.
  - unfold createProfile. destruct (isEmpty name'); [exact Hp|].
    destruct (String.eqb_spec name' name) as [->|Hne].
    + unfold hasProfile, canDeleteProfile. rewrite Hp, Hcan. exact Hp.
    + destruct (hasProfile name' st && negb (canDeleteProfile name' st)); [exact Hp|].
      destruct (writeProfileFile _ _) as [[] d]; simpl; [|exact Hp].
      now rewrite lookup_insert_ne.
  - unfold deleteProfile.
    destruct (String.eqb_spec name' name) as [->|Hne].
    + unfold canDeleteProfile. rewrite Hp, Hcan. exact Hp.
    + destruct (negb (canDeleteProfile name' st)); [exact Hp|].
      destruct (m_profiles st !! name') as [p'|]; [|exact Hp].
      destruct (negb (isEmpty (filePath p')) && _ && negb _); [exact Hp|].
      simpl. now rewrite lookup_delete_ne.
Qed.

(** The file does not carry the energy preferences. *)
Lemma profileText_withoutEnergyPrefs p : profileText (withoutEnergyPrefs p) = profileText p.
Proof.
  unfold profileText, withoutEnergyPrefs. cbn [name settings].
  now rewrite List.map_map.
Qed.

Lemma ascending_withoutEnergyPrefs : forall m,
  ascending m ->
  ascending (List.map (fun kv => (fst kv, withoutEnergyPref (snd kv))) m).
Proof.
  induction m as [|[k e] m IH]; simpl; [trivial|].
  intros [Hk Hm]. split; [|now apply IH].
  apply List.Forall_map. exact Hk.
Qed.

Lemma withoutEnergyPref_fits e : entryFitsButEnergyPref e -> entryFits (withoutEnergyPref e).
Proof. unfold entryFitsButEnergyPref, entryFits. simpl. tauto. Qed.

Lemma withoutEnergyPref_none e : energyPref e = EmptyString -> withoutEnergyPref e = e.
Proof. destruct e. unfold withoutEnergyPref. simpl. now intros ->. Qed.

(** X27. What [createProfile] wrote is read back as the profile it stored,
    but for the energy preferences, which the file does not carry.  For
    a name without white space at its ends, line feed and carriage
    return, and entries with CPU numbers that are not negative, positive
    bounds in whole MHz and a governor that is a word other than "-":
    [parseProfileFile] on the file of the new profile returns the
    profile that is in [m_profiles] with every energy preference empty;
    so it returns the very profile stored when no entry has an energy
    preference. *)
Theorem created_profile_reads_back cfg m_sysfs fuel name cs st st' :
  nameFits name -> Forall entryFitsButEnergyPref cs ->
  createProfile cfg name cs st = (true, st') ->
  exists p, m_profiles st' !! name = Some p /\
            parseProfileFile m_sysfs fuel (filePath p) false (disk st')
            = Some (withoutEnergyPrefs p) /\
            (Forall (fun e => energyPref e = EmptyString) cs ->
             parseProfileFile m_sysfs fuel (filePath p) false (disk st') = Some p).
Proof.
  intros Hname Hcs Hdone. exists (created cfg name cs).
  destruct (createProfile_done _ _ _ _ _ Hdone) as (Hm & Hf & _).
  split; [rewrite Hm; apply lookup_insert_eq|].
  destruct (collect_map _ cs Hcs) as [Hasc Hall].
  assert (parseProfileFile m_sysfs fuel (filePath (created cfg name cs)) false (disk st')
          = Some (withoutEnergyPrefs (created cfg name cs))) as Hparse.
  { pose proof (parse_written m_sysfs fuel (withoutEnergyPrefs (created cfg name cs))
                  (disk st')) as Hw.
    change (filePath (withoutEnergyPrefs (created cfg name cs)))
      with (filePath (created cfg name cs)) in Hw.
    change (isSystem (withoutEnergyPrefs (created cfg name cs))) with false in Hw.
    rewrite Hw.
    - unfold withoutEnergyPrefs, created. cbn [Profile.name filePath isSystem isBuiltin settings].
      rewrite settingsAsRead_fits; [reflexivity|].
      apply List.Forall_map. eapply List.Forall_impl; [|exact Hall].
      intros kv [_ H]. now apply withoutEnergyPref_fits.
    - exact Hname.
    - now apply ascending_withoutEnergyPrefs.
    - apply List.Forall_map. eapply List.Forall_impl; [|exact Hall].
      intros kv [Hk H]. split; [exact Hk|]. left. now apply withoutEnergyPref_fits.
    - rewrite Hf, lookup_insert_eq.
      now rewrite <- (profileText_withoutEnergyPrefs (created cfg name cs)). }
  split; [exact Hparse|].
  intros Hnone. rewrite Hparse. f_equal.
  destruct (collect_map _ cs Hnone) as [_ Hall'].
  unfold withoutEnergyPrefs, created. cbn [Profile.name filePath isSystem isBuiltin settings].
  f_equal. rewrite <- (List.map_id (collect cs)) at 2.
  apply List.map_ext_Forall. eapply List.Forall_impl; [|exact Hall'].
  intros [k e] [_ H]. simpl in *. now rewrite withoutEnergyPref_none.
Qed.

Lemma created_profile_reads_back_witness :
  exists p,
    m_profiles (snd (createProfile home "My Quiet" prefEntries noProfiles)) !! "My Quiet"
    = Some p /\
    parseProfileFile None 0 (filePath p) false
      (disk (snd (createProfile home "My Quiet" prefEntries noProfiles)))
    = Some (withoutEnergyPrefs p) /\
    (Forall (fun e => energyPref e = EmptyString) prefEntries ->
     parseProfileFile None 0 (filePath p) false
       (disk (snd (createProfile home "My Quiet" prefEntries noProfiles))) = Some p).
Proof.
  apply (created_profile_reads_back home None 0 "My Quiet" prefEntries noProfiles).
  - repeat split; reflexivity.
  - repeat apply List.Forall_cons; try apply List.Forall_nil;
      unfold entryFitsButEnergyPref, INT_MAX, LLONG_MAX; simpl;
      repeat split; try reflexivity; try lia; discriminate.
  - vm_compute. reflexivity.
Defined.

(** X28. An entry without governor is not read back as it was written:
    its line has four words, so the mark of its online state is taken for
    the governor, and the CPU is read as online, also when it was written
    as offline.  The profile read back has the settings of the stored one
    with each such entry changed in that way. *)
Theorem entry_without_governor_is_read_online cfg m_sysfs fuel name cs st st' :
  nameFits name ->
  Forall (fun e => entryFits e \/ entryFitsButGovernor e) cs ->
  createProfile cfg name cs st = (true, st') ->
  exists p q,
    m_profiles st' !! name = Some p /\
    parseProfileFile m_sysfs fuel (filePath p) false (disk st') = Some q /\
    Profile.name q = name /\
    settings q = settingsAsRead (settings p) /\
    forall k e, In (k, e) (settings p) -> governor e = EmptyString ->
      In (k, {| cpu := cpu e; freqMin := freqMin e; freqMax := freqMax e;
                governor := if online e then "y" else "n";
                online := true; energyPref := EmptyString |}) (settings q).
Proof.
  intros Hname Hcs Hdone.
  destruct (created_reads_back cfg m_sysfs fuel _ _ _ _ Hname Hcs Hdone) as [Hm Hp].
  eexists _, _. split; [exact Hm|]. split; [exact Hp|]. split; [reflexivity|].
  split; [reflexivity|]. simpl. intros k e Hin Hg.
  unfold settingsAsRead. apply List.in_map_iff. exists (k, e). split; [|exact Hin].
  simpl. unfold asRead. now rewrite Hg.
Qed.

Lemma entry_without_governor_is_read_online_witness :
  exists p q,
    m_profiles (snd (createProfile home "My Quiet" bareEntries noProfiles)) !! "My Quiet"
    = Some p /\
    parseProfileFile None 0 (filePath p) false
      (disk (snd (createProfile home "My Quiet" bareEntries noProfiles))) = Some q /\
    Profile.name q = "My Quiet" /\
    settings q = settingsAsRead (settings p) /\
    forall k e, In (k, e) (settings p) -> governor e = EmptyString ->
      In (k, {| cpu := cpu e; freqMin := freqMin e; freqMax := freqMax e;
                governor := if online e then "y" else "n";
                online := true; energyPref := EmptyString |}) (settings q).
Proof.
  apply (entry_without_governor_is_read_online home None 0 "My Quiet" bareEntries noProfiles).
  - repeat split; reflexivity.
  - apply List.Forall_cons; [left | apply List.Forall_cons; [right | apply List.Forall_nil]];
      unfold entryFits, entryFitsButGovernor, INT_MAX, LLONG_MAX; simpl;
      repeat split; try reflexivity; try lia; discriminate.
  - vm_compute. reflexivity.
Defined.

(** X29. System and builtin profiles stay: whatever profiles are created
    and deleted, under whatever names, a profile that cannot be deleted
    is still in [m_profiles] under its name, unchanged. *)
Theorem protected_profiles_stay cfg rs : forall st name p,
  m_profiles st !! name = Some p -> canDelete p = false ->
  m_profiles (requests cfg rs st) !! name = Some p.
Proof.
  unfold requests. induction rs as [|r rs IH]; intros st name p Hp Hcan; [exact Hp|].
  simpl. apply IH; [|exact Hcan]. now apply request_keeps.
Qed.

Lemma protected_profiles_stay_witness :
  m_profiles (requests home [create "Balanced" wordEntries; remove "Balanced";
                             create "Mine" wordEntries] withBalanced) !! "Balanced"
  = Some balanced.
Proof.
  apply (protected_profiles_stay home
           [create "Balanced" wordEntries; remove "Balanced"; create "Mine" wordEntries]
           withBalanced "Balanced" balanced); reflexivity.
Defined.

(** X30. Two names that differ only in spaces and hyphens share one
    file: creating the second profile overwrites the file of the first,
    and deleting the second removes it, while the first profile stays in
    [m_profiles] with the path of a file that is no longer there. *)
Theorem names_share_a_file cfg n1 n2 cs1 cs2 st st1 st2 st3 :
  n1 <> n2 -> replace " " "-" n1 = replace " " "-" n2 ->
  createProfile cfg n1 cs1 st = (true, st1) ->
  createProfile cfg n2 cs2 st1 = (true, st2) ->
  deleteProfile n2 st2 = (true, st3) ->
  exists p1 p2,
    m_profiles st1 !! n1 = Some p1 /\ m_profiles st2 !! n1 = Some p1 /\
    m_profiles st2 !! n2 = Some p2 /\
    files (disk st1) !! filePath p1 = Some (profileText p1) /\
    files (disk st2) !! filePath p1 = Some (profileText p2) /\
    m_profiles st3 !! n1 = Some p1 /\
    files (disk st3) !! filePath p1 = None.
Proof.
  intros Hne Hsame H1 H2 H3.
  destruct (createProfile_done _ _ _ _ _ H1) as (Hm1 & Hf1 & _).
  destruct (createProfile_done _ _ _ _ _ H2) as (Hm2 & Hf2 & _).
  assert (filePath (created cfg n2 cs2) = filePath (created cfg n1 cs1)) as Hpath
    by (unfold created; simpl; now rewrite Hsame).
  exists (created cfg n1 cs1), (created cfg n2 cs2).
  assert (m_profiles st2 !! n2 = Some (created cfg n2 cs2)) as Hp2
    by (rewrite Hm2; apply lookup_insert_eq).
  assert (m_profiles st2 !! n1 = Some (created cfg n1 cs1)) as Hp1.
  { rewrite Hm2, lookup_insert_ne by congruence. rewrite Hm1. apply lookup_insert_eq. }
  assert (files (disk st2) !! filePath (created cfg n1 cs1)
          = Some (profileText (created cfg n2 cs2))) as Hfile.
  { rewrite Hf2, Hpath. apply lookup_insert_eq. }
  split; [rewrite Hm1; apply lookup_insert_eq|]. split; [exact Hp1|]. split; [exact Hp2|].
  split; [rewrite Hf1; apply lookup_insert_eq|]. split; [exact Hfile|].
  unfold deleteProfile in H3. destruct (negb (canDeleteProfile n2 st2)); [discriminate|].
  rewrite Hp2, Hpath, Hfile in H3.
  assert (isEmpty (filePath (created cfg n1 cs1)) = false) as Hne'.
  { unfold created, userProfileDir. simpl. destruct cfg; reflexivity. }
  rewrite Hne' in H3. simpl in H3.
  destruct (canRemove (disk st2) _); simpl in H3; [|discriminate].
  injection H3 as <-. simpl.
  split; [now rewrite lookup_delete_ne by congruence | apply lookup_delete_eq].
Qed.

Lemma names_share_a_file_witness :
  exists p1 p2,
    m_profiles afterFirst !! "a b" = Some p1 /\ m_profiles afterSecond !! "a b" = Some p1 /\
    m_profiles afterSecond !! "a-b" = Some p2 /\
    files (disk afterFirst) !! filePath p1 = Some (profileText p1) /\
    files (disk afterSecond) !! filePath p1 = Some (profileText p2) /\
    m_profiles afterDelete !! "a b" = Some p1 /\
    files (disk afterDelete) !! filePath p1 = None.
Proof.
  apply (names_share_a_file home "a b" "a-b" wordEntries bareEntries noProfiles
           afterFirst afterSecond afterDelete).
  - discriminate.
  - reflexivity.
  - vm_compute. reflexivity.
  - vm_compute. reflexivity.
  - vm_compute. reflexivity.
Defined.

End ProfileManagerFacts.
